(** * Response parsing and deviation analysis of the consistency test

  A shallow embedding of [run_test/score_mappings.py],
  [run_test/audit_scoring.py], [run_test/ai_auditor.py],
  [run_test/ai_auditor_num.py] and [run_test.py].

  Conventions of the embedding.
  - A Python [str] is a [string]; a character is a code point below 256, so
    [str.strip], [str.lower] and the regular expression class [\d] are the
    Python ones restricted to that range.
  - A Python [float] is a finite rational number, an infinity or
    not-a-number.  [float(s)] of a text and the module [AuditScoring]
    compute with the rational numbers themselves, compared with [==], and
    [round(x, 2)] is there the nearest hundredth, ties to the even one:
    they serve the statements about the structure of a report and about
    bounds, and what they say of a number holds up to the rounding of a
    double.  The module [AuditScoring64] is [calculate_deviations] with
    the operations of CPython on doubles ([Binary64]); the statements
    that give a number of the report, or the metric it selects, are about
    it.
  - A [dict] that is only looked up and updated is a [gmap]; a [dict] or a
    table that the code iterates over is a list of pairs in declaration (or
    insertion) order.
  - A raised exception that is not caught ([KeyError],
    [ZeroDivisionError]) is [None] of an [option]; the [ValueError] of
    [float], which its callers catch, is [None] as well. *)

From Stdlib Require Import Ascii String QArith Qpower Qround Qabs Qminmax Lqa.
From stdpp Require Import gmap strings list fin_maps.

Local Open Scope string_scope.
Local Open Scope Z_scope.

(** ** Python string operations *)

Module Py.

Definition code (c : ascii) : N := N_of_ascii c.

Definition in_range (lo hi : N) (c : ascii) : bool :=
  ((lo <=? code c) && (code c <=? hi))%N.

(** [str.isspace] on code points below 256: the characters that
    [str.strip()] and [str.split()] treat as white space. *)
Definition isspace (c : ascii) : bool :=
  in_range 9 13 c || in_range 28 32 c
  || (code c =? 133)%N || (code c =? 160)%N.

(** [\d] of the [re] module on code points below 256. *)
Definition isdigit (c : ascii) : bool := in_range 48 57 c.

(** [str.lower] on one character: A-Z and the upper-case letters of
    Latin-1 move up by 32. *)
Definition lower_char (c : ascii) : ascii :=
  if in_range 65 90 c
     || (in_range 192 222 c && negb (code c =? 215)%N)
  then ascii_of_N (code c + 32)
  else c.

Fixpoint lower (s : string) : string :=
  match s with
  | EmptyString => EmptyString
  | String c s' => String (lower_char c) (lower s')
  end.

(** [s.startswith(p)] *)
Definition startswith (s p : string) : bool := String.prefix p s.

Fixpoint lstrip (s : string) : string :=
  match s with
  | EmptyString => EmptyString
  | String c s' => if isspace c then lstrip s' else s
  end.

(** Drops the trailing characters that satisfy [f]. *)
Fixpoint rstrip_with (f : ascii -> bool) (s : string) : string :=
  match s with
  | EmptyString => EmptyString
  | String c s' =>
      match rstrip_with f s' with
      | EmptyString => if f c then EmptyString else String c EmptyString
      | r => String c r
      end
  end.

Definition rstrip (s : string) : string := rstrip_with isspace s.

(** [s.strip()] *)
Definition strip (s : string) : string := rstrip (lstrip s).

(** [s.rstrip(".")] and the like, for a one-character argument. *)
Definition rstrip_char (c : ascii) (s : string) : string :=
  rstrip_with (Ascii.eqb c) s.

(** [s.replace(c, '')] for a one-character [c]. *)
Fixpoint remove_char (c : ascii) (s : string) : string :=
  match s with
  | EmptyString => EmptyString
  | String d s' =>
      if Ascii.eqb c d then remove_char c s' else String d (remove_char c s')
  end.

(** [re.sub] of every character outside a class by the empty string. *)
Fixpoint keep (f : ascii -> bool) (s : string) : string :=
  match s with
  | EmptyString => EmptyString
  | String c s' => if f c then String c (keep f s') else keep f s'
  end.

(** [s.split(sep)] for a one-character separator: never empty. *)
Fixpoint split (sep : ascii) (s : string) : list string :=
  match s with
  | EmptyString => [EmptyString]
  | String c s' =>
      if Ascii.eqb sep c then EmptyString :: split sep s'
      else match split sep s' with
           | [] => [String c EmptyString]
           | w :: ws => String c w :: ws
           end
  end.

(** [s.split(sep, 1)]: one part when [sep] does not occur, otherwise
    the text before the first [sep] and the text after it. *)
Fixpoint split1 (sep : ascii) (s : string) : list string :=
  match s with
  | EmptyString => [EmptyString]
  | String c s' =>
      if Ascii.eqb sep c then [EmptyString; s']
      else match split1 sep s' with
           | w :: ws => String c w :: ws
           | [] => [String c EmptyString]
           end
  end.

(** [s.split()]: the maximal runs of characters that are not white space. *)
Fixpoint split_ws_aux (cur : option string) (s : string) : list string :=
  match s with
  | EmptyString => match cur with Some w => [w] | None => [] end
  | String c s' =>
      if isspace c
      then match cur with
           | Some w => w :: split_ws_aux None s'
           | None => split_ws_aux None s'
           end
      else split_ws_aux
             (Some (match cur with
                    | Some w => w ++ String c EmptyString
                    | None => String c EmptyString
                    end)) s'
  end.

Definition split_ws (s : string) : list string := split_ws_aux None s.

(** [sep.join(l)] *)
Definition join (sep : string) (l : list string) : string :=
  String.concat sep l.

(** [sub in s] *)
Fixpoint contains (sub s : string) : bool :=
  String.prefix sub s
  || match s with
     | EmptyString => false
     | String _ s' => contains sub s'
     end.

(** [next((x for x in l if p(x)), None)] *)
Definition next_where {A} (p : A -> bool) (l : list A) : option A :=
  List.find p l.

(** Truth value of a string: the empty string is false. *)
Definition truthy (s : string) : bool :=
  match s with EmptyString => false | _ => true end.

End Py.

(** ** [score_mappings.py] *)

Module ScoreMappings.

Definition SCORE_MAPPINGS : list (string * list (string * Z)) :=
  [ ("readability", [("highly readable", 100); ("moderately readable", 50); ("low readability", 0)]);
    ("consistency", [("highly consistent", 100); ("somewhat inconsistent", 50); ("not consistent", 0)]);
    ("modularity", [("excellent", 100); ("average", 50); ("poor", 0)]);
    ("maintainability", [("high", 100); ("moderate", 50); ("low", 0)]);
    ("reusability", [("high", 100); ("moderate", 50); ("low", 0)]);
    ("redundancy", [("no redundancies", 100); ("some redundancies", 50); ("high redundancy", 0)]);
    ("technical_debt", [("none", 100); ("low", 66); ("moderate", 33); ("high", 0)]);
    ("code_smells", [("none", 100); ("low", 66); ("moderate", 33); ("high", 0)]);
    ("completeness", [("fully functional", 100); ("partially functional", 50); ("not functional", 0)]);
    ("edge_cases", [("excellently covered", 100); ("partially covered", 66); ("poorly covered", 33); ("none covered", 0)]);
    ("error_handling", [("robust", 100); ("adequate", 50); ("poor", 0)]);
    ("efficiency", [("high", 100); ("average", 50); ("poor", 0)]);
    ("scalability", [("high", 100); ("moderate", 50); ("not scalable", 0)]);
    ("resource_utilization", [("optimal", 100); ("acceptable", 50); ("excessive", 0)]);
    ("load_handling", [("excellent", 100); ("good", 66); ("average", 33); ("poor", 0)]);
    ("parallel_processing", [("fully supported", 100); ("partially supported", 50); ("not supported", 0); ("not required", 100)]);
    ("database_interaction_efficiency", [("optimized", 100); ("sufficient", 50); ("inefficient", 0); ("not required", 100)]);
    ("concurrency_management", [("robust", 100); ("adequate", 50); ("poor", 0); ("not required", 100)]);
    ("state_management_efficiency", [("optimal", 100); ("adequate", 50); ("problematic", 0); ("not required", 100)]);
    ("modularity_decoupling", [("highly modular", 100); ("somewhat modular", 50); ("monolithic", 0)]);
    ("configuration_customization_ease", [("flexible", 100); ("moderate", 50); ("rigid", 0)]);
    ("input_validation", [("strong", 100); ("adequate", 50); ("weak", 0); ("not required", 100)]);
    ("data_handling", [("secure", 100); ("moderately secure", 50); ("insecure", 0); ("not required", 100)]);
    ("authentication", [("robust", 100); ("adequate", 50); ("non-existent", 0); ("not required", 100)]);
    ("independence", [("multi-platform", 100); ("limited platforms", 50); ("single platform", 25)]);
    ("integration", [("seamless", 100); ("requires workarounds", 50); ("incompatible", 0)]);
    ("inline_comments", [("comprehensive", 100); ("adequate", 66); ("sparse", 33); ("none", 0)]);
    ("standards", [("fully compliant", 100); ("partially compliant", 50); ("non-compliant", 0)]);
    ("design_patterns", [("extensive", 100); ("moderate", 66); ("rare", 33); ("none", 0)]);
    ("code_complexity", [("low", 100); ("moderate", 50); ("high", 0)]);
    ("refactoring_opportunities", [("many", 100); ("some", 66); ("few", 33); ("none", 0)]) ].

(** [d[key]] / [key in d] on a table written as a list of pairs. *)
Fixpoint table_get {A} (key : string) (d : list (string * A)) : option A :=
  match d with
  | [] => None
  | (k, v) :: d' => if String.eqb k key then Some v else table_get key d'
  end.

(** The [for key, score in mapping.items()] loop of [get_score]. *)
Fixpoint get_score_loop (mapping : list (string * Z)) (value : string) : Z :=
  match mapping with
  | [] => 0
  | (key, score) :: rest =>
      if Py.startswith value key then score else get_score_loop rest value
  end.

Definition get_score (attribute value : string) : Z :=
  match table_get attribute SCORE_MAPPINGS with
  | None => 0
  | Some mapping => get_score_loop mapping (Py.lower value)
  end.

End ScoreMappings.

(** ** Python numbers, over the rationals *)

Module PyNum.

Local Open Scope Q_scope.

(** [a > b] *)
Definition gt (a b : Q) : bool := negb (Qle_bool a b).

(** [a / b]; [None] is [ZeroDivisionError]. *)
Definition div (a b : Q) : option Q :=
  if Qeq_bool b 0 then None else Some (a / b).

(** [float(n)] of an [int]. *)
Definition of_int (n : Z) : Q := inject_Z n.

(** [len(l)] as a number. *)
Definition len {A} (l : list A) : Q := inject_Z (Z.of_nat (length l)).

(** [sum(l)] of a list of [int]. *)
Definition sum_int (l : list Z) : Z := fold_left Z.add l 0%Z.

(** [sum(l)] of a list of numbers: accumulated from the left, from 0. *)
Definition sum_float (l : list Q) : Q := fold_left Qplus l 0.

(** [max(l)] and [min(l)] of a non-empty list, written for its head and
    tail. *)
Definition max_of (x : Z) (l : list Z) : Z := fold_left Z.max l x.
Definition min_of (x : Z) (l : list Z) : Z := fold_left Z.min l x.

(** Rounding to the nearest integer, ties to the even one. *)
Definition round_half_even (x : Q) : Z :=
  let f := Qfloor x in
  match Qcompare (x - inject_Z f) (1 # 2) with
  | Lt => f
  | Gt => (f + 1)%Z
  | Eq => if Z.even f then f else (f + 1)%Z
  end.

(** [round(x, 2)] of a rational number: the nearest hundredth, ties to the
    even one. *)
Definition round2 (x : Q) : Q := inject_Z (round_half_even (x * 100)) / 100.

End PyNum.

(** ** [audit_scoring.py], over the rationals

  [calculate_deviations] with the numbers of [PyNum]: no operation rounds
  and none overflows.  [AuditScoring64] below has the operations of
  CPython. *)

Module AuditScoring.

Local Open Scope Q_scope.

(** A result row: [row['filename']] and the integer metric columns
    ([int(row[field])] is the identity on them). *)
Record Row := { filename : string; scores : gmap string Z }.

Record metric_info := {
  mi_mean : Q;
  mi_min : Z;
  mi_max : Z;
  mi_range : Z;
  mi_avg_deviation_percent : Q;
  mi_values_per_cycle : list Z }.

Record file_stats := {
  fs_metrics : gmap string metric_info;
  fs_total_deviation : Q;
  fs_max_deviation : Q;
  fs_most_inconsistent_metric : option string;
  fs_avg_total_deviation : Q }.

Record overall_metric := {
  om_total_deviation : Q;
  om_count : Z;
  om_avg_deviation : Q }.

Record overall_stats := {
  ov_metrics : gmap string overall_metric;
  ov_total_deviation : Q;
  ov_avg_total_deviation : Q }.

Record deviations := {
  per_file : gmap string file_stats;
  overall : overall_stats }.

Definition numeric_fields : list string :=
  [ "readability"; "consistency"; "modularity"; "maintainability"; "reusability";
    "redundancy"; "technical_debt"; "code_smells"; "completeness"; "edge_cases";
    "error_handling"; "efficiency"; "scalability"; "resource_utilization";
    "load_handling"; "parallel_processing"; "database_interaction_efficiency";
    "concurrency_management"; "state_management_efficiency"; "modularity_decoupling";
    "configuration_customization_ease"; "input_validation"; "data_handling";
    "authentication"; "independence"; "integration"; "inline_comments"; "standards";
    "design_patterns"; "code_complexity"; "refactoring_opportunities" ].

(** A [for] loop whose body may raise. *)
Fixpoint for_each {S A} (body : S -> A -> option S) (l : list A) (s : S)
  : option S :=
  match l with
  | [] => Some s
  | x :: l' => match body s x with
               | Some s' => for_each body l' s'
               | None => None
               end
  end.

(** Lines 24-28: the rows grouped by file name, the groups in the order in
    which their file name first occurs. *)
Fixpoint group_append (files_data : list (string * list Row)) (row : Row)
  : list (string * list Row) :=
  match files_data with
  | [] => [(filename row, [row])]
  | (f, rs) :: rest =>
      if String.eqb f (filename row) then (f, (rs ++ [row])%list) :: rest
      else (f, rs) :: group_append rest row
  end.

Definition group_by_filename (results : list Row) : list (string * list Row) :=
  fold_left group_append results [].

(** Line 70: [[int(result[field]) for result in file_results]]. *)
Definition field_values (field : string) (file_results : list Row)
  : option (list Z) :=
  mapM (fun result => scores result !! field) file_results.

(** Line 74. *)
Definition mean_of (values : list Z) : option Q :=
  PyNum.div (PyNum.of_int (PyNum.sum_int values)) (PyNum.len values).

(** Line 80: [[abs(v - mean_value) / mean_value * 100 for v in values]]. *)
Definition deviations_from_mean (mean_value : Q) (values : list Z)
  : option (list Q) :=
  mapM (fun v =>
          match PyNum.div (Qabs (PyNum.of_int v - mean_value)) mean_value with
          | None => None
          | Some x => Some (x * 100)
          end)
       values.

(** Lines 79-83. *)
Definition avg_deviation_of (mean_value : Q) (values : list Z) : option Q :=
  if PyNum.gt mean_value 0 then
    match deviations_from_mean mean_value values with
    | None => None
    | Some deviations => PyNum.div (PyNum.sum_float deviations) (PyNum.len deviations)
    end
  else Some 0.

(** Lines 75-77 and 85-92, for the non-empty list [v :: vs]. *)
Definition metric_info_of (v : Z) (vs : list Z) (mean_value avg_deviation : Q)
  : metric_info :=
  let max_value := PyNum.max_of v vs in
  let min_value := PyNum.min_of v vs in
  {| mi_mean := PyNum.round2 mean_value;
     mi_min := min_value;
     mi_max := max_value;
     mi_range := (max_value - min_value)%Z;
     mi_avg_deviation_percent := PyNum.round2 avg_deviation;
     mi_values_per_cycle := v :: vs |}.

(** Lines 94-102: what one metric does to the statistics of its file. *)
Definition record_metric (fs : file_stats) (field : string) (v : Z) (vs : list Z)
    (mean_value avg_deviation : Q) : file_stats :=
  let larger := PyNum.gt avg_deviation (fs_max_deviation fs) in
  {| fs_metrics :=
       <[field := metric_info_of v vs mean_value avg_deviation]> (fs_metrics fs);
     fs_total_deviation := fs_total_deviation fs + avg_deviation;
     fs_max_deviation := if larger then avg_deviation else fs_max_deviation fs;
     fs_most_inconsistent_metric :=
       if larger then Some field else fs_most_inconsistent_metric fs;
     fs_avg_total_deviation := fs_avg_total_deviation fs |}.

(** Lines 105-106; a key that was not initialised would raise. *)
Definition count_metric (om : gmap string overall_metric) (field : string)
    (avg_deviation : Q) : option (gmap string overall_metric) :=
  match om !! field with
  | None => None
  | Some m =>
      Some (<[field := {| om_total_deviation := om_total_deviation m + avg_deviation;
                          om_count := (om_count m + 1)%Z;
                          om_avg_deviation := om_avg_deviation m |}]> om)
  end.

(** Lines 69-106: the body of [for field in numeric_fields]. *)
Definition metric_step (file_results : list Row)
    (st : file_stats * gmap string overall_metric) (field : string)
  : option (file_stats * gmap string overall_metric) :=
  match field_values field file_results with
  | None => None
  | Some [] => Some st
  | Some (v :: vs) =>
      match mean_of (v :: vs) with
      | None => None
      | Some mean_value =>
          match avg_deviation_of mean_value (v :: vs) with
          | None => None
          | Some avg_deviation =>
              match count_metric (snd st) field avg_deviation with
              | None => None
              | Some om =>
                  Some (record_metric (fst st) field v vs mean_value avg_deviation, om)
              end
          end
      end
  end.

Definition new_file_stats : file_stats :=
  {| fs_metrics := ∅;
     fs_total_deviation := 0;
     fs_max_deviation := 0;
     fs_most_inconsistent_metric := None;
     fs_avg_total_deviation := 0 |}.

(** Lines 109-112. *)
Definition close_file (fs : file_stats) : option file_stats :=
  match PyNum.div (fs_total_deviation fs) (PyNum.len numeric_fields) with
  | None => None
  | Some average =>
      Some {| fs_metrics := fs_metrics fs;
              fs_total_deviation := fs_total_deviation fs;
              fs_max_deviation := fs_max_deviation fs;
              fs_most_inconsistent_metric := fs_most_inconsistent_metric fs;
              fs_avg_total_deviation := PyNum.round2 average |}
  end.

(** Lines 59-115: the body of [for filename, file_results in
    files_data.items()]. *)
Definition file_step (d : deviations) (entry : string * list Row)
  : option deviations :=
  let '(name, file_results) := entry in
  match for_each (metric_step file_results) numeric_fields
          (new_file_stats, ov_metrics (overall d)) with
  | None => None
  | Some (fs, om) =>
      match close_file fs with
      | None => None
      | Some fs' =>
          Some {| per_file := <[name := fs']> (per_file d);
                  overall :=
                    {| ov_metrics := om;
                       ov_total_deviation :=
                         ov_total_deviation (overall d) + fs_avg_total_deviation fs';
                       ov_avg_total_deviation :=
                         ov_avg_total_deviation (overall d) |} |}
      end
  end.

(** Lines 125-130. *)
Definition average_metric (om : gmap string overall_metric) (field : string)
  : option (gmap string overall_metric) :=
  match om !! field with
  | None => None
  | Some m =>
      if (0 <? om_count m)%Z then
        match PyNum.div (om_total_deviation m) (PyNum.of_int (om_count m)) with
        | None => None
        | Some average =>
            Some (<[field := {| om_total_deviation := om_total_deviation m;
                                om_count := om_count m;
                                om_avg_deviation := PyNum.round2 average |}]> om)
        end
      else Some om
  end.

(** Lines 30-37 and 51-56. *)
Definition new_deviations : deviations :=
  {| per_file := ∅;
     overall :=
       {| ov_metrics :=
            fold_left (fun om field =>
                         <[field := {| om_total_deviation := 0;
                                       om_count := 0;
                                       om_avg_deviation := 0 |}]> om)
                      numeric_fields ∅;
          ov_total_deviation := 0;
          ov_avg_total_deviation := 0 |} |}.

Definition calculate_deviations (results : list Row) : option deviations :=
  let files_data := group_by_filename results in
  match for_each file_step files_data new_deviations with
  | None => None
  | Some d =>
      match files_data with
      | [] => Some d
      | _ :: _ =>
          match PyNum.div (ov_total_deviation (overall d)) (PyNum.len files_data) with
          | None => None
          | Some average =>
              match for_each average_metric numeric_fields (ov_metrics (overall d)) with
              | None => None
              | Some om =>
                  Some {| per_file := per_file d;
                          overall :=
                            {| ov_metrics := om;
                               ov_total_deviation := ov_total_deviation (overall d);
                               ov_avg_total_deviation := PyNum.round2 average |} |}
              end
          end
      end
  end.

End AuditScoring.


(** ** Python floats read from text *)

Module PyFloat.

Local Open Scope Q_scope.

(** A float: a finite number, an infinity or not-a-number. *)
Inductive pyfloat :=
| Fin (x : Q)
| Inf (negative : bool)
| NaN.

(** [a < b] *)
Definition lt (a b : pyfloat) : bool :=
  match a, b with
  | NaN, _ | _, NaN => false
  | Fin x, Fin y => PyNum.gt y x
  | Fin _, Inf negative => negb negative
  | Inf negative, Fin _ => negative
  | Inf n1, Inf n2 => n1 && negb n2
  end.

(** [a == b] *)
Definition eqb (a b : pyfloat) : bool :=
  match a, b with
  | Fin x, Fin y => Qeq_bool x y
  | Inf n1, Inf n2 => Bool.eqb n1 n2
  | _, _ => false
  end.

(** [min(a, b)] and [max(a, b)]: the first argument unless the second is
    strictly smaller (larger). *)
Definition min (a b : pyfloat) : pyfloat := if lt b a then b else a.
Definition max (a b : pyfloat) : pyfloat := if lt a b then b else a.

(** The longest prefix of digits, and the rest. *)
Fixpoint span_digits (s : string) : string * string :=
  match s with
  | EmptyString => (EmptyString, EmptyString)
  | String c s' =>
      if Py.isdigit c
      then let '(ds, rest) := span_digits s' in (String c ds, rest)
      else (EmptyString, s)
  end.

Definition digit_value (c : ascii) : Z := Z.of_N (Py.code c) - 48.

(** The number written by a string of digits. *)
Fixpoint digits_value_from (acc : Z) (ds : string) : Z :=
  match ds with
  | EmptyString => acc
  | String c ds' => digits_value_from (10 * acc + digit_value c)%Z ds'
  end.

Definition digits_value (ds : string) : Z := digits_value_from 0 ds.

(** [10 ** e] *)
Definition pow10 (e : Z) : Q := Qpower 10 e.

(** An optional sign, and the rest. *)
Definition split_sign (s : string) : bool * string :=
  match s with
  | String c s' =>
      if Ascii.eqb c "-" then (true, s')
      else if Ascii.eqb c "+" then (false, s')
      else (false, s)
  | EmptyString => (false, s)
  end.

(** The text after a leading point, if there is one. *)
Definition after_point (s : string) : option string :=
  match s with
  | String c r => if Ascii.eqb c "." then Some r else None
  | EmptyString => None
  end.

(** An exponent part: empty, or [e] or [E], an optional sign and at least
    one digit, up to the end of the text. *)
Definition parse_exponent (s : string) : option Z :=
  match s with
  | EmptyString => Some 0%Z
  | String c s' =>
      if Ascii.eqb c "e" || Ascii.eqb c "E" then
        let '(negative, s'') := split_sign s' in
        match span_digits s'' with
        | (String d ds, EmptyString) =>
            let e := digits_value (String d ds) in
            Some (if negative then (- e)%Z else e)
        | _ => None
        end
      else None
  end.

(** An unsigned decimal literal: digits with an optional point, at least
    one digit, and an optional exponent. *)
Definition parse_decimal (s : string) : option Q :=
  let '(int_part, rest) := span_digits s in
  let '(frac_part, rest') :=
    match after_point rest with
    | Some r => span_digits r
    | None => (EmptyString, rest)
    end in
  match (int_part ++ frac_part)%string with
  | EmptyString => None
  | String d ds =>
      match parse_exponent rest' with
      | None => None
      | Some e =>
          Some (inject_Z (digits_value (String d ds))
                * pow10 (e - Z.of_nat (String.length frac_part)))
      end
  end.

(** Underscores may stand between two digits only; they are then dropped. *)
Fixpoint drop_underscores (prev : option ascii) (s : string) : option string :=
  match s with
  | EmptyString =>
      match prev with
      | Some "_"%char => None
      | _ => Some EmptyString
      end
  | String c s' =>
      let prev_digit := match prev with Some p => Py.isdigit p | None => false end in
      let prev_underscore := match prev with Some "_"%char => true | _ => false end in
      if Ascii.eqb c "_" then
        if prev_digit then drop_underscores (Some c) s' else None
      else if prev_underscore && negb (Py.isdigit c) then None
      else match drop_underscores (Some c) s' with
           | None => None
           | Some r => Some (String c r)
           end
  end.

Definition negate (x : Q) (negative : bool) : Q := if negative then - x else x.

(** [float(s)] of a string; [None] is [ValueError]. *)
Definition float (s : string) : option pyfloat :=
  match drop_underscores None (Py.strip s) with
  | None => None
  | Some s1 =>
      let '(negative, body) := split_sign s1 in
      let word := Py.lower body in
      if String.eqb word "inf" || String.eqb word "infinity" then Some (Inf negative)
      else if String.eqb word "nan" then Some NaN
      else match parse_decimal body with
           | None => None
           | Some x => Some (Fin (negate x negative))
           end
  end.

(** [re.search(r'\d+(\.\d+)?', s)]: the first run of digits, with a point
    and further digits when they follow at once. *)
Fixpoint search_number (s : string) : option string :=
  match s with
  | EmptyString => None
  | String c s' =>
      if Py.isdigit c then
        let '(int_part, rest) := span_digits s in
        match after_point rest with
        | Some r =>
            match span_digits r with
            | (String d ds, _) => Some (int_part ++ "." ++ String d ds)%string
            | _ => Some int_part
            end
        | None => Some int_part
        end
      else search_number s'
  end.

(** A value held by a parsed response: [None], a string or a number. *)
Inductive value :=
| VNone
| VStr (s : string)
| VFloat (x : pyfloat).

(** [a == b] on such values. *)
Definition value_eqb (a b : value) : bool :=
  match a, b with
  | VNone, VNone => true
  | VStr s, VStr t => String.eqb s t
  | VFloat x, VFloat y => eqb x y
  | _, _ => false
  end.

Definition of_option (o : option pyfloat) : value :=
  match o with Some x => VFloat x | None => VNone end.

End PyFloat.

(** ** What [ai_auditor.py] and [ai_auditor_num.py] have in common

  The two files define [sanitize_text], [sanitize_domain],
  [schema_mapping] and the [is_script] gate of [parse_audit_response] with
  the same text. *)

Module Auditor.
Import PyFloat.

Definition newline : ascii := ascii_of_N 10.

Definition double_quote : ascii := ascii_of_N 34.

Definition sanitize_text (text : string) : string :=
  let sanitized_text :=
    Py.remove_char "]" (Py.remove_char "[" (Py.remove_char "'" (Py.remove_char double_quote text))) in
  let sanitized_text := Py.rstrip_char "." sanitized_text in
  if bool_decide (Py.lower (Py.strip sanitized_text)
                  ∈ ["na"; "n/a"; "not applicable"; "not available"])
  then "N/A"
  else sanitized_text.

Definition sanitize_domain (text : string) : string :=
  let cleaned_text :=
    Py.remove_char "," (Py.remove_char double_quote (Py.remove_char "'"
      (Py.remove_char ")" (Py.remove_char "(" text)))) in
  let words := Py.split_ws cleaned_text in
  if (2 <? length words)%nat then Py.join " " (firstn 2 words) else cleaned_text.

Definition schema_mapping : list (string * string) :=
  [ ("is_script", "0.");
    ("is_script_explanation", "0.1.");
    ("domain", "1.1.");
    ("readability", "2.1.");
    ("consistency", "2.2.");
    ("modularity", "2.3.");
    ("maintainability", "2.4.");
    ("reusability", "2.5.");
    ("redundancy", "2.6.");
    ("technical_debt", "2.7.");
    ("code_smells", "2.8.");
    ("completeness", "3.1.");
    ("edge_cases", "3.2.");
    ("error_handling", "3.3.");
    ("efficiency", "4.1.");
    ("scalability", "4.2.");
    ("resource_utilization", "4.3.");
    ("load_handling", "4.4.");
    ("parallel_processing", "4.5.");
    ("database_interaction_efficiency", "4.6.");
    ("concurrency_management", "4.7.");
    ("state_management_efficiency", "4.8.");
    ("modularity_decoupling", "4.9.");
    ("configuration_customization_ease", "4.10.");
    ("input_validation", "5.1.");
    ("data_handling", "5.2.");
    ("authentication", "5.3.");
    ("package_dependencies", "5.4.");
    ("independence", "6.1.");
    ("integration", "6.2.");
    ("inline_comments", "7.1.");
    ("standards", "8.1.");
    ("design_patterns", "8.2.");
    ("code_complexity", "8.3.");
    ("refactoring_opportunities", "8.4.") ].

(** [next((line for line in lines if line.startswith(label)), None)] *)
Definition line_starting (label : string) (lines : list string) : option string :=
  Py.next_where (fun line => Py.startswith line label) lines.

(** [parts = line.split(":", 1)] followed by [parts[1]] under
    [if len(parts) > 1]. *)
Definition after_colon (line : string) : option string :=
  match Py.split1 ":" line with
  | _ :: answer :: _ => Some answer
  | _ => None
  end.

(** The gate on the line of section 0: the result returned at once when
    its answer is "no". *)
Definition is_script_gate (response_lines : list string)
  : option (gmap string value * Z) :=
  match line_starting "0." response_lines with
  | None => None
  | Some is_script_line =>
      if Py.truthy is_script_line then
        match after_colon is_script_line with
        | None => None
        | Some answer =>
            let is_script_value := Py.lower (Py.strip answer) in
            if String.eqb is_script_value "no" then
              let explanation_line := line_starting "0.1." response_lines in
              let explanation :=
                match explanation_line with
                | None => "N/A"
                | Some line =>
                    if Py.truthy line then
                      match after_colon line with
                      | Some text => Py.strip text
                      | None => "N/A"
                      end
                    else "N/A"
                end in
              Some (<["is_script_explanation" := VStr explanation]>
                      (<["is_script" := VStr "no"]> ∅), 0%Z)
            else None
        end
      else None
  end.

End Auditor.

(** ** [ai_auditor.py] *)

Module AIAuditor.
Import PyFloat Auditor.

Definition parse_time_to_fix (text : string) : value :=
  if bool_decide (Py.lower (Py.strip text)
                  ∈ ["na"; "n/a"; "not applicable"; "not available"; "none"])
  then VNone
  else match float text with
       | Some x => VFloat x
       | None =>
           match search_number text with
           | Some number => of_option (float number)
           | None => VNone
           end
       end.

Definition parse_response_line (response_text point_key startswith : string)
    (default : value) (is_time_to_fix : bool) : string * value :=
  let response_line := line_starting startswith (Py.split newline response_text) in
  match response_line with
  | None => (point_key, default)
  | Some line =>
      if Py.truthy line then
        match after_colon line with
        | None => (point_key, default)
        | Some answer =>
            let result := Py.strip answer in
            let result :=
              if String.eqb point_key "domain" then VStr (sanitize_domain result)
              else if is_time_to_fix then parse_time_to_fix result
              else VStr (sanitize_text result) in
            if negb (value_eqb result default) then (point_key, result)
            else (point_key, default)
        end
      else (point_key, default)
  end.

(** The body of [for key, startswith in schema_mapping.items()]. *)
Definition schema_step (response_text : string)
    (st : gmap string value * Z) (entry : string * string)
  : gmap string value * Z :=
  let '(audit_data, none_response_count) := st in
  let '(key, startswith) := entry in
  if String.eqb key "is_script" && bool_decide (is_Some (audit_data !! "is_script"))
  then st
  else
    let '(point_key, value) :=
      parse_response_line response_text key (Py.strip startswith) VNone
        (String.eqb key "time_to_fix_flag") in
    let none_response_count :=
      if value_eqb value (VStr "None") then (none_response_count + 1)%Z
      else none_response_count in
    (<[point_key := value]> audit_data, none_response_count).

Definition parse_audit_response (response_text : string)
  : gmap string value * Z :=
  let response_lines := Py.split newline response_text in
  match is_script_gate response_lines with
  | Some result => result
  | None => fold_left (schema_step response_text) schema_mapping (∅, 0%Z)
  end.

End AIAuditor.

(** ** [ai_auditor_num.py] *)

Module AIAuditorNum.
Import PyFloat Auditor.

Definition _parse_numerical_value (value : string) : option pyfloat :=
  let cleaned_value := Py.keep (fun c => Py.isdigit c || Ascii.eqb c ".") value in
  if negb (Py.truthy cleaned_value) then None
  else match float cleaned_value with
       | None => None
       | Some num_value =>
           Some (max (Fin 0) (min (Fin 100) num_value))
       end.

(** The body of [for key, startswith in schema_mapping.items()]. *)
Definition schema_step (response_lines : list string)
    (audit_data : gmap string value) (entry : string * string)
  : gmap string value :=
  let '(key, startswith) := entry in
  if String.eqb key "is_script" && bool_decide (is_Some (audit_data !! "is_script"))
  then audit_data
  else
    match line_starting startswith response_lines with
    | None => audit_data
    | Some response_line =>
        if Py.truthy response_line then
          match after_colon response_line with
          | None => audit_data
          | Some answer =>
              let value := Py.strip answer in
              let value :=
                if String.eqb key "domain" then VStr (sanitize_domain value)
                else if negb (bool_decide
                                (key ∈ ["is_script"; "is_script_explanation";
                                        "package_dependencies"]))
                then of_option (_parse_numerical_value value)
                else VStr value in
              <[key := value]> audit_data
          end
        else audit_data
    end.

(** The two blocks that read a line count from the response. *)
Definition line_count_step (response_lines : list string) (phrase key : string)
    (audit_data : gmap string value) : gmap string value :=
  match Py.next_where (fun line => Py.contains phrase (Py.lower line)) response_lines with
  | None => audit_data
  | Some line =>
      if Py.truthy line then
        match after_colon line with
        | None => audit_data
        | Some answer => <[key := of_option (_parse_numerical_value answer)]> audit_data
        end
      else audit_data
  end.

Definition parse_audit_response (response_text : string)
  : gmap string value * Z :=
  let response_lines := Py.split newline response_text in
  let none_response_count := 0%Z in
  match is_script_gate response_lines with
  | Some result => result
  | None =>
      let audit_data := fold_left (schema_step response_lines) schema_mapping ∅ in
      let audit_data :=
        line_count_step response_lines "lines of code" "lines_of_code" audit_data in
      let audit_data :=
        line_count_step response_lines "lines of documentation" "lines_of_doc" audit_data in
      (audit_data, none_response_count)
  end.

End AIAuditorNum.

(** ** Python integers read from and written to text *)

From Stdlib Require DecimalString DecimalZ.

Module PyInt.
Import PyFloat.

(** [int(x)] of a number: its integer part, towards zero.  [None] is the
    exception that an infinity or not-a-number raises. *)
Definition of_float (x : pyfloat) : option Z :=
  match x with
  | Fin q => Some (Z.quot (Qnum q) (Z.pos (Qden q)))
  | Inf _ | NaN => None
  end.

(** [int(s)] of a string, in base 10: white space around it is dropped,
    then an optional sign and at least one digit, where single underscores
    may stand between digits.  [None] is [ValueError]. *)
Definition of_string (s : string) : option Z :=
  let '(negative, body) := split_sign (Py.strip s) in
  match drop_underscores None body with
  | None => None
  | Some digits =>
      match span_digits digits with
      | (String d ds, EmptyString) =>
          let n := digits_value (String d ds) in
          Some (if negative then - n else n)
      | _ => None
      end
  end.

(** [str(n)] *)
Definition to_string (n : Z) : string :=
  DecimalString.NilZero.string_of_int (Z.to_int n).

(** [digits.zfill(width)] of a string of digits. *)
Definition zfill (width : nat) (digits : string) : string :=
  string_of_list_ascii (repeat "0"%char (width - String.length digits)) ++ digits.

(** [f"{n:04d}"]: at least four characters, the sign first and zeros after
    it. *)
Definition format_04d (n : Z) : string :=
  if n <? 0 then "-" ++ zfill 3 (to_string (- n)) else zfill 4 (to_string n).

End PyInt.

(** ** [_parse_audit_response] and [is_audit_data_valid]

  The two auditors define them with the same text, but for the function
  that [_parse_audit_response] applies to the answer of a metric. *)

Module AuditorResponse.
Import PyFloat Auditor.

(** The [if]/[elif] chain of [_parse_audit_response]: the prefix tested on
    the key of a line and the field that the branch sets, in the order of
    the branches. *)
Definition sections : list (string * string) :=
  [ ("1.1.", "domain");
    ("2.1.", "readability");
    ("2.2.", "consistency");
    ("2.3.", "modularity");
    ("2.4.", "maintainability");
    ("2.5.", "reusability");
    ("2.6.", "redundancy");
    ("2.7.", "technical_debt");
    ("2.8.", "code_smells");
    ("3.1.", "completeness");
    ("3.2.", "edge_cases");
    ("3.3.", "error_handling");
    ("4.1.", "efficiency");
    ("4.2.", "scalability");
    ("4.3.", "resource_utilization");
    ("4.4.", "load_handling");
    ("4.5.", "parallel_processing");
    ("4.6.", "database_interaction_efficiency");
    ("4.7.", "concurrency_management");
    ("4.8.", "state_management_efficiency");
    ("4.9.", "modularity_decoupling");
    ("4.10.", "configuration_customization_ease");
    ("5.1.", "input_validation");
    ("5.2.", "data_handling");
    ("5.3.", "authentication");
    ("6.1.", "independence");
    ("6.2.", "integration");
    ("7.1.", "inline_comments");
    ("8.1.", "standards");
    ("8.2.", "design_patterns");
    ("8.3.", "code_complexity");
    ("8.4.", "refactoring_opportunities") ].

(** The branch taken for a key: the first whose prefix the key starts
    with. *)
Definition section_of (key : string) : option (string * string) :=
  List.find (fun section => Py.startswith key (fst section)) sections.

(** The body of [for line in lines]; [score field value] is what a branch
    other than the first stores.  [None] is the exception of unpacking
    [key, value = line.split(':', 1)]. *)
Definition line_step (score : string -> string -> value)
    (audit_data : gmap string value) (line : string)
  : option (gmap string value) :=
  let line := Py.strip line in
  if negb (Py.truthy line) || negb (Py.contains ":" line) then Some audit_data
  else
    match Py.split1 ":" line with
    | [key; value] =>
        let key := Py.strip key in
        let value := Py.strip value in
        match section_of key with
        | Some (_, field) =>
            Some (<[field := if String.eqb field "domain" then VStr value
                             else score field value]> audit_data)
        | None => Some audit_data
        end
    | _ => None
    end.

(** The function with its [try]/[except]: an exception gives the empty
    mapping. *)
Definition parse_lines (score : string -> string -> value) (response : string)
  : gmap string value :=
  let lines := Py.split newline (Py.strip response) in
  match AuditScoring.for_each (line_step score) lines ∅ with
  | Some audit_data => audit_data
  | None => ∅
  end.

(** Line 100 of [audit_content]: what the caller receives for a response
    that was obtained. *)
Definition with_model_used (model_number : Z) (audit_data : gmap string value)
  : gmap string value :=
  <["model_used" := VStr (if model_number =? 1 then "anthropic" else "openai")]>
    audit_data.

(** [audit_content], for the outcomes [(success, response)] of the
    successive calls of the model: the loop over [range(MAX_RETRIES)] from
    [attempt] on.  [None] is the [RuntimeError] raised when no attempt is
    left. *)
Definition MAX_RETRIES : nat := 3.

Fixpoint audit_attempts (parse : string -> gmap string value) (model_number : Z)
    (call : nat -> bool * string) (attempt remaining : nat)
  : option (gmap string value) :=
  match remaining with
  | O => None
  | S remaining' =>
      let '(success, response) := call attempt in
      if success then Some (with_model_used model_number (parse response))
      else audit_attempts parse model_number call (S attempt) remaining'
  end.

Definition audit_content (parse : string -> gmap string value) (model_number : Z)
    (call : nat -> bool * string) : option (gmap string value) :=
  audit_attempts parse model_number call 0 MAX_RETRIES.

(** [is_response_complete] *)
Definition is_response_complete (response_text : string) : bool :=
  existsb (fun point => Py.contains point response_text)
          ["8.4. Refactoring Opportunities"].

(** Truth value of a stored value. *)
Definition truthy_value (v : value) : bool :=
  match v with
  | VNone => false
  | VStr s => Py.truthy s
  | VFloat x => negb (eqb x (Fin 0))
  end.

(** [is_audit_data_valid]; [None] is the [AttributeError] of [.lower()] on
    a value that is not a string. *)
Definition is_audit_data_valid (audit_data : gmap string value) : option bool :=
  if bool_decide (audit_data = ∅) then Some false
  else
    match default (VStr "") (audit_data !! "is_script") with
    | VStr is_script =>
        if String.eqb (Py.lower is_script) "no" then
          Some (forallb (fun field => bool_decide (is_Some (audit_data !! field)))
                        ["is_script"; "is_script_explanation"])
        else
          Some (forallb (fun field =>
                           match audit_data !! field with
                           | Some v => truthy_value v
                           | None => false
                           end)
                        ["domain"])
    | _ => None
    end.

End AuditorResponse.

Module AIAuditorResponse.
Import PyFloat AuditorResponse.

(** A score of [get_score] as a stored value: an [int] is the number it
    denotes. *)
Definition score (field answer : string) : value :=
  VFloat (Fin (inject_Z (ScoreMappings.get_score field answer))).

(** [AIAuditor._parse_audit_response] *)
Definition _parse_audit_response (response : string) : gmap string value :=
  parse_lines score response.

End AIAuditorResponse.

Module AIAuditorNumResponse.
Import PyFloat AuditorResponse.

Definition score (field answer : string) : value :=
  of_option (AIAuditorNum._parse_numerical_value answer).

(** [AIAuditorNum._parse_audit_response] *)
Definition _parse_audit_response (response : string) : gmap string value :=
  parse_lines score response.

End AIAuditorNumResponse.

(** ** [run_test.py] and [get_score_for_value] of [audit_scoring.py] *)

Module RunTest.
Import PyFloat.

(** [audit_scoring.get_score_for_value]: a number is cut to an integer, any
    other value goes to [get_score], which returns 0 for an attribute
    without a table and otherwise calls [value.lower()].  [None] is the
    exception raised for a number without an integer part and for the
    value [None] of an attribute that has a table. *)
Definition get_score_for_value (attribute : string) (v : value) : option Z :=
  match v with
  | VFloat x => PyInt.of_float x
  | VStr s => Some (ScoreMappings.get_score attribute s)
  | VNone =>
      match ScoreMappings.table_get attribute ScoreMappings.SCORE_MAPPINGS with
      | None => Some 0
      | Some _ => None
      end
  end.

Definition triple_quote : string :=
  String Auditor.double_quote
    (String Auditor.double_quote (String Auditor.double_quote EmptyString)).

(** [count_code_lines]: [(code_lines, doc_lines)]. *)
Definition count_code_lines (code_content : string) : Z * Z :=
  fold_left
    (fun '(code_lines, doc_lines) line =>
       let line := Py.strip line in
       if negb (Py.truthy line) then (code_lines, doc_lines)
       else if Py.startswith line "#" || Py.startswith line triple_quote
               || Py.startswith line "'"
       then (code_lines, doc_lines + 1)
       else (code_lines + 1, doc_lines))
    (Py.split Auditor.newline code_content) (0, 0).

(** Lines 181-194 of [main_async]. *)
Definition fieldnames : list string :=
  [ "filename"; "cycle"; "domain"; "model_used";
    "lines_of_code"; "lines_of_doc";
    "readability"; "consistency"; "modularity"; "maintainability"; "reusability";
    "redundancy"; "technical_debt"; "code_smells";
    "completeness"; "edge_cases"; "error_handling";
    "efficiency"; "scalability"; "resource_utilization"; "load_handling";
    "parallel_processing"; "database_interaction_efficiency"; "concurrency_management";
    "state_management_efficiency"; "modularity_decoupling"; "configuration_customization_ease";
    "input_validation"; "data_handling"; "authentication";
    "independence"; "integration";
    "inline_comments";
    "standards"; "design_patterns"; "code_complexity"; "refactoring_opportunities" ].

(** The row of [process_file]: the six entries of the dictionary display
    and the entries that the loop over the field names adds. *)
Record row := {
  row_filename : string;
  row_cycle : Z;
  row_domain : value;
  row_model_used : value;
  row_lines_of_code : Z;
  row_lines_of_doc : Z;
  row_scores : gmap string Z }.

(** Lines 94-100: the body of [for field in fieldnames]. *)
Definition field_step (audit_results : gmap string value)
    (scores : gmap string Z) (field : string) : option (gmap string Z) :=
  if negb (bool_decide (field ∈ ["filename"; "cycle"; "domain"; "model_used";
                                  "lines_of_code"; "lines_of_doc"]))
  then
    match default VNone (audit_results !! field) with
    | VNone => Some (<[field := 0]> scores)
    | value =>
        match get_score_for_value field value with
        | Some n => Some (<[field := n]> scores)
        | None => None
        end
    end
  else Some scores.

(** [process_file], for the name and the content of the file and for the
    mapping that the auditor returned; [None] is the result [(False, {})]
    of an exception. *)
Definition process_file (file_name code_content : string)
    (audit_results : gmap string value) (cycle : Z) (fieldnames : list string)
  : option row :=
  match default (VStr "unknown") (audit_results !! "model_used") with
  | VStr model_used =>
      let '(code_lines, doc_lines) := count_code_lines code_content in
      match AuditScoring.for_each (field_step audit_results) fieldnames ∅ with
      | Some scores =>
          Some {| row_filename := file_name;
                  row_cycle := cycle;
                  row_domain := default (VStr "N/A") (audit_results !! "domain");
                  row_model_used := VStr model_used;
                  row_lines_of_code := code_lines;
                  row_lines_of_doc := doc_lines;
                  row_scores := scores |}
      | None => None
      end
  | _ => None
  end.

(** The row as [calculate_deviations] reads it: [result['filename']] and
    [result[field]] for the metric columns. *)
Definition result_of (r : row) : AuditScoring.Row :=
  {| AuditScoring.filename := row_filename r;
     AuditScoring.scores := row_scores r |}.


(** Line 22: the names of the directories of [output] that match
    [runthrough_*]; an entry of the directory is its name and whether it is
    a directory. *)
Definition existing_runs (output_dir : list (string * bool)) : list string :=
  map fst (List.filter (fun d => Py.startswith (fst d) "runthrough_" && snd d)
                       output_dir).

(** [int(d.name.split("_")[1])]; [None] is [IndexError] or [ValueError]. *)
Definition run_number_of (name : string) : option Z :=
  match Py.split "_" name with
  | _ :: number :: _ => PyInt.of_string number
  | _ => None
  end.

Definition get_next_run_number (output_dir : list (string * bool)) : option Z :=
  match existing_runs output_dir with
  | [] => Some 1
  | runs =>
      match mapM run_number_of runs with
      | Some (n :: ns) => Some (PyNum.max_of n ns + 1)
      | _ => None
      end
  end.

(** The name of the directory that [create_run_directory] makes. *)
Definition run_directory_name (run_number : Z) : string :=
  "runthrough_" ++ PyInt.format_04d run_number.

End RunTest.

(** ** Binary64 arithmetic

  The arithmetic of CPython's [float] on the values of [pyfloat]: every
  operation returns the double nearest to the exact result, ties to the
  double with the even significand, and an infinity from [2^1024 - 2^970]
  on.  The two zeros are one value, as [==] has them. *)

Module Binary64.
Import PyFloat.

Local Open Scope Q_scope.

Definition pow2 (e : Z) : Q := Qpower 2 e.

(** The exponent [e] of a number that is not 0: [2^e <= |q| < 2^(e+1)]. *)
Definition ilog2 (q : Q) : Z :=
  let e := (Z.log2 (Z.abs (Qnum q)) - Z.log2 (Z.pos (Qden q)))%Z in
  if Qle_bool (pow2 e) (Qabs q) then e else (e - 1)%Z.

(** The exponent of the spacing of the doubles around [q]: 53 significant
    bits, and the spacing [2^-1074] of the subnormal numbers below
    [2^-1022]. *)
Definition quantum (q : Q) : Z := (Z.max (ilog2 q) (-1022) - 52)%Z.

(** The multiple of the spacing nearest to [q], ties to the even
    multiple. *)
Definition nearest (q : Q) : Q :=
  let k := quantum q in
  Qred (inject_Z (PyNum.round_half_even (q / pow2 k)) * pow2 k).

(** From here on the nearest double is an infinity. *)
Definition overflow_threshold : Z := (2 ^ 1024 - 2 ^ 970)%Z.

(** The double nearest to a rational number. *)
Definition round (q : Q) : pyfloat :=
  let q := Qred q in
  if Qle_bool (inject_Z overflow_threshold) (Qabs q)
  then Inf (negb (Qle_bool 0 q))
  else Fin (nearest q).

(** [float(n)] of an [int], as the operators do it for an [int] operand;
    [None] is [OverflowError]. *)
Definition of_int (n : Z) : option pyfloat :=
  match round (inject_Z n) with
  | Inf _ => None
  | x => Some x
  end.

(** [a / b] of two [int]; [None] is [ZeroDivisionError] or
    [OverflowError]. *)
Definition int_true_divide (a b : Z) : option pyfloat :=
  if (b =? 0)%Z then None
  else match round (inject_Z a / inject_Z b) with
       | Inf _ => None
       | x => Some x
       end.

Definition neg (x : pyfloat) : pyfloat :=
  match x with
  | Fin a => Fin (- a)
  | Inf negative => Inf (negb negative)
  | NaN => NaN
  end.

(** [abs(x)] *)
Definition abs (x : pyfloat) : pyfloat :=
  match x with
  | Fin a => Fin (Qabs a)
  | Inf _ => Inf false
  | NaN => NaN
  end.

Definition negative (a : Q) : bool := negb (Qle_bool 0 a).

(** [x + y] *)
Definition add (x y : pyfloat) : pyfloat :=
  match x, y with
  | Fin a, Fin b => round (a + b)
  | Fin _, Inf s | Inf s, Fin _ => Inf s
  | Inf s, Inf t => if Bool.eqb s t then Inf s else NaN
  | _, _ => NaN
  end.

(** [x - y] *)
Definition sub (x y : pyfloat) : pyfloat := add x (neg y).

(** [x * y] *)
Definition mul (x y : pyfloat) : pyfloat :=
  match x, y with
  | Fin a, Fin b => round (a * b)
  | Fin a, Inf s | Inf s, Fin a =>
      if Qeq_bool a 0 then NaN else Inf (xorb s (negative a))
  | Inf s, Inf t => Inf (xorb s t)
  | _, _ => NaN
  end.

(** [x / y]; [None] is [ZeroDivisionError]. *)
Definition div (x y : pyfloat) : option pyfloat :=
  match y with
  | Fin b =>
      if Qeq_bool b 0 then None
      else Some match x with
                | Fin a => round (a / b)
                | Inf s => Inf (xorb s (negative b))
                | NaN => NaN
                end
  | Inf _ => Some match x with
                  | Fin _ => Fin 0
                  | _ => NaN
                  end
  | NaN => Some NaN
  end.

(** [x / n] for an [int] [n], which is converted first; [None] is
    [OverflowError] or [ZeroDivisionError]. *)
Definition div_int (x : pyfloat) (n : Z) : option pyfloat :=
  match of_int n with
  | None => None
  | Some y => div x y
  end.

(** [len(l)] *)
Definition len {A} (l : list A) : Z := Z.of_nat (length l).

(** [x > y] *)
Definition gt (x y : pyfloat) : bool := lt y x.

(** [sum(l)] of a list of [float]: the elements are added one by one, from
    the left, to 0 (CPython up to 3.11; later versions carry a
    compensation term). *)
Definition sum (l : list pyfloat) : pyfloat := fold_left add l (Fin 0).

(** [round(x, 2)]: the decimal number of two places nearest to the exact
    value of [x], ties to the even one, and then the double nearest to
    that; an infinity and not-a-number are returned as they are. *)
Definition round2 (x : pyfloat) : pyfloat :=
  match x with
  | Fin a => round (PyNum.round2 a)
  | _ => x
  end.

End Binary64.

(** ** [calculate_deviations] in binary64 arithmetic

  The function of [audit_scoring.py] once more, with the numbers that
  CPython computes: the rows, their grouping and the loops are those of
  [AuditScoring]; every [float] operation is the one of [Binary64], an
  [int] that meets a [float] is converted first, and [None] is the
  exception raised ([KeyError], [ZeroDivisionError] or
  [OverflowError]). *)

Module AuditScoring64.
Import PyFloat.
Export AuditScoring(Row, filename, scores, Build_Row, numeric_fields, for_each,
                    group_append, group_by_filename, field_values).

Record metric_info := {
  mi_mean : pyfloat;
  mi_min : Z;
  mi_max : Z;
  mi_range : Z;
  mi_avg_deviation_percent : pyfloat;
  mi_values_per_cycle : list Z }.

Record file_stats := {
  fs_metrics : gmap string metric_info;
  fs_total_deviation : pyfloat;
  fs_max_deviation : pyfloat;
  fs_most_inconsistent_metric : option string;
  fs_avg_total_deviation : pyfloat }.

Record overall_metric := {
  om_total_deviation : pyfloat;
  om_count : Z;
  om_avg_deviation : pyfloat }.

Record overall_stats := {
  ov_metrics : gmap string overall_metric;
  ov_total_deviation : pyfloat;
  ov_avg_total_deviation : pyfloat }.

Record deviations := {
  per_file : gmap string file_stats;
  overall : overall_stats }.

(** Line 74: [sum(values) / len(values)], a division of two [int]. *)
Definition mean_of (values : list Z) : option pyfloat :=
  Binary64.int_true_divide (PyNum.sum_int values) (Binary64.len values).

(** Line 80: [abs(v - mean_value) / mean_value * 100]. *)
Definition percent_distance (mean_value : pyfloat) (v : Z) : option pyfloat :=
  match Binary64.of_int v with
  | None => None
  | Some x =>
      match Binary64.div (Binary64.abs (Binary64.sub x mean_value)) mean_value with
      | None => None
      | Some ratio => Some (Binary64.mul ratio (Fin 100))
      end
  end.

Definition deviations_from_mean (mean_value : pyfloat) (values : list Z)
  : option (list pyfloat) :=
  mapM (percent_distance mean_value) values.

(** Lines 79-83. *)
Definition avg_deviation_of (mean_value : pyfloat) (values : list Z)
  : option pyfloat :=
  if Binary64.gt mean_value (Fin 0) then
    match deviations_from_mean mean_value values with
    | None => None
    | Some deviations =>
        Binary64.div_int (Binary64.sum deviations) (Binary64.len deviations)
    end
  else Some (Fin 0).

(** Lines 75-77 and 85-92, for the non-empty list [v :: vs]. *)
Definition metric_info_of (v : Z) (vs : list Z) (mean_value avg_deviation : pyfloat)
  : metric_info :=
  let max_value := PyNum.max_of v vs in
  let min_value := PyNum.min_of v vs in
  {| mi_mean := Binary64.round2 mean_value;
     mi_min := min_value;
     mi_max := max_value;
     mi_range := (max_value - min_value)%Z;
     mi_avg_deviation_percent := Binary64.round2 avg_deviation;
     mi_values_per_cycle := v :: vs |}.

(** Lines 94-102: what one metric does to the statistics of its file. *)
Definition record_metric (fs : file_stats) (field : string) (v : Z) (vs : list Z)
    (mean_value avg_deviation : pyfloat) : file_stats :=
  let larger := Binary64.gt avg_deviation (fs_max_deviation fs) in
  {| fs_metrics :=
       <[field := metric_info_of v vs mean_value avg_deviation]> (fs_metrics fs);
     fs_total_deviation := Binary64.add (fs_total_deviation fs) avg_deviation;
     fs_max_deviation := if larger then avg_deviation else fs_max_deviation fs;
     fs_most_inconsistent_metric :=
       if larger then Some field else fs_most_inconsistent_metric fs;
     fs_avg_total_deviation := fs_avg_total_deviation fs |}.

(** Lines 105-106; a key that was not initialised would raise. *)
Definition count_metric (om : gmap string overall_metric) (field : string)
    (avg_deviation : pyfloat) : option (gmap string overall_metric) :=
  match om !! field with
  | None => None
  | Some m =>
      Some (<[field := {| om_total_deviation :=
                            Binary64.add (om_total_deviation m) avg_deviation;
                          om_count := (om_count m + 1)%Z;
                          om_avg_deviation := om_avg_deviation m |}]> om)
  end.

(** Lines 69-106: the body of [for field in numeric_fields]. *)
Definition metric_step (file_results : list Row)
    (st : file_stats * gmap string overall_metric) (field : string)
  : option (file_stats * gmap string overall_metric) :=
  match field_values field file_results with
  | None => None
  | Some [] => Some st
  | Some (v :: vs) =>
      match mean_of (v :: vs) with
      | None => None
      | Some mean_value =>
          match avg_deviation_of mean_value (v :: vs) with
          | None => None
          | Some avg_deviation =>
              match count_metric (snd st) field avg_deviation with
              | None => None
              | Some om =>
                  Some (record_metric (fst st) field v vs mean_value avg_deviation, om)
              end
          end
      end
  end.

Definition new_file_stats : file_stats :=
  {| fs_metrics := ∅;
     fs_total_deviation := Fin 0;
     fs_max_deviation := Fin 0;
     fs_most_inconsistent_metric := None;
     fs_avg_total_deviation := Fin 0 |}.

(** Lines 109-112. *)
Definition close_file (fs : file_stats) : option file_stats :=
  match Binary64.div_int (fs_total_deviation fs) (Binary64.len numeric_fields) with
  | None => None
  | Some average =>
      Some {| fs_metrics := fs_metrics fs;
              fs_total_deviation := fs_total_deviation fs;
              fs_max_deviation := fs_max_deviation fs;
              fs_most_inconsistent_metric := fs_most_inconsistent_metric fs;
              fs_avg_total_deviation := Binary64.round2 average |}
  end.

(** Lines 59-115: the body of [for filename, file_results in
    files_data.items()]. *)
Definition file_step (d : deviations) (entry : string * list Row)
  : option deviations :=
  let '(name, file_results) := entry in
  match for_each (metric_step file_results) numeric_fields
          (new_file_stats, ov_metrics (overall d)) with
  | None => None
  | Some (fs, om) =>
      match close_file fs with
      | None => None
      | Some fs' =>
          Some {| per_file := <[name := fs']> (per_file d);
                  overall :=
                    {| ov_metrics := om;
                       ov_total_deviation :=
                         Binary64.add (ov_total_deviation (overall d))
                                      (fs_avg_total_deviation fs');
                       ov_avg_total_deviation :=
                         ov_avg_total_deviation (overall d) |} |}
      end
  end.

(** Lines 125-130. *)
Definition average_metric (om : gmap string overall_metric) (field : string)
  : option (gmap string overall_metric) :=
  match om !! field with
  | None => None
  | Some m =>
      if (0 <? om_count m)%Z then
        match Binary64.div_int (om_total_deviation m) (om_count m) with
        | None => None
        | Some average =>
            Some (<[field := {| om_total_deviation := om_total_deviation m;
                                om_count := om_count m;
                                om_avg_deviation := Binary64.round2 average |}]> om)
        end
      else Some om
  end.

(** Lines 30-37 and 51-56. *)
Definition new_deviations : deviations :=
  {| per_file := ∅;
     overall :=
       {| ov_metrics :=
            fold_left (fun om field =>
                         <[field := {| om_total_deviation := Fin 0;
                                       om_count := 0;
                                       om_avg_deviation := Fin 0 |}]> om)
                      numeric_fields ∅;
          ov_total_deviation := Fin 0;
          ov_avg_total_deviation := Fin 0 |} |}.

Definition calculate_deviations (results : list Row) : option deviations :=
  let files_data := group_by_filename results in
  match for_each file_step files_data new_deviations with
  | None => None
  | Some d =>
      match files_data with
      | [] => Some d
      | _ :: _ =>
          match Binary64.div_int (ov_total_deviation (overall d))
                                 (Binary64.len files_data) with
          | None => None
          | Some average =>
              match for_each average_metric numeric_fields (ov_metrics (overall d)) with
              | None => None
              | Some om =>
                  Some {| per_file := per_file d;
                          overall :=
                            {| ov_metrics := om;
                               ov_total_deviation := ov_total_deviation (overall d);
                               ov_avg_total_deviation := Binary64.round2 average |} |}
              end
          end
      end
  end.

End AuditScoring64.

(** ** Vocabulary of the statements *)

Module Spec.
Import PyFloat ScoreMappings AuditScoring.

Local Open Scope Q_scope.

(** Every character of the string satisfies [f]. *)
Fixpoint all_chars (f : ascii -> bool) (s : string) : bool :=
  match s with
  | EmptyString => true
  | String c s' => f c && all_chars f s'
  end.


(** The characters [_parse_numerical_value] keeps. *)
Definition numeric_char (c : ascii) : bool := Py.isdigit c || Ascii.eqb c ".".

Definition all_digits (s : string) : bool := all_chars Py.isdigit s.

(** The number written as [int_part "." frac_part]. *)
Definition decimal_value (int_part frac_part : string) : Q :=
  inject_Z (digits_value int_part)
  + inject_Z (digits_value frac_part)
    / inject_Z (10 ^ Z.of_nat (String.length frac_part)).

(** [s] is a decimal literal of value [v]: digits, or digits around one
    point, with at least one digit. *)
Definition decimal_literal (s : string) (v : Q) : Prop :=
  exists int_part frac_part,
    all_digits int_part = true
    /\ all_digits frac_part = true
    /\ (int_part ++ frac_part)%string <> EmptyString
    /\ ((s = int_part /\ frac_part = EmptyString)
        \/ s = (int_part ++ "." ++ frac_part)%string)
    /\ v == decimal_value int_part frac_part.

(** [x] limited to the interval from 0 to 100. *)
Definition clamp (x : Q) : Q := Qmax 0 (Qmin 100 x).

(** No phrase of [mapping] is a prefix of [value]. *)
Definition no_match (mapping : list (string * Z)) (value : string) : Prop :=
  Forall (fun entry => Py.startswith value (fst entry) = false) mapping.

(** [(key, score)] is the first entry of [mapping] whose phrase is a prefix
    of [value]. *)
Definition first_match (mapping : list (string * Z)) (value key : string)
    (score : Z) : Prop :=
  exists before after,
    mapping = (before ++ (key, score) :: after)%list
    /\ no_match before value
    /\ Py.startswith value key = true.

Definition scores_in_range (mapping : list (string * Z)) : bool :=
  forallb (fun entry => (0 <=? snd entry) && (snd entry <=? 100)) mapping.

(** *** Responses *)

Definition lines_of (response_text : string) : list string :=
  Py.split Auditor.newline response_text.

(** [x] is the first element of [l] that satisfies [p]. *)
Definition first_such {A} (p : A -> bool) (l : list A) (x : A) : Prop :=
  exists before after,
    l = (before ++ x :: after)%list
    /\ Forall (fun y => p y = false) before
    /\ p x = true.

(** The answer given for a section: of the first line that starts with
    [label], the text after the first colon, without the white space
    around it. *)
Definition raw_answer (response_text label : string) : option string :=
  match Auditor.line_starting label (lines_of response_text) with
  | Some line => option_map Py.strip (Auditor.after_colon line)
  | None => None
  end.

(** The answer as [ai_auditor.py] stores it. *)
Definition sanitized_answer (response_text : string) (entry : string * string)
  : option string :=
  option_map
    (if String.eqb (fst entry) "domain"
     then Auditor.sanitize_domain else Auditor.sanitize_text)
    (raw_answer response_text (snd entry)).

(** The number of entries of the schema that satisfy [p]. *)
Definition count_fields (p : string * string -> bool) : Z :=
  Z.of_nat (length (List.filter p Auditor.schema_mapping)).

(** The line of section 0 answers "no". *)
Definition gated (response_text : string) : Prop :=
  exists line answer,
    Auditor.line_starting "0." (lines_of response_text) = Some line
    /\ Auditor.after_colon line = Some answer
    /\ Py.lower (Py.strip answer) = "no".

(** The explanation returned with the gate: the text of the line of
    section 0.1 after its first colon, or "N/A". *)
Definition gate_explanation (response_text : string) : string :=
  match Auditor.line_starting "0.1." (lines_of response_text) with
  | Some line =>
      match Auditor.after_colon line with
      | Some text => Py.strip text
      | None => "N/A"
      end
  | None => "N/A"
  end.

Definition schema_keys : gset string :=
  list_to_set (map fst Auditor.schema_mapping).

(** Two entries whose labels are in the prefix relation. *)
Definition overlap (e1 e2 : string * string) : bool :=
  negb (String.eqb (fst e1) (fst e2)) && String.prefix (snd e1) (snd e2).

Definition gate_pair (e1 e2 : string * string) : bool :=
  String.eqb (fst e1) "is_script" && String.eqb (snd e1) "0."
  && String.eqb (fst e2) "is_script_explanation" && String.eqb (snd e2) "0.1.".

(** The result of a response that the gate stops. *)
Definition gate_result (response_text : string) : gmap string value * Z :=
  (<["is_script_explanation" := VStr (gate_explanation response_text)]>
     (<["is_script" := VStr "no"]> ∅), 0%Z).

(** What the loop stores for an entry of the schema. *)
Definition stored (response_text : string) (entry : string * string) : value :=
  match sanitized_answer response_text entry with
  | Some s => VStr s
  | None => VNone
  end.

Definition is_none_answer (response_text : string) (entry : string * string)
  : bool :=
  bool_decide (sanitized_answer response_text entry = Some "None").

Definition entry_ok (entry : string * string) : bool :=
  String.eqb (Py.strip (snd entry)) (snd entry)
  && Py.truthy (snd entry)
  && negb (String.eqb (fst entry) "time_to_fix_flag").

(** *** Rows and deviations *)

(** Every row has every metric column. *)
Definition complete (results : list Row) : Prop :=
  forall row field,
    In row results -> In field numeric_fields -> is_Some (scores row !! field).

Definition complete_check (results : list Row) : bool :=
  forallb (fun row =>
             forallb (fun field => bool_decide (is_Some (scores row !! field)))
                     numeric_fields)
          results.

(** The rows of a file, in the order of the collection. *)
Definition rows_of (name : string) (results : list Row) : list Row :=
  List.filter (fun row => String.eqb (filename row) name) results.

(** The values of a metric in some rows. *)
Definition values_of (field : string) (rows : list Row) : list Z :=
  map (fun row => default 0%Z (scores row !! field)) rows.

(** The arithmetic mean of some values. *)
Definition mean_value_of (values : list Z) : Q :=
  inject_Z (PyNum.sum_int values) / PyNum.len values.

(** The deviation of some values: the mean of their distances to the mean in
    percent of the mean where the mean is positive, and 0 elsewhere. *)
Definition deviation_value_of (values : list Z) : Q :=
  let m := mean_value_of values in
  if PyNum.gt m 0 then
    PyNum.sum_float (map (fun v => Qabs (inject_Z v - m) / m * 100) values)
    / PyNum.len values
  else 0.





(** [field] is the first of [fields] at which [dev] is largest. *)
Definition first_largest (dev : string -> Q) (fields : list string)
    (field : string) : Prop :=
  exists i,
    fields !! i = Some field
    /\ (forall g, In g fields -> dev g <= dev field)
    /\ (forall j g, (j < i)%nat -> fields !! j = Some g -> dev g < dev field).


(** What the loop over the metrics does for a metric whose values are all
    there, and the statistics of a file after that loop. *)
Definition record_field (rows : list Row) (fs : file_stats) (field : string)
  : file_stats :=
  match values_of field rows with
  | [] => fs
  | v :: vs =>
      record_metric fs field v vs
        (mean_value_of (v :: vs)) (deviation_value_of (v :: vs))
  end.

(** The statistics of a file with its average in place. *)
Definition closed (fs : file_stats) : file_stats :=
  {| fs_metrics := fs_metrics fs;
     fs_total_deviation := fs_total_deviation fs;
     fs_max_deviation := fs_max_deviation fs;
     fs_most_inconsistent_metric := fs_most_inconsistent_metric fs;
     fs_avg_total_deviation :=
       PyNum.round2 (fs_total_deviation fs / PyNum.len numeric_fields) |}.

Definition file_stats_of (rows : list Row) : file_stats :=
  closed (fold_left (record_field rows) numeric_fields new_file_stats).

(** The rows of one file with the same value for every metric. *)
Definition uniform_row (name : string) (v : Z) : Row :=
  {| filename := name;
     scores := list_to_map (map (fun field => (field, v)) numeric_fields) |}.

(** Scenario D of the specification. *)
Definition three_cycles : list Row :=
  [uniform_row "x.py" 50; uniform_row "x.py" 70; uniform_row "x.py" 60].



(** What the loop over the files has computed so far. *)
Definition files_done (groups : list (string * list Row)) (d0 d : deviations)
  : Prop :=
  per_file d
  = fold_left (fun m entry => <[fst entry := file_stats_of (snd entry)]> m)
              groups (per_file d0)
  /\ ov_total_deviation (overall d)
     = fold_left (fun total entry =>
                    total + fs_avg_total_deviation (file_stats_of (snd entry)))
                 groups (ov_total_deviation (overall d0))
  /\ ov_avg_total_deviation (overall d) = ov_avg_total_deviation (overall d0)
  /\ dom (ov_metrics (overall d)) = dom (ov_metrics (overall d0)).

(** *** Sample responses *)

Definition lines_text (lines : list string) : string :=
  Py.join (String Auditor.newline EmptyString) lines.

(** Scenario E of the specification. *)
Definition not_code_response : string :=
  lines_text [ "0. Is this analyzable code? (Yes / No): No";
               "0.1. Explanation: The file is a lock file." ].

Definition none_with_point_response : string :=
  lines_text [ "0. Is this analyzable code? (Yes / No): Yes";
               "2.1. Readability: None." ].

Definition line_count_response : string :=
  lines_text [ "0. Is this analyzable code? (Yes / No): Yes";
               "2.1. Readability: 47";
               "Lines of code: 12" ].

End Spec.

(** ** Further vocabulary *)

Module Props.
Import PyFloat ScoreMappings AuditScoring.

Local Open Scope Q_scope.

(** Within a table no phrase begins with another phrase. *)
Definition prefix_free (mapping : list (string * Z)) : bool :=
  forallb (fun e1 =>
             forallb (fun e2 =>
                        implb (String.prefix (fst e1) (fst e2))
                              (String.eqb (fst e1) (fst e2)))
                     mapping)
          mapping.


(** *** Responses read line by line *)

(** The key and the answer that [_parse_audit_response] reads on a line: the
    texts before and after the first colon of the line, each without the
    white space around it; nothing on a line without a colon. *)
Definition read_line (line : string) : option (string * string) :=
  match Py.split1 ":" (Py.strip line) with
  | [key; answer] => Some (Py.strip key, Py.strip answer)
  | _ => None
  end.

(** The answer of a line for a section: that of a line whose key starts
    with [label]. *)
Definition answer_for (label line : string) : option string :=
  match read_line line with
  | Some (key, answer) => if Py.startswith key label then Some answer else None
  | None => None
  end.

(** The answers that a response gives for a section, in the order of the
    lines. *)
Definition answers (label response : string) : list string :=
  omap (answer_for label) (Py.split Auditor.newline (Py.strip response)).

Definition last_answer (label response : string) : option string :=
  last (answers label response).

(** No prefix of [sections] begins with another, and no field occurs
    twice. *)
Definition sections_distinct : bool :=
  forallb (fun e1 =>
             forallb (fun e2 =>
                        implb (String.prefix (fst e1) (fst e2))
                              (String.eqb (fst e1) (fst e2))
                        && implb (String.eqb (snd e1) (snd e2))
                                 (String.eqb (fst e1) (fst e2)))
                     AuditorResponse.sections)
          AuditorResponse.sections.

(** What the loop of [ai_auditor_num.py] stores for an entry of the schema,
    if it stores something: the answer of the first line that starts with
    the label of the entry. *)
Definition numeric_stored (lines : list string) (entry : string * string)
  : option value :=
  match Auditor.line_starting (snd entry) lines with
  | Some line =>
      match Auditor.after_colon line with
      | Some answer =>
          let answer := Py.strip answer in
          Some (if String.eqb (fst entry) "domain"
                then VStr (Auditor.sanitize_domain answer)
                else if negb (bool_decide
                                (fst entry ∈ ["is_script"; "is_script_explanation";
                                              "package_dependencies"]))
                then of_option (AIAuditorNum._parse_numerical_value answer)
                else VStr answer)
      | None => None
      end
  | None => None
  end.

(** The text after the first colon of the first line that starts with
    [label]. *)
Definition after_colon_of (label : string) (lines : list string) : option string :=
  match Auditor.line_starting label lines with
  | Some line => Auditor.after_colon line
  | None => None
  end.

(** What a line does to the mapping of [_parse_audit_response]. *)
Definition line_update (score : string -> string -> value)
    (audit_data : gmap string value) (line : string) : gmap string value :=
  match read_line line with
  | Some (key, answer) =>
      match AuditorResponse.section_of key with
      | Some (_, field) =>
          <[field := if String.eqb field "domain" then VStr answer
                     else score field answer]> audit_data
      | None => audit_data
      end
  | None => audit_data
  end.

(** The names of [fieldnames] that [process_file] does not score. *)
Definition metadata (field : string) : Prop :=
  field ∈ ["filename"; "cycle"; "domain"; "model_used";
           "lines_of_code"; "lines_of_doc"].

(** The score that [process_file] writes into a column for the value that
    the auditor gave: 0 where there is none. *)
Definition column_score (field : string) (v : option value) : option Z :=
  match v with
  | None | Some VNone => Some 0%Z
  | Some v => RunTest.get_score_for_value field v
  end.


(** A word of [str.split()]: not empty and without white space; [P] holds
    of its characters. *)
Definition word (P : ascii -> bool) (w : string) : Prop :=
  w <> EmptyString
  /\ Spec.all_chars (fun c => negb (Py.isspace c)) w = true
  /\ Spec.all_chars P w = true.

(** The characters that [sanitize_domain] leaves. *)
Definition domain_char (c : ascii) : bool :=
  negb (Ascii.eqb "(" c) && negb (Ascii.eqb ")" c) && negb (Ascii.eqb "'" c)
  && negb (Ascii.eqb Auditor.double_quote c) && negb (Ascii.eqb "," c).

(** [process_file] with the call of [audit_content] in it: the row of a
    file in a cycle, for the outcomes of the calls of the model. *)
Definition audited_row (parse : string -> gmap string value) (model_number : Z)
    (call : nat -> bool * string) (file_name code_content : string) (cycle : Z)
  : option RunTest.row :=
  match AuditorResponse.audit_content parse model_number call with
  | Some audit_results =>
      RunTest.process_file file_name code_content audit_results cycle
        RunTest.fieldnames
  | None => None
  end.

(** The first of the attempts of [audit_content] that succeeds. *)
Definition first_success (call : nat -> bool * string) (attempt : nat) : Prop :=
  (attempt < AuditorResponse.MAX_RETRIES)%nat
  /\ fst (call attempt) = true
  /\ forall earlier, (earlier < attempt)%nat -> fst (call earlier) = false.

(** *** Files and runs *)

(** The number of lines of a text that hold something other than white
    space. *)
Definition nonblank_lines (text : string) : nat :=
  length (List.filter (fun line => Py.truthy (Py.strip line))
                      (Py.split Auditor.newline text)).

(** What a line adds to the two counts of [count_code_lines]. *)
Definition line_counts (line : string) : Z * Z :=
  let line := Py.strip line in
  if negb (Py.truthy line) then (0, 0)%Z
  else if Py.startswith line "#" || Py.startswith line RunTest.triple_quote
          || Py.startswith line "'"
  then (0, 1)%Z
  else (1, 0)%Z.

(** A text followed by a line break and another text. *)
Definition two_texts (a b : string) : string :=
  (a ++ String Auditor.newline b)%string.

(** The listing of [output] with one more directory somewhere. *)
Definition with_directory (name : string) (before after : list (string * bool))
  : list (string * bool) :=
  (before ++ (name, true) :: after)%list.

End Props.

(** ** Vocabulary of the statements about the binary64 report *)

Module Spec64.
Import PyFloat AuditScoring64.

(** A number that is neither negative nor not-a-number. *)
Definition nonneg (x : pyfloat) : Prop :=
  match x with
  | Fin a => (0 <= a)%Q
  | Inf negative => negative = false
  | NaN => False
  end.

(** A finite number above 0. *)
Definition positive (x : pyfloat) : Prop :=
  match x with
  | Fin a => (0 < a)%Q
  | _ => False
  end.

(** The number of rows and every score can be converted to a [float]:
    they are below [2^1024 - 2^970] in absolute value. *)
Definition float_sized (results : list Row) : Prop :=
  is_Some (Binary64.of_int (Binary64.len results))
  /\ forall row field v,
       In row results -> scores row !! field = Some v ->
       is_Some (Binary64.of_int v).

Definition float_sized_check (results : list Row) : bool :=
  bool_decide (is_Some (Binary64.of_int (Binary64.len results)))
  && forallb (fun row =>
                forallb (fun entry =>
                           bool_decide (is_Some (Binary64.of_int (snd entry))))
                        (map_to_list (scores row)))
             results.

(** Rows of one file with which the loop over the metrics raises nothing:
    there is a row, and every row has every metric, of a size that
    converts. *)
Definition sound_rows (rows : list Row) : Prop :=
  rows <> []
  /\ is_Some (Binary64.of_int (Binary64.len rows))
  /\ forall row field,
       In row rows -> In field numeric_fields ->
       exists v, scores row !! field = Some v /\ is_Some (Binary64.of_int v).

(** The double nearest to an integer. *)
Definition float_of (n : Z) : pyfloat := Binary64.round (inject_Z n).

(** [x / y] where [y] is not 0. *)
Definition quotient (x y : pyfloat) : pyfloat :=
  default NaN (Binary64.div x y).

(** The mean of some doubles as a float computation: their sum from the
    left, divided by their number. *)
Definition float_mean (l : list pyfloat) : pyfloat :=
  quotient (Binary64.sum l) (float_of (Binary64.len l)).

(** The double nearest to the arithmetic mean of some integers. *)
Definition mean_double (values : list Z) : pyfloat :=
  Binary64.round (Spec.mean_value_of values).

(** The distance of [v] to [m] in percent of [m]. *)
Definition percent (m : pyfloat) (v : Z) : pyfloat :=
  Binary64.mul (quotient (Binary64.abs (Binary64.sub (float_of v) m)) m) (Fin 100).

(** The deviation of some values: the mean of their distances to the mean in
    percent of the mean where the mean is above 0, and 0 elsewhere. *)
Definition deviation_double (values : list Z) : pyfloat :=
  let m := mean_double values in
  if Binary64.gt m (Fin 0) then float_mean (map (percent m) values) else Fin 0.

(** The deviation of a metric in a file, before it is rounded to two
    decimals. *)
Definition deviation_in (results : list Row) (name field : string) : pyfloat :=
  deviation_double (Spec.values_of field (Spec.rows_of name results)).

(** [field] is the first of [fields] at which [dev] is largest: no field
    has a larger value and every earlier field has a smaller one. *)
Definition first_largest (dev : string -> pyfloat) (fields : list string)
    (field : string) : Prop :=
  exists i,
    fields !! i = Some field
    /\ (forall g, In g fields -> Binary64.gt (dev g) (dev field) = false)
    /\ (forall j g, (j < i)%nat -> fields !! j = Some g ->
          Binary64.gt (dev field) (dev g) = true).


(** What the loop over the metrics does for a metric whose values are all
    there, and the statistics of a file after that loop. *)
Definition record_field (rows : list Row) (fs : file_stats) (field : string)
  : file_stats :=
  match Spec.values_of field rows with
  | [] => fs
  | v :: vs =>
      record_metric fs field v vs (mean_double (v :: vs)) (deviation_double (v :: vs))
  end.

(** The statistics of a file with its average in place. *)
Definition closed (fs : file_stats) : file_stats :=
  {| fs_metrics := fs_metrics fs;
     fs_total_deviation := fs_total_deviation fs;
     fs_max_deviation := fs_max_deviation fs;
     fs_most_inconsistent_metric := fs_most_inconsistent_metric fs;
     fs_avg_total_deviation :=
       Binary64.round2
         (quotient (fs_total_deviation fs) (float_of (Binary64.len numeric_fields))) |}.

Definition file_stats_of (rows : list Row) : file_stats :=
  closed (fold_left (record_field rows) numeric_fields new_file_stats).

(** The average deviation that a report gives for a file. *)
Definition file_average (d : deviations) (name : string) : pyfloat :=
  match per_file d !! name with
  | Some fs => fs_avg_total_deviation fs
  | None => Fin 0
  end.

(** The most inconsistent metric that [calculate_deviations] reports for a
    file. *)
Definition most_inconsistent_of (results : list Row) (name : string)
  : option (option string) :=
  match calculate_deviations results with
  | Some d => option_map fs_most_inconsistent_metric (per_file d !! name)
  | None => None
  end.


(** The overall numbers of a metric before the first file. *)
Definition zero_metric : overall_metric :=
  {| om_total_deviation := Fin 0; om_count := 0; om_avg_deviation := Fin 0 |}.

(** What a file adds to the overall numbers of a metric. *)
Definition bump (avg_deviation : pyfloat) (m : overall_metric) : overall_metric :=
  {| om_total_deviation := Binary64.add (om_total_deviation m) avg_deviation;
     om_count := (om_count m + 1)%Z;
     om_avg_deviation := om_avg_deviation m |}.

(** The overall numbers of a metric while the files are counted: the
    deviations of the metric in the files added from the left, and the
    number of the files. *)
Definition counted (field : string) (groups : list (string * list Row))
    (m : overall_metric) : overall_metric :=
  {| om_total_deviation :=
       fold_left Binary64.add
         (map (fun entry => deviation_double (Spec.values_of field (snd entry))) groups)
         (om_total_deviation m);
     om_count := (om_count m + Binary64.len groups)%Z;
     om_avg_deviation := om_avg_deviation m |}.

(** The overall numbers of a metric with its average in place. *)
Definition averaged (m : overall_metric) : overall_metric :=
  if (0 <? om_count m)%Z then
    {| om_total_deviation := om_total_deviation m;
       om_count := om_count m;
       om_avg_deviation :=
         Binary64.round2 (quotient (om_total_deviation m) (float_of (om_count m))) |}
  else m.

(** What the loop over the files has computed so far. *)
Definition files_done (groups : list (string * list Row)) (d0 d : deviations)
  : Prop :=
  per_file d
  = fold_left (fun m entry => <[fst entry := file_stats_of (snd entry)]> m)
              groups (per_file d0)
  /\ ov_total_deviation (overall d)
     = fold_left Binary64.add
         (map (fun entry => fs_avg_total_deviation (file_stats_of (snd entry))) groups)
         (ov_total_deviation (overall d0))
  /\ ov_avg_total_deviation (overall d) = ov_avg_total_deviation (overall d0)
  /\ (forall field,
        In field numeric_fields ->
        ov_metrics (overall d) !! field
        = option_map (counted field groups) (ov_metrics (overall d0) !! field)).

(** *** Sample rows *)

(** A row of [name] that has [v] for every metric but those of [changes]. *)
Definition row_with (name : string) (v : Z) (changes : list (string * Z)) : Row :=
  {| filename := name;
     scores := fold_left (fun m change => <[fst change := snd change]> m) changes
                 (scores (Spec.uniform_row name v)) |}.

(** Two metrics with the same values in another order: over the rationals
    their deviations are the same number, 33400/399. *)
Definition permuted_cycles : list Row :=
  [ row_with "x.py" 0 [];
    row_with "x.py" 0 [("technical_debt", 100); ("code_smells", 33)];
    row_with "x.py" 0 [("technical_debt", 33); ("code_smells", 100)] ].

(** A file whose cycles agree and a file with the cycles of scenario D. *)
Definition two_files : list Row :=
  [ Spec.uniform_row "a.py" 50; Spec.uniform_row "a.py" 50;
    Spec.uniform_row "b.py" 50; Spec.uniform_row "b.py" 70;
    Spec.uniform_row "b.py" 60 ].



(** A score that no [float] holds. *)
Definition huge_row : Row := Spec.uniform_row "x.py" (2 ^ 1024).

End Spec64.
(** ** Properties of [get_score] *)

Module ScoreMappingsFacts.
Import ScoreMappings Spec.

(** The table is a dictionary of dictionaries: no key is written twice. *)
Lemma SCORE_MAPPINGS_keys_distinct :
  NoDup (map fst SCORE_MAPPINGS)
  /\ Forall (fun entry => NoDup (map fst (snd entry))) SCORE_MAPPINGS.
Proof.
  split.
  - apply (bool_decide_unpack _). vm_compute. reflexivity.
  - apply (bool_decide_unpack _). vm_compute. reflexivity.
Qed.

Lemma get_score_loop_spec mapping value :
  (exists key, first_match mapping value key (get_score_loop mapping value))
  \/ (no_match mapping value /\ get_score_loop mapping value = 0).
Proof.
  induction mapping as [|[key score] rest IH]; simpl.
  - right. split; [constructor | reflexivity].
  - destruct (Py.startswith value key) eqn:Hkey.
    + left. exists key, [], rest. repeat split; [constructor | exact Hkey].
    + destruct IH as [(k & before & after & Heq & Hno & Hk) | [Hno Hzero]].
      * left. exists k, ((key, score) :: before), after.
        split; [simpl; f_equal; exact Heq|].
        split; [constructor; assumption | exact Hk].
      * right. split; [constructor; assumption | exact Hzero].
Qed.

Lemma get_score_loop_range mapping value :
  scores_in_range mapping = true -> 0 <= get_score_loop mapping value <= 100.
Proof.
  induction mapping as [|[key score] rest IH]; simpl; [lia|].
  intros [Hhd Htl]%andb_prop.
  destruct (Py.startswith value key); [lia | auto].
Qed.

Lemma table_get_In {A} key (d : list (string * A)) v :
  table_get key d = Some v -> In (key, v) d.
Proof.
  induction d as [|[k w] d IH]; simpl; [discriminate|].
  destruct (String.eqb k key) eqn:E.
  - apply String.eqb_eq in E. intros [= ->]. left. congruence.
  - auto.
Qed.

Lemma SCORE_MAPPINGS_in_range :
  forallb (fun entry => scores_in_range (snd entry)) SCORE_MAPPINGS = true.
Proof. vm_compute. reflexivity. Qed.

Lemma get_score_range attribute value : 0 <= get_score attribute value <= 100.
Proof.
  unfold get_score.
  destruct (table_get attribute SCORE_MAPPINGS) as [mapping|] eqn:E; [|lia].
  apply get_score_loop_range.
  apply table_get_In in E.
  pose proof SCORE_MAPPINGS_in_range as H.
  rewrite forallb_forall in H. exact (H _ E).
Qed.

(** C5.  For a metric key of the score table, [get_score] returns the score
    of the first entry, in declaration order, whose phrase is a prefix of
    the lower-cased answer, and 0 when no phrase is; the result is an
    integer between 0 and 100; and the answer "Highly Readable" scores 100
    for readability. *)
Theorem get_score_first_prefix_match attribute value mapping :
  table_get attribute SCORE_MAPPINGS = Some mapping ->
  ((exists key,
       first_match mapping (Py.lower value) key (get_score attribute value))
   \/ (no_match mapping (Py.lower value) /\ get_score attribute value = 0))
  /\ 0 <= get_score attribute value <= 100
  /\ get_score "readability" "Highly Readable" = 100.
Proof.
  intros Hmap. split; [|split].
  - unfold get_score. rewrite Hmap. apply get_score_loop_spec.
  - apply get_score_range.
  - vm_compute. reflexivity.
Qed.

Lemma get_score_first_prefix_match_witness :
  ((exists key,
       first_match
         [("high", 100); ("average", 50); ("poor", 0)]
         (Py.lower "Average, mostly") key
         (get_score "efficiency" "Average, mostly"))
   \/ (no_match [("high", 100); ("average", 50); ("poor", 0)]
         (Py.lower "Average, mostly")
       /\ get_score "efficiency" "Average, mostly" = 0))
  /\ 0 <= get_score "efficiency" "Average, mostly" <= 100
  /\ get_score "readability" "Highly Readable" = 100.
Proof.
  apply (get_score_first_prefix_match "efficiency" "Average, mostly").
  reflexivity.
Defined.

End ScoreMappingsFacts.

(** ** Properties of the number parser *)

Module PyFloatFacts.
Import PyFloat Spec.

Local Open Scope Q_scope.

Ltac by_char c :=
  destruct c as [[] [] [] [] [] [] [] []]; try discriminate; try reflexivity.

Lemma numeric_char_not_space c : numeric_char c = true -> Py.isspace c = false.
Proof. by_char c. Qed.

Lemma numeric_char_lower c : numeric_char c = true -> Py.lower_char c = c.
Proof. by_char c. Qed.


Lemma digit_not_dot c : Py.isdigit c = true -> c <> "."%char.
Proof. by_char c. Qed.

Lemma digit_value_range c : Py.isdigit c = true -> (0 <= digit_value c <= 9)%Z.
Proof. by_char c; intros _; vm_compute; split; discriminate. Qed.

Lemma all_chars_keep f s : all_chars f (Py.keep f s) = true.
Proof.
  induction s as [|c s IH]; simpl; [reflexivity|].
  destruct (f c) eqn:E; simpl; [rewrite E|]; exact IH.
Qed.


Lemma all_chars_app f s t :
  all_chars f (s ++ t) = all_chars f s && all_chars f t.
Proof.
  induction s as [|c s IH]; simpl; [reflexivity|].
  rewrite IH. apply andb_assoc.
Qed.

Lemma all_chars_weaken (f g : ascii -> bool) s :
  (forall c, f c = true -> g c = true) ->
  all_chars f s = true -> all_chars g s = true.
Proof.
  intros Hfg. induction s as [|c s IH]; simpl; [reflexivity|].
  intros [Hc Hs]%andb_prop. rewrite (Hfg _ Hc). simpl. auto.
Qed.

(** *** Stripping leaves a numeric string alone *)

Lemma rstrip_with_none f s :
  all_chars (fun c => negb (f c)) s = true -> Py.rstrip_with f s = s.
Proof.
  induction s as [|c s IH]; simpl; [reflexivity|].
  intros [Hc Hs]%andb_prop. rewrite (IH Hs).
  destruct s; [|reflexivity].
  apply negb_true_iff in Hc. rewrite Hc. reflexivity.
Qed.

Lemma strip_numeric s : all_chars numeric_char s = true -> Py.strip s = s.
Proof.
  intros H. unfold Py.strip, Py.rstrip.
  assert (Hl : Py.lstrip s = s).
  { destruct s as [|c s]; [reflexivity|]. simpl in *.
    apply andb_prop in H as [Hc _].
    rewrite (numeric_char_not_space _ Hc). reflexivity. }
  rewrite Hl. apply rstrip_with_none.
  revert H. apply all_chars_weaken.
  intros c Hc. rewrite (numeric_char_not_space _ Hc). reflexivity.
Qed.

Lemma drop_underscores_numeric prev s :
  prev <> Some "_"%char ->
  all_chars numeric_char s = true ->
  drop_underscores prev s = Some s.
Proof.
  revert prev. induction s as [|c s IH]; intros prev Hprev H; simpl.
  - destruct prev as [p|]; [|reflexivity].
    destruct (Ascii.eqb_spec p "_"); [congruence|].
    by_char p; congruence.
  - simpl in H. apply andb_prop in H as [Hc Hs].
    assert (Hcu : Ascii.eqb c "_" = false) by (revert Hc; by_char c).
    rewrite Hcu.
    assert (Hpu : match prev with Some "_"%char => true | _ => false end = false).
    { destruct prev as [p|]; [|reflexivity].
      destruct (Ascii.eqb_spec p "_"); [congruence|].
      by_char p; congruence. }
    rewrite Hpu. simpl.
    rewrite IH; [reflexivity| |exact Hs].
    intros [= ->]. discriminate.
Qed.

Lemma split_sign_numeric s :
  all_chars numeric_char s = true -> split_sign s = (false, s).
Proof.
  destruct s as [|c s]; [reflexivity|]. simpl.
  intros [Hc _]%andb_prop. revert Hc. by_char c.
Qed.

Lemma lower_numeric s : all_chars numeric_char s = true -> Py.lower s = s.
Proof.
  induction s as [|c s IH]; simpl; [reflexivity|].
  intros [Hc Hs]%andb_prop.
  rewrite (numeric_char_lower _ Hc), (IH Hs). reflexivity.
Qed.

Lemma numeric_not_word s (w : string) c :
  all_chars numeric_char s = true ->
  numeric_char c = false ->
  String.eqb s (String c w) = false.
Proof.
  destruct s as [|d s]; [reflexivity|]. simpl.
  intros [Hd _]%andb_prop Hc.
  destruct (Ascii.eqb_spec d c) as [->|]; [congruence|reflexivity].
Qed.

(** On a string of digits and points, [float] is the unsigned decimal
    parser. *)
Lemma float_numeric s :
  all_chars numeric_char s = true ->
  float s = option_map Fin (parse_decimal s).
Proof.
  intros H. unfold float.
  rewrite (strip_numeric _ H).
  rewrite (drop_underscores_numeric None s); [|discriminate|exact H].
  rewrite (split_sign_numeric _ H).
  rewrite (lower_numeric _ H).
  rewrite !(numeric_not_word s _ _ H) by reflexivity. simpl.
  destruct (parse_decimal s); reflexivity.
Qed.

(** *** Digits *)

Lemma span_digits_spec s :
  s = (fst (span_digits s) ++ snd (span_digits s))%string
  /\ all_digits (fst (span_digits s)) = true
  /\ match snd (span_digits s) with
     | EmptyString => True
     | String c _ => Py.isdigit c = false
     end.
Proof.
  induction s as [|c s (IH1 & IH2 & IH3)]; simpl; [auto|].
  destruct (Py.isdigit c) eqn:Hc.
  - destruct (span_digits s) as [ds rest]; simpl in *.
    split; [rewrite IH1 at 1; reflexivity|]. split; [|exact IH3].
    unfold all_digits in *. simpl. rewrite Hc. exact IH2.
  - simpl. auto.
Qed.

Lemma span_digits_app ds rest :
  all_digits ds = true ->
  match rest with
  | EmptyString => True
  | String c _ => Py.isdigit c = false
  end ->
  span_digits (ds ++ rest) = (ds, rest).
Proof.
  intros Hds Hrest. induction ds as [|c ds IH]; simpl.
  - destruct rest as [|c r]; [reflexivity|]. simpl. rewrite Hrest. reflexivity.
  - unfold all_digits in Hds. simpl in Hds. apply andb_prop in Hds as [Hc Hds].
    rewrite Hc, (IH Hds). reflexivity.
Qed.

Lemma digits_value_from_shift acc ds :
  digits_value_from acc ds
  = (acc * 10 ^ Z.of_nat (String.length ds) + digits_value ds)%Z.
Proof.
  unfold digits_value. revert acc.
  induction ds as [|c ds IH]; intros acc; simpl String.length; simpl digits_value_from.
  - simpl. lia.
  - rewrite IH, (IH (10 * 0 + digit_value c)%Z).
    rewrite Nat2Z.inj_succ, Z.pow_succ_r by lia. ring.
Qed.

Lemma digits_value_from_app acc a b :
  digits_value_from acc (a ++ b) = digits_value_from (digits_value_from acc a) b.
Proof.
  revert acc. induction a as [|c a IH]; intros acc; simpl; [reflexivity|].
  apply IH.
Qed.

Lemma digits_value_app a b :
  digits_value (a ++ b)
  = (digits_value a * 10 ^ Z.of_nat (String.length b) + digits_value b)%Z.
Proof.
  unfold digits_value at 1. rewrite digits_value_from_app.
  apply digits_value_from_shift.
Qed.

Lemma digits_value_from_nonneg acc ds :
  (0 <= acc)%Z -> all_digits ds = true -> (0 <= digits_value_from acc ds)%Z.
Proof.
  revert acc. induction ds as [|c ds IH]; intros acc Hacc Hds; simpl; [exact Hacc|].
  unfold all_digits in Hds. simpl in Hds. apply andb_prop in Hds as [Hc Hds].
  apply IH; [|exact Hds].
  pose proof (digit_value_range _ Hc). lia.
Qed.

Lemma digits_value_nonneg ds : all_digits ds = true -> (0 <= digits_value ds)%Z.
Proof. apply digits_value_from_nonneg. lia. Qed.

(** *** The decimal parser *)

Lemma append_empty_r s : (s ++ EmptyString)%string = s.
Proof. induction s as [|c s IH]; [reflexivity|]. cbv [String.append] in *. fold String.append in *. rewrite IH. reflexivity. Qed.

Lemma append_is_empty a b : (a ++ b)%string = EmptyString -> a = EmptyString /\ b = EmptyString.
Proof. destruct a; [auto|discriminate]. Qed.




Lemma pow10_pos e : 0 < pow10 e.
Proof. apply Qpower_0_lt. reflexivity. Qed.

Lemma pow10_neg n : pow10 (0 - Z.of_nat n) == / inject_Z (10 ^ Z.of_nat n).
Proof.
  unfold pow10. rewrite Z.sub_0_l, Qpower_opp.
  rewrite Zpower_Qpower by lia. reflexivity.
Qed.

Lemma mantissa_value int_part frac_part :
  inject_Z (digits_value (int_part ++ frac_part))
  * pow10 (0 - Z.of_nat (String.length frac_part))
  == decimal_value int_part frac_part.
Proof.
  rewrite pow10_neg, digits_value_app. unfold decimal_value.
  set (p := (10 ^ Z.of_nat (String.length frac_part))%Z).
  assert (Hp : ~ inject_Z p == 0).
  { assert (0 < p)%Z by (apply Z.pow_pos_nonneg; lia).
    unfold Qeq. simpl. lia. }
  rewrite inject_Z_plus, inject_Z_mult. field. exact Hp.
Qed.

Lemma parse_decimal_nonneg s q : parse_decimal s = Some q -> 0 <= q.
Proof.
  unfold parse_decimal.
  pose proof (span_digits_spec s) as (_ & Hip & _).
  destruct (span_digits s) as [int_part rest]. simpl in Hip.
  assert (Hfrac : all_digits (fst (match after_point rest with
                                    | Some r => span_digits r
                                    | None => (EmptyString, rest)
                                    end)) = true).
  { destruct (after_point rest) as [r|]; [|reflexivity].
    apply span_digits_spec. }
  destruct (match after_point rest with
            | Some r => span_digits r
            | None => (EmptyString, rest)
            end) as [frac_part rest']. simpl in Hfrac.
  destruct (int_part ++ frac_part)%string as [|d ds] eqn:E; [discriminate|].
  destruct (parse_exponent rest') as [e|]; [|discriminate].
  intros [= <-]. apply Qmult_le_0_compat.
  - change 0 with (inject_Z 0). rewrite <- Zle_Qle, <- E.
    apply digits_value_nonneg. unfold all_digits.
    rewrite all_chars_app. unfold all_digits in Hip, Hfrac. rewrite Hip, Hfrac. reflexivity.
  - apply Qlt_le_weak, pow10_pos.
Qed.


Lemma decimal_literal_numeric s v :
  decimal_literal s v -> all_chars numeric_char s = true.
Proof.
  intros (ip & fp & Hip & Hfp & _ & Hs & _).
  assert (Hd : forall c, Py.isdigit c = true -> numeric_char c = true).
  { intros c Hc. unfold numeric_char. rewrite Hc. reflexivity. }
  apply (all_chars_weaken _ _ _ Hd) in Hip, Hfp.
  destruct Hs as [[-> _] | ->]; [exact Hip|].
  rewrite !all_chars_app, Hip, Hfp. reflexivity.
Qed.

(** A decimal literal parses to its value. *)
Lemma parse_decimal_literal s v :
  decimal_literal s v -> exists q, parse_decimal s = Some q /\ q == v.
Proof.
  intros (ip & fp & Hip & Hfp & Hne & Hs & Hv).
  unfold parse_decimal.
  destruct Hs as [[-> ->] | ->].
  - rewrite append_empty_r in Hne.
    pose proof (span_digits_app ip EmptyString Hip I) as Hspan.
    rewrite append_empty_r in Hspan. rewrite Hspan.
    simpl after_point. cbv iota beta. rewrite append_empty_r.
    destruct ip as [|d ds]; [contradiction|].
    simpl parse_exponent. cbv iota beta.
    eexists. split; [reflexivity|].
    rewrite Hv, <- (mantissa_value (String d ds) EmptyString), append_empty_r.
    reflexivity.
  - rewrite (span_digits_app ip ("." ++ fp)%string Hip); [|reflexivity].
    change (after_point ("." ++ fp)%string) with (Some fp).
    pose proof (span_digits_app fp EmptyString Hfp I) as Hspan.
    rewrite append_empty_r in Hspan. cbv iota beta. rewrite Hspan.
    destruct (ip ++ fp)%string as [|d ds] eqn:E; [contradiction|].
    simpl parse_exponent. cbv iota beta.
    eexists. split; [reflexivity|].
    rewrite Hv, <- E. apply mantissa_value.
Qed.

End PyFloatFacts.

(** ** Properties of [_parse_numerical_value] *)

Module AIAuditorNumFacts.
Import PyFloat Spec PyFloatFacts AIAuditorNum.

Local Open Scope Q_scope.

Lemma gt_true a b : PyNum.gt a b = true <-> b < a.
Proof.
  unfold PyNum.gt. rewrite negb_true_iff.
  split.
  - intros H. apply Qnot_le_lt. intros Hle.
    apply Qle_bool_iff in Hle. congruence.
  - intros H. destruct (Qle_bool a b) eqn:E; [|reflexivity].
    apply Qle_bool_iff in E. exfalso. exact (Qlt_not_le _ _ H E).
Qed.

Lemma gt_false a b : PyNum.gt a b = false <-> a <= b.
Proof.
  unfold PyNum.gt. rewrite negb_false_iff. apply Qle_bool_iff.
Qed.

(** [max(0, min(100, x))] of a finite [x] is [x] limited to [0, 100]. *)
Lemma clamp_finite v :
  exists q, max (Fin 0) (min (Fin 100) (Fin v)) = Fin q /\ q == clamp v.
Proof.
  unfold max, min, clamp. simpl lt.
  destruct (PyNum.gt 100 v) eqn:E100.
  - apply gt_true in E100. simpl lt.
    destruct (PyNum.gt v 0) eqn:E0.
    + apply gt_true in E0. exists v. split; [reflexivity|].
      rewrite (Q.min_r 100 v) by (apply Qlt_le_weak; exact E100).
      rewrite Q.max_r by (apply Qlt_le_weak; exact E0). reflexivity.
    + apply gt_false in E0. exists 0. split; [reflexivity|].
      rewrite (Q.min_r 100 v) by (apply Qlt_le_weak; exact E100).
      rewrite Q.max_l by exact E0. reflexivity.
  - apply gt_false in E100. simpl lt.
    exists 100. split; [reflexivity|].
    rewrite (Q.min_l 100 v) by exact E100.
    rewrite Q.max_r by discriminate. reflexivity.
Qed.

Lemma clamp_range v : 0 <= clamp v <= 100.
Proof.
  unfold clamp. split; [apply Q.le_max_l|].
  apply Q.max_lub; [discriminate | apply Q.le_min_l].
Qed.

Lemma parse_numerical_value_unfold value :
  _parse_numerical_value value
  = match Py.keep numeric_char value with
    | EmptyString => None
    | cleaned =>
        match parse_decimal cleaned with
        | None => None
        | Some v => Some (max (Fin 0) (min (Fin 100) (Fin v)))
        end
    end.
Proof.
  unfold _parse_numerical_value.
  change (fun c => Py.isdigit c || Ascii.eqb c ".") with numeric_char.
  pose proof (all_chars_keep numeric_char value) as Hnum.
  destruct (Py.keep numeric_char value) as [|c s] eqn:E; [reflexivity|].
  simpl Py.truthy. cbv iota beta. simpl negb. cbv iota.
  rewrite (float_numeric _ Hnum).
  destruct (parse_decimal (String c s)); reflexivity.
Qed.





End AIAuditorNumFacts.

(** ** Properties of the two response parsers *)

Module AuditorFacts.
Import PyFloat Spec Auditor.

(** *** Lines, labels and colons *)

Lemma line_starting_first label lines line :
  line_starting label lines = Some line <->
  first_such (fun l => Py.startswith l label) lines line.
Proof.
  unfold line_starting, Py.next_where, first_such. split.
  - induction lines as [|l lines IH]; simpl; [discriminate|].
    destruct (Py.startswith l label) eqn:E.
    + intros [= ->]. exists [], lines. repeat split; [constructor | exact E].
    + intros H. destruct (IH H) as (before & after & -> & Hb & Hl).
      exists (l :: before), after. repeat split; [constructor; assumption | exact Hl].
  - intros (before & after & -> & Hb & Hl).
    induction Hb as [|l before Hl' Hb IH]; simpl.
    + rewrite Hl. reflexivity.
    + rewrite Hl'. exact IH.
Qed.

Lemma line_starting_startswith label lines line :
  line_starting label lines = Some line -> Py.startswith line label = true.
Proof. intros H. apply (find_some _ _ H). Qed.

Lemma startswith_truthy line label :
  Py.startswith line label = true -> Py.truthy label = true -> Py.truthy line = true.
Proof. destruct label; [discriminate|]. destruct line; [discriminate|reflexivity]. Qed.

Lemma split1_found sep head tail :
  all_chars (fun c => negb (Ascii.eqb sep c)) head = true ->
  Py.split1 sep (head ++ String sep tail) = [head; tail].
Proof.
  induction head as [|c head IH]; intros Hh.
  - change (Py.split1 sep (String sep tail) = [EmptyString; tail]).
    simpl. rewrite Ascii.eqb_refl. reflexivity.
  - simpl in Hh. apply andb_prop in Hh as [Hc Hh].
    change (Py.split1 sep (String c (head ++ String sep tail))
            = [String c head; tail]).
    simpl. apply negb_true_iff in Hc. rewrite Hc, (IH Hh). reflexivity.
Qed.

Lemma split1_cases sep line :
  (Py.split1 sep line = [line]
   /\ all_chars (fun c => negb (Ascii.eqb sep c)) line = true)
  \/ (exists head tail,
        line = (head ++ String sep tail)%string
        /\ all_chars (fun c => negb (Ascii.eqb sep c)) head = true
        /\ Py.split1 sep line = [head; tail]).
Proof.
  induction line as [|c line IH]; simpl.
  - left. auto.
  - destruct (Ascii.eqb sep c) eqn:E.
    + right. exists EmptyString, line. apply Ascii.eqb_eq in E. subst c. auto.
    + destruct IH as [[-> Hl] | (head & tail & -> & Hh & ->)].
      * left. simpl. auto.
      * right. exists (String c head), tail. simpl. rewrite E. auto.
Qed.

Lemma after_colon_spec line answer :
  after_colon line = Some answer <->
  exists head,
    line = (head ++ String ":" answer)%string
    /\ all_chars (fun c => negb (Ascii.eqb ":" c)) head = true.
Proof.
  unfold after_colon. split.
  - destruct (split1_cases ":" line) as [[-> _] | (head & tail & -> & Hh & ->)].
    + discriminate.
    + intros [= ->]. eauto.
  - intros (head & -> & Hh). rewrite (split1_found _ _ _ Hh). reflexivity.
Qed.

(** *** The schema *)

Lemma prefix_common a b s :
  String.prefix a s = true -> String.prefix b s = true ->
  String.prefix a b = true \/ String.prefix b a = true.
Proof.
  revert a b. induction s as [|c s IH]; intros a b Ha Hb.
  - destruct a; [|discriminate]. left. destruct b; reflexivity.
  - destruct a as [|x a]; [left; destruct b; reflexivity|].
    destruct b as [|y b]; [right; reflexivity|].
    simpl in Ha, Hb |- *.
    destruct (ascii_dec x c) as [->|]; [|discriminate].
    destruct (ascii_dec y c) as [->|]; [|discriminate].
    destruct (ascii_dec c c); [|congruence].
    apply IH; assumption.
Qed.

Lemma schema_overlaps :
  forallb (fun e1 =>
             forallb (fun e2 => implb (overlap e1 e2) (gate_pair e1 e2))
                     schema_mapping)
          schema_mapping = true.
Proof. vm_compute. reflexivity. Qed.

Lemma gate_pair_eq e1 e2 :
  gate_pair e1 e2 = true ->
  e1 = ("is_script", "0.") /\ e2 = ("is_script_explanation", "0.1.").
Proof.
  destruct e1 as [k1 l1], e2 as [k2 l2]. unfold gate_pair. simpl.
  rewrite !andb_true_iff, !String.eqb_eq. intros [[[-> ->] ->] ->]. auto.
Qed.

Lemma schema_keys_NoDup : NoDup (map fst schema_mapping).
Proof. apply (bool_decide_unpack _). vm_compute. reflexivity. Qed.

Lemma schema_labels_NoDup : NoDup (map snd schema_mapping).
Proof. apply (bool_decide_unpack _). vm_compute. reflexivity. Qed.

Lemma schema_overlap_is_gate e1 e2 :
  In e1 schema_mapping -> In e2 schema_mapping ->
  fst e1 <> fst e2 -> String.prefix (snd e1) (snd e2) = true ->
  e1 = ("is_script", "0.") /\ e2 = ("is_script_explanation", "0.1.").
Proof.
  intros H1 H2 Hne Hpre.
  pose proof schema_overlaps as H.
  rewrite forallb_forall in H. specialize (H _ H1).
  rewrite forallb_forall in H. specialize (H _ H2).
  apply gate_pair_eq.
  unfold overlap in H. rewrite Hpre in H.
  destruct (String.eqb_spec (fst e1) (fst e2)); [contradiction|exact H].
Qed.

(** C7, as amended.  Every key of the schema has exactly one label and no
    two keys share a label; the label "0." of [is_script] is a prefix of
    the label "0.1." of [is_script_explanation], and no other label is a
    prefix of the label of another key; so a line that starts with the
    labels of two keys starts with "0.1." and the keys are [is_script] and
    [is_script_explanation]. *)
Theorem schema_labels_unambiguous_except_gate :
  NoDup (map fst schema_mapping)
  /\ NoDup (map snd schema_mapping)
  /\ (forall e1 e2,
        In e1 schema_mapping -> In e2 schema_mapping ->
        fst e1 <> fst e2 -> String.prefix (snd e1) (snd e2) = true ->
        e1 = ("is_script", "0.") /\ e2 = ("is_script_explanation", "0.1."))
  /\ (forall line e1 e2,
        In e1 schema_mapping -> In e2 schema_mapping ->
        fst e1 <> fst e2 ->
        Py.startswith line (snd e1) = true ->
        Py.startswith line (snd e2) = true ->
        Py.startswith line "0.1." = true
        /\ (fst e1 = "is_script" /\ fst e2 = "is_script_explanation"
            \/ fst e1 = "is_script_explanation" /\ fst e2 = "is_script")).
Proof.
  split; [exact schema_keys_NoDup|].
  split; [exact schema_labels_NoDup|].
  split; [exact schema_overlap_is_gate|].
  intros line e1 e2 H1 H2 Hne Hl1 Hl2.
  destruct (prefix_common _ _ _ Hl1 Hl2) as [Hpre|Hpre].
  - destruct (schema_overlap_is_gate e1 e2 H1 H2 Hne Hpre) as [-> ->].
    split; [exact Hl2 | left; auto].
  - destruct (schema_overlap_is_gate e2 e1 H2 H1 (not_eq_sym Hne) Hpre) as [-> ->].
    split; [exact Hl1 | right; auto].
Qed.

Lemma schema_labels_unambiguous_except_gate_witness :
  Py.startswith "0.1. Explanation: a lock file" "0.1." = true
  /\ ("is_script" = "is_script" /\ "is_script_explanation" = "is_script_explanation"
      \/ "is_script" = "is_script_explanation" /\ "is_script_explanation" = "is_script").
Proof.
  apply (proj2 (proj2 (proj2 schema_labels_unambiguous_except_gate))
           "0.1. Explanation: a lock file"
           ("is_script", "0.") ("is_script_explanation", "0.1.")).
  - simpl. auto.
  - simpl. auto.
  - simpl. discriminate.
  - reflexivity.
  - reflexivity.
Defined.

(** The claim of C7 as it was written fails: the label of [is_script] is a
    prefix of the label of [is_script_explanation], and the search for the
    line of [is_script] finds a line of section 0.1. *)
Lemma gate_label_is_prefix_of_explanation_label :
  In ("is_script", "0.") schema_mapping
  /\ In ("is_script_explanation", "0.1.") schema_mapping
  /\ String.prefix "0." "0.1." = true
  /\ line_starting "0." ["0.1. Explanation: a lock file"]
     = Some "0.1. Explanation: a lock file".
Proof. simpl. auto 10. Qed.

(** *** The gate on section 0 *)

Lemma is_script_gate_gated response_text :
  gated response_text ->
  is_script_gate (lines_of response_text) = Some (gate_result response_text).
Proof.
  intros (line & answer & Hline & Hanswer & Hno).
  unfold is_script_gate, gate_result, gate_explanation.
  rewrite Hline.
  rewrite (startswith_truthy line "0."
             (line_starting_startswith _ _ _ Hline) eq_refl).
  rewrite Hanswer, Hno. simpl String.eqb. cbv iota.
  destruct (line_starting "0.1." (lines_of response_text)) as [l|] eqn:El;
    [|reflexivity].
  rewrite (startswith_truthy l "0.1."
             (line_starting_startswith _ _ _ El) eq_refl).
  reflexivity.
Qed.

Lemma is_script_gate_not_gated response_text :
  ~ gated response_text -> is_script_gate (lines_of response_text) = None.
Proof.
  intros Hng. unfold is_script_gate.
  destruct (line_starting "0." (lines_of response_text)) as [line|] eqn:Hline;
    [|reflexivity].
  destruct (Py.truthy line); [|reflexivity].
  destruct (after_colon line) as [answer|] eqn:Hanswer; [|reflexivity].
  destruct (String.eqb_spec (Py.lower (Py.strip answer)) "no") as [Hno|];
    [|reflexivity].
  exfalso. apply Hng. exists line, answer. auto.
Qed.

(** C9.  When the first line that starts with "0." has, after its first
    colon, a value that is "no" once trimmed and lower-cased, both parsers
    return exactly the mapping of [is_script] to "no" and of
    [is_script_explanation] to the text after the first colon of the first
    line that starts with "0.1." (or "N/A" without such a text), with a
    count of 0; no metric is in the mapping. *)
Theorem gate_short_circuits response_text line answer :
  line_starting "0." (lines_of response_text) = Some line ->
  after_colon line = Some answer ->
  Py.lower (Py.strip answer) = "no" ->
  let result :=
    (<["is_script_explanation" := VStr (gate_explanation response_text)]>
       (<["is_script" := VStr "no"]> (∅ : gmap string value)), 0%Z) in
  AIAuditor.parse_audit_response response_text = result
  /\ AIAuditorNum.parse_audit_response response_text = result
  /\ (forall field, In field AuditScoring.numeric_fields -> fst result !! field = None).
Proof.
  intros Hline Hanswer Hno result.
  assert (Hg : gated response_text) by (exists line, answer; auto).
  apply is_script_gate_gated in Hg. unfold lines_of in Hg.
  unfold AIAuditor.parse_audit_response, AIAuditorNum.parse_audit_response.
  rewrite Hg. split; [reflexivity|]. split; [reflexivity|].
  intros field Hfield. subst result. simpl fst.
  rewrite !lookup_insert_ne; [apply lookup_empty| |].
  - intros <-. revert Hfield. apply (bool_decide_unpack _). vm_compute. reflexivity.
  - intros <-. revert Hfield. apply (bool_decide_unpack _). vm_compute. reflexivity.
Qed.

Lemma gate_short_circuits_witness :
  let result :=
    (<["is_script_explanation" := VStr (gate_explanation not_code_response)]>
       (<["is_script" := VStr "no"]> (∅ : gmap string value)), 0%Z) in
  AIAuditor.parse_audit_response not_code_response = result
  /\ AIAuditorNum.parse_audit_response not_code_response = result
  /\ (forall field, In field AuditScoring.numeric_fields -> fst result !! field = None).
Proof.
  apply (gate_short_circuits not_code_response
           "0. Is this analyzable code? (Yes / No): No" " No");
    reflexivity.
Defined.

Example gate_explanation_scenario_E :
  gate_explanation not_code_response = "The file is a lock file.".
Proof. reflexivity. Qed.

(** *** The loop of [ai_auditor.py] over the schema *)

Lemma schema_entries_ok : forallb entry_ok schema_mapping = true.
Proof. vm_compute. reflexivity. Qed.

Lemma parse_response_line_key text key label default flag :
  fst (AIAuditor.parse_response_line text key label default flag) = key.
Proof.
  unfold AIAuditor.parse_response_line.
  repeat match goal with
         | |- context [match ?x with _ => _ end] => destruct x
         end; reflexivity.
Qed.

Lemma parse_response_line_stored text entry :
  entry_ok entry = true ->
  snd (AIAuditor.parse_response_line text (fst entry) (Py.strip (snd entry)) VNone
         (String.eqb (fst entry) "time_to_fix_flag"))
  = stored text entry.
Proof.
  destruct entry as [key label]. unfold entry_ok. simpl fst. simpl snd.
  intros [[Hstrip Hlabel]%andb_prop Hflag]%andb_prop.
  apply String.eqb_eq in Hstrip. apply negb_true_iff in Hflag.
  rewrite Hstrip, Hflag.
  unfold AIAuditor.parse_response_line, stored, sanitized_answer, raw_answer, lines_of.
  simpl fst. simpl snd.
  destruct (line_starting label (Py.split newline text)) as [line|] eqn:Hline;
    [|reflexivity].
  rewrite (startswith_truthy line label
             (line_starting_startswith _ _ _ Hline) Hlabel).
  destruct (after_colon line) as [answer|]; [|reflexivity].
  simpl option_map.
  destruct (String.eqb key "domain"); reflexivity.
Qed.

Lemma stored_is_none text entry :
  value_eqb (stored text entry) (VStr "None") = is_none_answer text entry.
Proof.
  unfold stored, is_none_answer.
  destruct (sanitized_answer text entry) as [s|]; simpl.
  - destruct (String.eqb_spec s "None") as [->|Hne].
    + symmetry. apply bool_decide_eq_true. reflexivity.
    + symmetry. apply bool_decide_eq_false. congruence.
  - reflexivity.
Qed.

(** The loop stores an answer for every entry and counts the answers that
    read "None". *)
Lemma textual_loop text entries audit_data count :
  forallb entry_ok entries = true ->
  NoDup (map fst entries) ->
  (is_Some (audit_data !! "is_script") -> ~ In "is_script" (map fst entries)) ->
  fold_left (AIAuditor.schema_step text) entries (audit_data, count)
  = (fold_left (fun d entry => <[fst entry := stored text entry]> d) entries audit_data,
     (count + Z.of_nat (length (List.filter (is_none_answer text) entries)))%Z).
Proof.
  revert audit_data count.
  induction entries as [|[key label] entries IH]; intros audit_data count Hok Hnd Hfresh.
  - simpl. f_equal. lia.
  - simpl in Hok. apply andb_prop in Hok as [Hok1 Hok].
    simpl in Hnd. apply NoDup_cons in Hnd as [Hkey Hnd].
    cbn [fold_left].
    assert (Hstep : AIAuditor.schema_step text (audit_data, count) (key, label)
                    = (<[key := stored text (key, label)]> audit_data,
                       if is_none_answer text (key, label)
                       then (count + 1)%Z else count)).
    { unfold AIAuditor.schema_step.
      pose proof (parse_response_line_key text key (Py.strip label) VNone
                    (String.eqb key "time_to_fix_flag")) as Hk.
      pose proof (parse_response_line_stored text (key, label) Hok1) as Hv.
      simpl fst in Hv. simpl snd in Hv.
      destruct (AIAuditor.parse_response_line text key (Py.strip label) VNone
                  (String.eqb key "time_to_fix_flag")) as [pk v].
      simpl in Hk, Hv. subst pk v. rewrite stored_is_none.
      destruct (String.eqb_spec key "is_script") as [->|Hne]; simpl andb;
        [|reflexivity].
      rewrite bool_decide_eq_false_2; [reflexivity|].
      intros Hin. apply (Hfresh Hin). left. reflexivity. }
    rewrite Hstep, IH; [| exact Hok | exact Hnd |].
    + simpl List.filter. destruct (is_none_answer text (key, label)); simpl length.
      * f_equal. lia.
      * f_equal.
    + intros Hsome Hin.
      destruct (String.eqb_spec key "is_script") as [->|Hne].
      * apply Hkey. apply list_elem_of_In. exact Hin.
      * rewrite lookup_insert_ne in Hsome by exact Hne.
        apply (Hfresh Hsome). right. exact Hin.
Qed.

Lemma textual_parse_not_gated text :
  ~ gated text ->
  AIAuditor.parse_audit_response text
  = (fold_left (fun d entry => <[fst entry := stored text entry]> d) schema_mapping ∅,
     count_fields (is_none_answer text)).
Proof.
  intros Hng. unfold AIAuditor.parse_audit_response.
  pose proof (is_script_gate_not_gated text Hng) as Hgate.
  unfold lines_of in Hgate. rewrite Hgate.
  rewrite textual_loop.
  - unfold count_fields. rewrite Z.add_0_l. reflexivity.
  - exact schema_entries_ok.
  - exact schema_keys_NoDup.
  - intros [v Hv]. rewrite lookup_empty in Hv. discriminate.
Qed.

(** C8, as amended.  When the gate on section 0 does not answer "no",
    [parse_audit_response] of [ai_auditor.py] returns, with the mapping,
    the number of fields of the schema whose answer reads "None" after its
    sanitization ([sanitize_domain] for the domain, [sanitize_text] for the
    others). *)
Theorem textual_none_count response_text :
  ~ gated response_text ->
  snd (AIAuditor.parse_audit_response response_text)
  = count_fields
      (fun entry =>
         bool_decide (sanitized_answer response_text entry = Some "None")).
Proof.
  intros Hng. rewrite (textual_parse_not_gated _ Hng). reflexivity.
Qed.

Lemma none_with_point_not_gated : ~ gated none_with_point_response.
Proof.
  intros (line & answer & Hline & Hanswer & Hno).
  vm_compute in Hline. injection Hline as <-.
  vm_compute in Hanswer. injection Hanswer as <-.
  vm_compute in Hno. discriminate Hno.
Qed.

Lemma textual_none_count_witness :
  snd (AIAuditor.parse_audit_response none_with_point_response)
  = count_fields
      (fun entry =>
         bool_decide (sanitized_answer none_with_point_response entry = Some "None")).
Proof.
  apply (textual_none_count none_with_point_response).
  intros (line & answer & Hline & Hanswer & Hno).
  vm_compute in Hline. injection Hline as <-.
  vm_compute in Hanswer. injection Hanswer as <-.
  vm_compute in Hno. discriminate Hno.
Defined.

(** The claim of C8 as it was written fails: the answer "None." is not the
    text "None", yet [ai_auditor.py] counts it. *)
Lemma textual_none_count_is_not_of_raw_answers :
  ~ gated none_with_point_response
  /\ raw_answer none_with_point_response "2.1." = Some "None."
  /\ count_fields
       (fun entry =>
          bool_decide (raw_answer none_with_point_response (snd entry) = Some "None"))
     = 0%Z
  /\ snd (AIAuditor.parse_audit_response none_with_point_response) = 1%Z.
Proof.
  split; [exact none_with_point_not_gated|].
  split; [reflexivity|]. split; vm_compute; reflexivity.
Qed.

Lemma is_script_gate_shape lines r :
  is_script_gate lines = Some r ->
  exists explanation,
    r = (<["is_script_explanation" := VStr explanation]>
           (<["is_script" := VStr "no"]> ∅), 0%Z).
Proof.
  unfold is_script_gate.
  destruct (line_starting "0." lines) as [line|]; [|discriminate].
  destruct (Py.truthy line); [|discriminate].
  destruct (after_colon line) as [answer|]; [|discriminate].
  destruct (String.eqb (Py.lower (Py.strip answer)) "no"); [|discriminate].
  intros [= <-]. eexists. reflexivity.
Qed.

(** [ai_auditor_num.py] never counts. *)
Lemma numeric_none_count response_text :
  snd (AIAuditorNum.parse_audit_response response_text) = 0%Z.
Proof.
  unfold AIAuditorNum.parse_audit_response.
  destruct (is_script_gate (Py.split newline response_text)) as [r|] eqn:E;
    [|reflexivity].
  destruct (is_script_gate_shape _ _ E) as [e ->]. reflexivity.
Qed.

(** *** Keys of the parsed mapping *)

Lemma is_script_in_schema : "is_script" ∈ schema_keys.
Proof.
  unfold schema_keys. apply elem_of_list_to_set.
  apply (bool_decide_unpack _). vm_compute. reflexivity.
Qed.

Lemma is_script_explanation_in_schema : "is_script_explanation" ∈ schema_keys.
Proof.
  unfold schema_keys. apply elem_of_list_to_set.
  apply (bool_decide_unpack _). vm_compute. reflexivity.
Qed.

Lemma is_script_gate_dom lines r :
  is_script_gate lines = Some r -> dom (fst r) ⊆ schema_keys.
Proof.
  intros E. destruct (is_script_gate_shape _ _ E) as [e ->].
  simpl fst. rewrite !dom_insert_L, dom_empty_L.
  intros key Hkey.
  apply elem_of_union in Hkey as [Hkey|Hkey];
    [apply elem_of_singleton in Hkey as ->;
     exact is_script_explanation_in_schema|].
  apply elem_of_union in Hkey as [Hkey|Hkey];
    [apply elem_of_singleton in Hkey as ->; exact is_script_in_schema|].
  apply elem_of_empty in Hkey. contradiction.
Qed.

Lemma dom_fold_insert (f : string * string -> value) entries (d : gmap string value) :
  dom (fold_left (fun d entry => <[fst entry := f entry]> d) entries d)
  = dom d ∪ list_to_set (map fst entries).
Proof.
  revert d. induction entries as [|e entries IH]; intros d; cbn [fold_left].
  - simpl. set_solver.
  - rewrite IH, dom_insert_L. simpl. set_solver.
Qed.

Lemma numeric_step_dom lines (d : gmap string value) entry :
  dom (AIAuditorNum.schema_step lines d entry) ⊆ dom d ∪ {[fst entry]}.
Proof.
  destruct entry as [key label]. unfold AIAuditorNum.schema_step. simpl fst.
  repeat match goal with
         | |- context [match ?x with _ => _ end] => destruct x
         end; rewrite ?dom_insert_L; set_solver.
Qed.

Lemma numeric_loop_dom lines entries (d : gmap string value) :
  dom (fold_left (AIAuditorNum.schema_step lines) entries d)
  ⊆ dom d ∪ list_to_set (map fst entries).
Proof.
  revert d. induction entries as [|e entries IH]; intros d; cbn [fold_left].
  - set_solver.
  - pose proof (IH (AIAuditorNum.schema_step lines d e)).
    pose proof (numeric_step_dom lines d e). simpl. set_solver.
Qed.

Lemma line_count_step_dom lines phrase key (d : gmap string value) :
  dom (AIAuditorNum.line_count_step lines phrase key d) ⊆ dom d ∪ {[key]}.
Proof.
  unfold AIAuditorNum.line_count_step.
  repeat match goal with
         | |- context [match ?x with _ => _ end] => destruct x
         end; rewrite ?dom_insert_L; set_solver.
Qed.

Lemma textual_keys response_text :
  dom (fst (AIAuditor.parse_audit_response response_text)) ⊆ schema_keys.
Proof.
  unfold AIAuditor.parse_audit_response.
  destruct (is_script_gate (Py.split newline response_text)) as [r|] eqn:E.
  - exact (is_script_gate_dom _ _ E).
  - rewrite (textual_loop response_text schema_mapping ∅ 0).
    + cbn [fst]. rewrite dom_fold_insert, dom_empty_L.
      fold schema_keys. generalize schema_keys. intros keys. set_solver.
    + exact schema_entries_ok.
    + exact schema_keys_NoDup.
    + intros [v Hv]. rewrite lookup_empty in Hv. discriminate.
Qed.

(** Outside the gate, [ai_auditor.py] stores a value for every key of the
    schema: [None] is the default of an answer that was not found. *)
Lemma textual_keys_complete response_text :
  ~ gated response_text ->
  dom (fst (AIAuditor.parse_audit_response response_text)) = schema_keys.
Proof.
  intros Hng. rewrite (textual_parse_not_gated _ Hng). cbn [fst].
  rewrite dom_fold_insert, dom_empty_L.
  fold schema_keys. generalize schema_keys. intros keys. set_solver.
Qed.

Lemma numeric_keys response_text :
  dom (fst (AIAuditorNum.parse_audit_response response_text))
  ⊆ schema_keys ∪ {["lines_of_code"; "lines_of_doc"]}.
Proof.
  unfold AIAuditorNum.parse_audit_response.
  destruct (is_script_gate (Py.split newline response_text)) as [r|] eqn:E.
  - pose proof (is_script_gate_dom _ _ E) as H.
    revert H. generalize schema_keys, (dom (fst r)). intros keys found. set_solver.
  - cbn [fst].
    set (lines := Py.split newline response_text).
    pose proof (numeric_loop_dom lines schema_mapping ∅) as H1.
    rewrite dom_empty_L in H1. fold schema_keys in H1.
    revert H1.
    generalize (fold_left (AIAuditorNum.schema_step lines) schema_mapping ∅).
    intros d1 H1.
    pose proof (line_count_step_dom lines "lines of code" "lines_of_code" d1) as H2.
    revert H2.
    generalize (AIAuditorNum.line_count_step lines "lines of code" "lines_of_code" d1).
    intros d2 H2.
    pose proof (line_count_step_dom lines "lines of documentation" "lines_of_doc" d2) as H3.
    revert H1 H2 H3.
    generalize schema_keys, (dom d1), (dom d2),
      (dom (AIAuditorNum.line_count_step lines "lines of documentation" "lines_of_doc" d2)).
    intros keys k1 k2 k3. set_solver.
Qed.

(** The claim of C6 as it was written fails: [ai_auditor_num.py] stores the
    line count of the response under a key that the schema does not
    have. *)
Lemma numeric_mapping_has_a_key_outside_schema :
  fst (AIAuditorNum.parse_audit_response line_count_response) !! "lines_of_code"
  = Some (VFloat (Fin 12))
  /\ "lines_of_code" ∈ dom (fst (AIAuditorNum.parse_audit_response line_count_response))
  /\ "lines_of_code" ∉ schema_keys.
Proof.
  assert (H : fst (AIAuditorNum.parse_audit_response line_count_response)
              !! "lines_of_code" = Some (VFloat (Fin 12)))
    by (vm_compute; reflexivity).
  split; [exact H|]. split.
  - apply elem_of_dom. rewrite H. eauto.
  - unfold schema_keys. rewrite elem_of_list_to_set.
    apply (bool_decide_unpack _). vm_compute. reflexivity.
Qed.

End AuditorFacts.

(** ** Properties of [calculate_deviations] over the rationals *)

Module AuditScoringFacts.
Import Spec AuditScoring ScoreMappings AIAuditorNumFacts.

Local Open Scope Q_scope.

(** *** Grouping the rows by file name *)

Lemma group_by_filename_snoc results row :
  group_by_filename (results ++ [row])
  = group_append (group_by_filename results) row.
Proof. unfold group_by_filename. rewrite fold_left_app. reflexivity. Qed.

Lemma group_append_get groups row name :
  table_get name (group_append groups row)
  = if String.eqb (filename row) name
    then Some (default [] (table_get name groups) ++ [row])%list
    else table_get name groups.
Proof.
  induction groups as [|[f rs] groups IH]; simpl.
  - destruct (String.eqb (filename row) name); reflexivity.
  - destruct (String.eqb_spec f (filename row)) as [->|Hf]; simpl.
    + destruct (String.eqb (filename row) name); reflexivity.
    + rewrite IH.
      destruct (String.eqb_spec f name) as [->|Hn]; [|reflexivity].
      destruct (String.eqb_spec (filename row) name); [congruence|reflexivity].
Qed.

Lemma group_append_keys groups row :
  map fst (group_append groups row)
  = if bool_decide (filename row ∈ map fst groups)
    then map fst groups
    else (map fst groups ++ [filename row])%list.
Proof.
  induction groups as [|[f rs] groups IH]; simpl.
  - reflexivity.
  - destruct (String.eqb_spec f (filename row)) as [->|Hf]; simpl.
    + rewrite bool_decide_eq_true_2 by (left; reflexivity). reflexivity.
    + rewrite IH.
      destruct (bool_decide (filename row ∈ map fst groups)) eqn:E.
      * rewrite bool_decide_eq_true_2; [reflexivity|].
        right. apply bool_decide_eq_true in E. exact E.
      * rewrite bool_decide_eq_false_2; [reflexivity|].
        apply bool_decide_eq_false in E.
        intros H. apply elem_of_cons in H as [H|H]; [congruence|contradiction].
Qed.

Lemma rows_of_snoc name results row :
  rows_of name (results ++ [row])
  = (rows_of name results
     ++ if String.eqb (filename row) name then [row] else [])%list.
Proof. unfold rows_of. rewrite List.filter_app. reflexivity. Qed.

Lemma table_get_None {A} key (d : list (string * A)) :
  table_get key d = None <-> ~ In key (map fst d).
Proof.
  induction d as [|[k v] d IH]; simpl; [tauto|].
  destruct (String.eqb_spec k key) as [->|Hk].
  - split; [discriminate|]. intros H. exfalso. apply H. left. reflexivity.
  - rewrite IH. split; [intros H [E|E]; [congruence|contradiction] | tauto].
Qed.

Lemma table_get_of_In {A} key (v : A) (d : list (string * A)) :
  List.NoDup (map fst d) -> In (key, v) d -> table_get key d = Some v.
Proof.
  induction d as [|[k w] d IH]; simpl; [contradiction|].
  intros Hnd [E|Hin].
  - injection E as -> ->. rewrite String.eqb_refl. reflexivity.
  - inversion Hnd as [|? ? Hk Hnd']; subst.
    destruct (String.eqb_spec k key) as [->|Hne].
    + exfalso. apply Hk. apply (in_map fst) in Hin. exact Hin.
    + auto.
Qed.

(** The groups of [group_by_filename]: one for each file name that occurs,
    holding the rows of that file. *)
Lemma group_by_filename_spec results :
  List.NoDup (map fst (group_by_filename results))
  /\ forall name,
       table_get name (group_by_filename results)
       = match rows_of name results with
         | [] => None
         | rows => Some rows
         end.
Proof.
  induction results as [|row results [IHnd IH]] using rev_ind.
  - split; [constructor|]. reflexivity.
  - rewrite group_by_filename_snoc. split.
    + rewrite group_append_keys.
      destruct (bool_decide (filename row ∈ map fst (group_by_filename results)))
        eqn:E; [exact IHnd|].
      apply bool_decide_eq_false in E. rewrite list_elem_of_In in E.
      apply NoDup_ListNoDup, NoDup_app. split; [apply NoDup_ListNoDup, IHnd|].
      split; [|apply NoDup_singleton].
      intros x Hx Hx'. apply list_elem_of_singleton in Hx'. subst x.
      apply E, list_elem_of_In, Hx.
    + intros name. rewrite group_append_get, rows_of_snoc, IH.
      destruct (String.eqb (filename row) name).
      * destruct (rows_of name results); reflexivity.
      * rewrite app_nil_r. reflexivity.
Qed.

Lemma group_rows results name rows :
  In (name, rows) (group_by_filename results) ->
  rows = rows_of name results /\ rows <> [].
Proof.
  intros Hin. destruct (group_by_filename_spec results) as [Hnd Hget].
  pose proof (table_get_of_In _ _ _ Hnd Hin) as H.
  rewrite Hget in H. destruct (rows_of name results); [discriminate|].
  injection H as <-. split; [reflexivity|discriminate].
Qed.


(** *** The loops on complete rows *)

Lemma field_values_complete field rows :
  (forall row, In row rows -> is_Some (scores row !! field)) ->
  field_values field rows = Some (values_of field rows).
Proof.
  unfold field_values, values_of.
  induction rows as [|row rows IH]; intros H; [reflexivity|].
  destruct (H row (or_introl eq_refl)) as [v Hv].
  cbn. rewrite Hv. cbn.
  rewrite IH by (intros r Hr; apply H; right; exact Hr).
  reflexivity.
Qed.

Lemma values_of_nonempty field rows : rows <> [] -> values_of field rows <> [].
Proof. destruct rows; [congruence|discriminate]. Qed.













Lemma complete_check_sound results :
  complete_check results = true -> complete results.
Proof.
  unfold complete_check, complete. rewrite forallb_forall.
  intros H row field Hrow Hfield.
  specialize (H _ Hrow). rewrite forallb_forall in H.
  exact (bool_decide_eq_true_1 _ (H _ Hfield)).
Qed.


(** *** Sums, rounding and means *)





Lemma fold_left_Zplus l a : fold_left Z.add l a = (a + foldr Z.add 0 l)%Z.
Proof.
  revert a. induction l as [|x l IH]; intros a; simpl.
  - lia.
  - rewrite IH. lia.
Qed.

Lemma sum_int_foldr l : PyNum.sum_int l = foldr Z.add 0%Z l.
Proof. unfold PyNum.sum_int. rewrite fold_left_Zplus. lia. Qed.












(** *** The statistics of one file *)

Section OneFile.
Variable rows : list Row.
Hypothesis rows_nonempty : rows <> [].

Let dev (field : string) : Q := deviation_value_of (values_of field rows).








End OneFile.

(** *** The report *)

Lemma fold_insert_lookup_other {A} (f : list Row -> A) groups
    (m : gmap string A) name :
  ~ In name (map fst groups) ->
  fold_left (fun m entry => <[fst entry := f (snd entry)]> m) groups m !! name
  = m !! name.
Proof.
  revert m. induction groups as [|[n rows] groups IH]; intros m Hout; [reflexivity|].
  cbn [fold_left fst snd]. rewrite IH.
  - apply lookup_insert_ne. intros ->. apply Hout. left. reflexivity.
  - intros H. apply Hout. right. exact H.
Qed.

Lemma fold_insert_lookup {A} (f : list Row -> A) groups (m : gmap string A)
    name rows :
  List.NoDup (map fst groups) ->
  In (name, rows) groups ->
  fold_left (fun m entry => <[fst entry := f (snd entry)]> m) groups m !! name
  = Some (f rows).
Proof.
  revert m. induction groups as [|[n rs] groups IH]; intros m Hnd Hin; [contradiction|].
  cbn [map fst] in Hnd. inversion Hnd as [|? ? Hn Hnd']; subst.
  cbn [fold_left fst snd]. destruct Hin as [E|Hin].
  - injection E as -> ->.
    rewrite fold_insert_lookup_other by exact Hn. apply lookup_insert_eq.
  - apply IH; assumption.
Qed.



Lemma fold_max vs a :
  let r := fold_left Z.max vs a in
  (r = a \/ In r vs) /\ (a <= r)%Z /\ forall y, In y vs -> (y <= r)%Z.
Proof.
  revert a. induction vs as [|v vs IH]; intros a; cbn zeta; cbn [fold_left].
  - split; [left; reflexivity|]. split; [lia|]. intros y [].
  - destruct (IH (Z.max a v)) as (Hin & Hle & Hall). cbn zeta in *.
    split; [|split].
    + destruct Hin as [E|Hin]; [|right; right; exact Hin].
      rewrite E.
      destruct (Z.max_spec a v) as [[_ ->]|[_ ->]];
        [right; left; reflexivity | left; reflexivity].
    + lia.
    + intros y [<-|Hy]; [lia | apply Hall, Hy].
Qed.



Lemma three_cycles_complete : complete three_cycles.
Proof. apply complete_check_sound. vm_compute. reflexivity. Qed.

Lemma three_cycles_file : exists row, In row three_cycles /\ filename row = "x.py".
Proof. exists (uniform_row "x.py" 50). split; [left; reflexivity | reflexivity]. Qed.

(** *** Groups *)


End AuditScoringFacts.

(** ** The score tables: one phrase per answer *)

Module ScoreTableFacts.
Import ScoreMappings Spec Props ScoreMappingsFacts.

Lemma lower_app a b : Py.lower (a ++ b) = (Py.lower a ++ Py.lower b)%string.
Proof.
  induction a as [|c a IH]; [reflexivity|].
  change (String (Py.lower_char c) (Py.lower (a ++ b))
          = String (Py.lower_char c) (Py.lower a ++ Py.lower b)).
  now rewrite IH.
Qed.

Lemma prefix_app p s t : String.prefix p s = true -> String.prefix p (s ++ t) = true.
Proof.
  revert s; induction p as [|c p IH]; intros s H; [now destruct (s ++ t)%string|].
  destruct s as [|d s]; [discriminate|].
  change (String.prefix (String c p) (String d (s ++ t)) = true).
  simpl in *. destruct (Ascii.ascii_dec c d); [auto|discriminate].
Qed.

Lemma prefix_both a b : String.prefix a b = true -> String.prefix b a = true -> a = b.
Proof.
  revert b; induction a as [|c a IH]; intros [|d b] H1 H2; try discriminate;
    [reflexivity|].
  simpl in *. destruct (Ascii.ascii_dec c d) as [->|]; [|discriminate].
  destruct (Ascii.ascii_dec d d); [|discriminate].
  f_equal; auto.
Qed.

Lemma SCORE_MAPPINGS_prefix_free :
  forallb (fun entry => prefix_free (snd entry)) SCORE_MAPPINGS = true.
Proof. vm_compute. reflexivity. Qed.

Lemma prefix_free_eq mapping e1 e2 :
  prefix_free mapping = true -> In e1 mapping -> In e2 mapping ->
  String.prefix (fst e1) (fst e2) = true -> fst e1 = fst e2.
Proof.
  unfold prefix_free. rewrite forallb_forall. intros H H1 H2 Hp.
  specialize (H e1 H1). rewrite forallb_forall in H. specialize (H e2 H2).
  rewrite Hp in H. simpl in H. now apply String.eqb_eq.
Qed.

Lemma table_of attribute mapping :
  table_get attribute SCORE_MAPPINGS = Some mapping ->
  prefix_free mapping = true /\ List.NoDup (map fst mapping).
Proof.
  intros H. apply table_get_In in H. split.
  - pose proof SCORE_MAPPINGS_prefix_free as P. rewrite forallb_forall in P.
    exact (P _ H).
  - destruct SCORE_MAPPINGS_keys_distinct as [_ D].
    rewrite Forall_forall in D. apply NoDup_ListNoDup.
    apply (D (attribute, mapping)). now apply list_elem_of_In.
Qed.

Lemma NoDup_fst_eq {A} (l : list (string * A)) k v w :
  List.NoDup (map fst l) -> In (k, v) l -> In (k, w) l -> v = w.
Proof.
  induction l as [|[k0 v0] l IH]; simpl; [tauto|].
  intros D [E1|I1] [E2|I2]; inversion D as [|? ? N D']; subst.
  - congruence.
  - inversion E1; subst. exfalso. apply N.
    apply in_map_iff. now exists (k, w).
  - inversion E2; subst. exfalso. apply N.
    apply in_map_iff. now exists (k, v).
  - auto.
Qed.

Lemma get_score_loop_unique mapping value phrase score :
  prefix_free mapping = true ->
  List.NoDup (map fst mapping) ->
  In (phrase, score) mapping ->
  Py.startswith value phrase = true ->
  get_score_loop mapping value = score.
Proof.
  intros P D I S.
  pose proof (get_score_loop_spec mapping value) as Sp.
  remember (get_score_loop mapping value) as r eqn:R. clear R.
  destruct Sp as [[key F]|[N _]].
  - destruct F as (before & after & E & _ & K).
    assert (I' : In (key, r) mapping).
    { rewrite E. apply in_or_app. right. now left. }
    assert (key = phrase) as ->.
    { destruct (AuditorFacts.prefix_common key phrase value K S) as [Q|Q].
      - exact (prefix_free_eq mapping (key, _) (phrase, score) P I' I Q).
      - symmetry. exact (prefix_free_eq mapping (phrase, score) (key, _) P I I' Q). }
    exact (NoDup_fst_eq mapping phrase _ _ D I' I).
  - unfold no_match in N. rewrite Forall_forall in N.
    assert (In (phrase, score) mapping) as I' by exact I.
    apply list_elem_of_In in I'. specialize (N _ I'). simpl in N. congruence.
Qed.

Lemma matching_phrase_unique mapping value phrase score phrase' score' :
  prefix_free mapping = true ->
  List.NoDup (map fst mapping) ->
  In (phrase, score) mapping ->
  Py.startswith value phrase = true ->
  In (phrase', score') mapping ->
  Py.startswith value phrase' = true ->
  phrase' = phrase /\ score' = score.
Proof.
  intros P D I S I' S'.
  assert (phrase' = phrase) as ->.
  { destruct (AuditorFacts.prefix_common phrase' phrase _ S' S) as [Q|Q].
    - exact (prefix_free_eq mapping (phrase', score') (phrase, score) P I' I Q).
    - symmetry. exact (prefix_free_eq mapping (phrase, score) (phrase', score') P I I' Q). }
  split; [reflexivity|]. exact (NoDup_fst_eq mapping phrase _ _ D I' I).
Qed.

Lemma get_score_unique attribute mapping phrase score value :
  table_get attribute SCORE_MAPPINGS = Some mapping ->
  In (phrase, score) mapping ->
  Py.startswith (Py.lower value) phrase = true ->
  get_score attribute value = score.
Proof.
  intros T I S. destruct (table_of _ _ T) as [P D].
  unfold get_score. rewrite T. now apply get_score_loop_unique with phrase.
Qed.

Lemma lower_char_idem c : Py.lower_char (Py.lower_char c) = Py.lower_char c.
Proof. destruct c as [[] [] [] [] [] [] [] []]; reflexivity. Qed.

Lemma lower_idem s : Py.lower (Py.lower s) = Py.lower s.
Proof.
  induction s as [|c s IH]; [reflexivity|].
  simpl. now rewrite lower_char_idem, IH.
Qed.

(** X1.  A table of scores has no phrase that begins with another phrase
    of the table.  Hence at most one phrase of the table of an attribute
    begins an answer, and [get_score] returns the score of that phrase,
    wherever it stands in the table. *)
Theorem get_score_of_matching_phrase attribute mapping phrase score value :
  table_get attribute SCORE_MAPPINGS = Some mapping ->
  In (phrase, score) mapping ->
  Py.startswith (Py.lower value) phrase = true ->
  get_score attribute value = score
  /\ forall phrase' score',
       In (phrase', score') mapping ->
       Py.startswith (Py.lower value) phrase' = true ->
       phrase' = phrase /\ score' = score.
Proof.
  intros T I S. split.
  - now apply get_score_unique with mapping phrase.
  - destruct (table_of _ _ T) as [P D]. intros phrase' score' I' S'.
    now apply (matching_phrase_unique mapping (Py.lower value)).
Qed.

Lemma get_score_of_matching_phrase_witness :
  get_score "technical_debt" "Moderate (legacy modules)" = 33
  /\ forall phrase' score',
       In (phrase', score') [("none", 100); ("low", 66); ("moderate", 33); ("high", 0)] ->
       Py.startswith (Py.lower "Moderate (legacy modules)") phrase' = true ->
       phrase' = "moderate" /\ score' = 33.
Proof.
  apply (get_score_of_matching_phrase "technical_debt"
           [("none", 100); ("low", 66); ("moderate", 33); ("high", 0)]
           "moderate" 33 "Moderate (legacy modules)").
  - reflexivity.
  - simpl. tauto.
  - reflexivity.
Defined.

(** X2.  Text that follows a recognised answer does not change its score,
    and neither does the case of its letters: when a phrase of the table
    begins the answer in lower case, the answer followed by any text has
    the score of the answer, and so has the answer in lower case. *)
Theorem get_score_ignores_what_follows attribute mapping phrase score value rest :
  table_get attribute SCORE_MAPPINGS = Some mapping ->
  In (phrase, score) mapping ->
  Py.startswith (Py.lower value) phrase = true ->
  get_score attribute (value ++ rest) = get_score attribute value
  /\ get_score attribute (Py.lower value) = get_score attribute value.
Proof.
  intros T I S.
  rewrite (get_score_unique attribute mapping phrase score value T I S).
  split; apply get_score_unique with mapping phrase; try assumption.
  - rewrite lower_app. now apply prefix_app.
  - now rewrite lower_idem.
Qed.

Lemma get_score_ignores_what_follows_witness :
  get_score "efficiency" ("Average" ++ ", mostly") = get_score "efficiency" "Average"
  /\ get_score "efficiency" (Py.lower "Average") = get_score "efficiency" "Average".
Proof.
  apply (get_score_ignores_what_follows "efficiency"
           [("high", 100); ("average", 50); ("poor", 0)] "average" 50).
  - reflexivity.
  - simpl. tauto.
  - reflexivity.
Defined.

End ScoreTableFacts.

(** ** More on [calculate_deviations] over the rationals: rows and bounds *)

Module ReportFacts.
Import Spec Props AuditScoring ScoreMappings AIAuditorNumFacts AuditScoringFacts.

Local Open Scope Q_scope.

(** *** When there is a report *)

Lemma for_each_Some_inv {S A} (body : S -> A -> option S) l s s' x :
  for_each body l s = Some s' -> In x l -> exists s1 s2, body s1 x = Some s2.
Proof.
  revert s. induction l as [|y l IH]; intros s H Hin; [contradiction|].
  cbn [for_each] in H. destruct (body s y) as [s1|] eqn:E; [|discriminate].
  destruct Hin as [->|Hin]; [now exists s, s1 | exact (IH s1 H Hin)].
Qed.

Lemma field_values_Some field rows values row :
  field_values field rows = Some values -> In row rows ->
  is_Some (scores row !! field).
Proof.
  unfold field_values. intros H. apply mapM_Some in H.
  induction H as [|r v rows values Hr _ IH]; intros Hin; [contradiction|].
  destruct Hin as [->|Hin]; [exists v; exact Hr | exact (IH Hin)].
Qed.

Lemma row_in_group results row :
  In row results ->
  In (filename row, rows_of (filename row) results) (group_by_filename results)
  /\ In row (rows_of (filename row) results).
Proof.
  intros Hin.
  assert (Hrow : In row (rows_of (filename row) results)).
  { apply List.filter_In. split; [exact Hin|]. apply String.eqb_refl. }
  split; [|exact Hrow].
  destruct (group_by_filename_spec results) as [_ Hget].
  specialize (Hget (filename row)).
  destruct (rows_of (filename row) results) as [|r rs]; [contradiction|].
  exact (ScoreMappingsFacts.table_get_In _ _ _ Hget).
Qed.






(** *** The declared metrics *)

Lemma numeric_fields_NoDup : List.NoDup numeric_fields.
Proof. apply NoDup_ListNoDup, (bool_decide_unpack _). vm_compute. reflexivity. Qed.

(** *** Bounds *)

Lemma round_half_even_mono x y :
  x <= y -> (PyNum.round_half_even x <= PyNum.round_half_even y)%Z.
Proof.
  intros Hxy. unfold PyNum.round_half_even.
  pose proof (Qfloor_resp_le _ _ Hxy) as Hf.
  set (fx := Qfloor x) in *. set (fy := Qfloor y) in *.
  assert (Hx : (fx <= match Qcompare (x - inject_Z fx) (1 # 2) with
                      | Eq => if Z.even fx then fx else fx + 1
                      | Lt => fx
                      | Gt => fx + 1
                      end <= fx + 1)%Z).
  { destruct (Qcompare (x - inject_Z fx) (1 # 2)); [destruct (Z.even fx)| |]; lia. }
  assert (Hy : (fy <= match Qcompare (y - inject_Z fy) (1 # 2) with
                      | Eq => if Z.even fy then fy else fy + 1
                      | Lt => fy
                      | Gt => fy + 1
                      end <= fy + 1)%Z).
  { destruct (Qcompare (y - inject_Z fy) (1 # 2)); [destruct (Z.even fy)| |]; lia. }
  destruct (Z.eq_dec fx fy) as [E|Hne]; [|lia].
  clear Hx Hy. rewrite <- E.
  assert (Hfrac : x - inject_Z fx <= y - inject_Z fx).
  { apply Qplus_le_compat; [exact Hxy | apply Qle_refl]. }
  destruct (Qcompare_spec (x - inject_Z fx) (1 # 2)) as [Ex|Ex|Ex];
    destruct (Qcompare_spec (y - inject_Z fx) (1 # 2)) as [Ey|Ey|Ey];
    try (destruct (Z.even fx)); try lia; exfalso; lra.
Qed.

Lemma round2_mono x y : x <= y -> PyNum.round2 x <= PyNum.round2 y.
Proof.
  intros H. unfold PyNum.round2.
  assert (H100 : x * 100 <= y * 100) by (apply Qmult_le_compat_r; [exact H|discriminate]).
  apply round_half_even_mono in H100. rewrite Zle_Qle in H100.
  unfold Qdiv. apply Qmult_le_compat_r; [exact H100|discriminate].
Qed.



Lemma round2_nonneg x : 0 <= x -> 0 <= PyNum.round2 x.
Proof.
  intros H. apply (round2_mono 0 x) in H.
  apply (Qle_trans _ (PyNum.round2 0)); [discriminate | exact H].
Qed.










(** *** No deviation *)




End ReportFacts.

(** ** From the response to the row of the table *)

Module ResponseFacts.
Import PyFloat Spec Props Auditor AuditorResponse RunTest AuditScoring.
Import PyFloatFacts AuditorFacts AIAuditorNumFacts.

(** *** [_parse_audit_response] *)

Lemma prefix_cons c p d s :
  String.prefix (String c p) (String d s)
  = if Ascii.ascii_dec c d then String.prefix p s else false.
Proof. reflexivity. Qed.

Lemma prefix_empty s : String.prefix EmptyString s = true.
Proof. now destruct s. Qed.

Lemma split1_colon line :
  if Py.contains ":" line
  then exists head tail, Py.split1 ":" line = [head; tail]
  else Py.split1 ":" line = [line].
Proof.
  induction line as [|c line IH]; [reflexivity|].
  cbn [Py.contains Py.split1].
  destruct (Ascii.eqb_spec ":" c) as [<-|Hne].
  - replace (String.prefix ":" (String ":" line)) with true.
    + cbn [orb]. now exists EmptyString, line.
    + rewrite prefix_cons, prefix_empty.
      destruct (Ascii.ascii_dec ":" ":"); [reflexivity|congruence].
  - replace (String.prefix ":" (String c line)) with false.
    + cbn [orb]. destruct (Py.contains ":" line).
      * destruct IH as (head & tail & ->). now exists (String c head), tail.
      * rewrite IH. reflexivity.
    + rewrite prefix_cons. destruct (Ascii.ascii_dec ":" c); [congruence|reflexivity].
Qed.

Lemma line_step_total score m line :
  line_step score m line = Some (line_update score m line).
Proof.
  unfold line_step, line_update, read_line.
  destruct (Py.strip line) as [|c s] eqn:E; [reflexivity|].
  cbn [Py.truthy negb orb].
  pose proof (split1_colon (String c s)) as H.
  destruct (Py.contains ":" (String c s)).
  - destruct H as (head & tail & ->). cbn [negb].
    destruct (section_of (Py.strip head)) as [[l f]|]; reflexivity.
  - rewrite H. reflexivity.
Qed.

Lemma for_each_total {S A} (body : S -> A -> option S) (f : S -> A -> S) l s :
  (forall s x, body s x = Some (f s x)) ->
  for_each body l s = Some (fold_left f l s).
Proof.
  intros H. revert s. induction l as [|x l IH]; intros s; [reflexivity|].
  cbn [for_each fold_left]. rewrite H. apply IH.
Qed.

Lemma parse_lines_fold score response :
  parse_lines score response
  = fold_left (line_update score) (Py.split newline (Py.strip response)) ∅.
Proof.
  unfold parse_lines. cbn zeta.
  now rewrite (for_each_total _ (line_update score) _ _ (line_step_total score)).
Qed.

Lemma sections_checked : sections_distinct = true.
Proof. vm_compute. reflexivity. Qed.

Lemma sections_fields : map snd sections = "domain" :: numeric_fields.
Proof. reflexivity. Qed.

Lemma sections_cases e1 e2 :
  In e1 sections -> In e2 sections ->
  (String.prefix (fst e1) (fst e2) = true -> fst e1 = fst e2)
  /\ (snd e1 = snd e2 -> fst e1 = fst e2).
Proof.
  intros H1 H2. pose proof sections_checked as C. unfold sections_distinct in C.
  rewrite forallb_forall in C. specialize (C e1 H1).
  rewrite forallb_forall in C. specialize (C e2 H2).
  apply andb_true_iff in C as [C1 C2]. split.
  - intros P. rewrite P in C1. now apply String.eqb_eq.
  - intros E. apply String.eqb_eq in E. rewrite E in C2. now apply String.eqb_eq.
Qed.

Lemma sections_label_field label field field' :
  In (label, field) sections -> In (label, field') sections -> field = field'.
Proof.
  assert (N : List.NoDup (map fst sections))
    by (apply NoDup_ListNoDup, (bool_decide_unpack _); vm_compute; reflexivity).
  revert N. generalize sections. intros l N.
  exact (ScoreTableFacts.NoDup_fst_eq l label field field' N).
Qed.

Lemma section_of_spec key label field :
  In (label, field) sections ->
  (section_of key = Some (label, field) <-> Py.startswith key label = true).
Proof.
  intros Hin. unfold section_of. split.
  - intros H. apply find_some in H as [_ H]. exact H.
  - intros H.
    destruct (List.find (fun section => Py.startswith key (fst section)) sections)
      as [[l f]|] eqn:E.
    + apply find_some in E as [Hin' H']. cbn [fst] in H'.
      assert (l = label) as ->.
      { destruct (prefix_common l label key H' H) as [P|P].
        - exact (proj1 (sections_cases (l, f) (label, field) Hin' Hin) P).
        - symmetry. exact (proj1 (sections_cases (label, field) (l, f) Hin Hin') P). }
      now rewrite (sections_label_field label f field Hin' Hin).
    + pose proof (find_none _ _ E _ Hin) as H'. cbn [fst] in H'. congruence.
Qed.

Lemma line_update_lookup score m line label field :
  In (label, field) sections ->
  line_update score m line !! field
  = match answer_for label line with
    | Some answer =>
        Some (if String.eqb field "domain" then VStr answer else score field answer)
    | None => m !! field
    end.
Proof.
  intros Hin. unfold line_update, answer_for.
  destruct (read_line line) as [[key answer]|]; [|reflexivity].
  destruct (Py.startswith key label) eqn:S.
  - rewrite (proj2 (section_of_spec key label field Hin) S).
    apply lookup_insert_eq.
  - destruct (section_of key) as [[l f]|] eqn:E; [|reflexivity].
    apply lookup_insert_ne. intros ->.
    pose proof E as E'. unfold section_of in E'.
    apply find_some in E' as [Hin' H']. cbn [fst] in H'.
    assert (l = label).
    { exact (proj2 (sections_cases (l, field) (label, field) Hin' Hin) eq_refl). }
    congruence.
Qed.

Lemma line_update_other score m line field :
  ~ In field (map snd sections) -> line_update score m line !! field = m !! field.
Proof.
  intros Hout. unfold line_update.
  destruct (read_line line) as [[key answer]|]; [|reflexivity].
  destruct (section_of key) as [[l f]|] eqn:E; [|reflexivity].
  apply lookup_insert_ne. intros ->. apply Hout.
  unfold section_of in E. apply find_some in E as [Hin _].
  apply in_map_iff. now exists (l, field).
Qed.

Lemma fold_line_update score lines m label field :
  In (label, field) sections ->
  fold_left (line_update score) lines m !! field
  = match last (omap (answer_for label) lines) with
    | Some answer =>
        Some (if String.eqb field "domain" then VStr answer else score field answer)
    | None => m !! field
    end.
Proof.
  intros Hin. revert m. induction lines as [|line lines IH]; intros m; [reflexivity|].
  cbn [fold_left]. rewrite IH, (line_update_lookup score m line label field Hin).
  change (omap (answer_for label) (line :: lines))
    with (match answer_for label line with
          | Some answer => answer :: omap (answer_for label) lines
          | None => omap (answer_for label) lines
          end).
  destruct (answer_for label line) as [answer|]; [|reflexivity].
  rewrite last_cons.
  destruct (last (omap (answer_for label) lines)); reflexivity.
Qed.

Lemma fold_line_update_other score lines m field :
  ~ In field (map snd sections) ->
  fold_left (line_update score) lines m !! field = m !! field.
Proof.
  intros Hout. revert m. induction lines as [|line lines IH]; intros m; [reflexivity|].
  cbn [fold_left]. rewrite IH. now apply line_update_other.
Qed.

Lemma parse_lines_lookup score response label field :
  In (label, field) sections ->
  parse_lines score response !! field
  = option_map
      (fun answer =>
         if String.eqb field "domain" then VStr answer else score field answer)
      (last_answer label response).
Proof.
  intros Hin. rewrite parse_lines_fold, (fold_line_update _ _ _ label field Hin).
  unfold last_answer, answers.
  destruct (last (omap (answer_for label) (Py.split newline (Py.strip response))));
    [reflexivity|apply lookup_empty].
Qed.

Lemma parse_lines_keys score response field :
  is_Some (parse_lines score response !! field) -> In field (map snd sections).
Proof.
  intros H. destruct (in_dec String.string_dec field (map snd sections)) as [|Hout];
    [assumption|].
  rewrite parse_lines_fold, (fold_line_update_other _ _ _ _ Hout), lookup_empty in H.
  destruct H as [? H]. discriminate.
Qed.

(** X8.  Both [_parse_audit_response] functions keep, for each section,
    the answer of the last line whose key starts with the prefix of the
    section: the domain as text, a metric as its score.  A section without
    such a line has no entry. *)
Theorem private_parsers_keep_the_last_answer response label field :
  In (label, field) sections ->
  AIAuditorResponse._parse_audit_response response !! field
  = option_map
      (fun answer =>
         if String.eqb field "domain" then VStr answer
         else VFloat (Fin (inject_Z (ScoreMappings.get_score field answer))))
      (last_answer label response)
  /\ AIAuditorNumResponse._parse_audit_response response !! field
     = option_map
         (fun answer =>
            if String.eqb field "domain" then VStr answer
            else of_option (AIAuditorNum._parse_numerical_value answer))
         (last_answer label response).
Proof.
  intros Hin. split.
  - exact (parse_lines_lookup AIAuditorResponse.score response label field Hin).
  - exact (parse_lines_lookup AIAuditorNumResponse.score response label field Hin).
Qed.

Lemma private_parsers_keep_the_last_answer_witness :
  let response :=
    lines_text ["2.1. Readability: Low readability"; "  2.1. Readability : Highly readable "] in
  AIAuditorResponse._parse_audit_response response !! "readability"
  = option_map
      (fun answer =>
         if String.eqb "readability" "domain" then VStr answer
         else VFloat (Fin (inject_Z (ScoreMappings.get_score "readability" answer))))
      (last_answer "2.1." response)
  /\ AIAuditorNumResponse._parse_audit_response response !! "readability"
     = option_map
         (fun answer =>
            if String.eqb "readability" "domain" then VStr answer
            else of_option (AIAuditorNum._parse_numerical_value answer))
         (last_answer "2.1." response).
Proof.
  apply (private_parsers_keep_the_last_answer _ "2.1." "readability").
  right. left. reflexivity.
Defined.

Lemma numeric_fields_not_domain field : In field numeric_fields -> field <> "domain".
Proof.
  assert (H : forallb (fun f => negb (String.eqb f "domain")) numeric_fields = true)
    by (vm_compute; reflexivity).
  rewrite forallb_forall in H. intros Hin ->. specialize (H _ Hin). discriminate.
Qed.

Lemma field_section field :
  In field (map snd sections) ->
  exists label,
    In (label, field) sections
    /\ (field = "domain" \/ In field numeric_fields /\ String.eqb field "domain" = false).
Proof.
  intros Hin. pose proof Hin as Hin'. apply in_map_iff in Hin' as ([label f] & E & Hl).
  cbn [snd] in E. subst f. exists label. split; [exact Hl|].
  rewrite sections_fields in Hin. destruct Hin as [<-|Hin]; [now left|right].
  split; [exact Hin|]. apply String.eqb_neq. now apply numeric_fields_not_domain.
Qed.

Lemma parse_numerical_value_range answer x :
  AIAuditorNum._parse_numerical_value answer = Some x ->
  exists q, x = Fin q /\ (0 <= q <= 100)%Q.
Proof.
  rewrite parse_numerical_value_unfold.
  destruct (Py.keep numeric_char answer); [discriminate|].
  destruct (parse_decimal _) as [v|]; [|discriminate].
  intros H. injection H as <-.
  destruct (clamp_finite v) as (q & -> & E). exists q. split; [reflexivity|].
  rewrite E. apply clamp_range.
Qed.

(** X9.  What [_parse_audit_response] returns holds nothing but the domain,
    as text, and declared metrics.  In [ai_auditor.py] a metric is an
    integer from 0 to 100; in [ai_auditor_num.py] it is [None] or a number
    from 0 to 100. *)
Theorem private_parsers_entries response field v :
  (AIAuditorResponse._parse_audit_response response !! field = Some v ->
   (field = "domain" /\ exists s, v = VStr s)
   \/ (In field numeric_fields
       /\ exists n, v = VFloat (Fin (inject_Z n)) /\ (0 <= n <= 100)%Z))
  /\ (AIAuditorNumResponse._parse_audit_response response !! field = Some v ->
      (field = "domain" /\ exists s, v = VStr s)
      \/ (In field numeric_fields
          /\ (v = VNone \/ exists q, v = VFloat (Fin q) /\ (0 <= q <= 100)%Q))).
Proof.
  split; intros H.
  - destruct (field_section field) as (label & Hl & [->|[Hf Hd]]).
    { apply (parse_lines_keys AIAuditorResponse.score response). now exists v. }
    + left. split; [reflexivity|].
      unfold AIAuditorResponse._parse_audit_response in H.
      rewrite (parse_lines_lookup _ _ _ _ Hl) in H.
      destruct (last_answer label response) as [a|]; [|discriminate].
      injection H as <-. now exists a.
    + right. split; [exact Hf|].
      unfold AIAuditorResponse._parse_audit_response in H.
      rewrite (parse_lines_lookup _ _ _ _ Hl), Hd in H.
      destruct (last_answer label response) as [a|]; [|discriminate].
      injection H as <-. eexists. split; [reflexivity|].
      apply ScoreMappingsFacts.get_score_range.
  - destruct (field_section field) as (label & Hl & [->|[Hf Hd]]).
    { apply (parse_lines_keys AIAuditorNumResponse.score response). now exists v. }
    + left. split; [reflexivity|].
      unfold AIAuditorNumResponse._parse_audit_response in H.
      rewrite (parse_lines_lookup _ _ _ _ Hl) in H.
      destruct (last_answer label response) as [a|]; [|discriminate].
      injection H as <-. now exists a.
    + right. split; [exact Hf|].
      unfold AIAuditorNumResponse._parse_audit_response in H.
      rewrite (parse_lines_lookup _ _ _ _ Hl), Hd in H.
      destruct (last_answer label response) as [a|]; [|discriminate].
      injection H as <-. unfold AIAuditorNumResponse.score.
      destruct (AIAuditorNum._parse_numerical_value a) as [x|] eqn:E; [|now left].
      right. destruct (parse_numerical_value_range a x E) as (q & -> & Hq).
      now exists q.
Qed.

(** *** [process_file] *)

Lemma metadata_dec field : {metadata field} + {~ metadata field}.
Proof. unfold metadata. apply decide; apply _. Qed.

Lemma field_step_spec audit_results scores field :
  field_step audit_results scores field
  = if bool_decide (metadata field) then Some scores
    else option_map (fun n => <[field := n]> scores)
                    (column_score field (audit_results !! field)).
Proof.
  unfold field_step, metadata, column_score.
  destruct (bool_decide _); cbn [negb]; [reflexivity|].
  destruct (audit_results !! field) as [[| |]|]; reflexivity.
Qed.

Lemma field_loop_lookup audit_results fields scores scores' field :
  for_each (field_step audit_results) fields scores = Some scores' ->
  List.NoDup fields ->
  scores' !! field
  = if bool_decide (field ∈ fields) && negb (bool_decide (metadata field))
    then column_score field (audit_results !! field)
    else scores !! field.
Proof.
  revert scores. induction fields as [|f fields IH]; intros scores H Hnd.
  - injection H as <-. reflexivity.
  - cbn [for_each] in H.
    destruct (field_step audit_results scores f) as [scores1|] eqn:Hstep;
      [|discriminate].
    inversion Hnd as [|? ? Hout Hnd']; subst.
    rewrite (IH scores1 H Hnd'). rewrite field_step_spec in Hstep.
    destruct (decide (field = f)) as [->|Hne].
    + rewrite (bool_decide_eq_false_2 (f ∈ fields))
        by (rewrite list_elem_of_In; exact Hout).
      rewrite (bool_decide_eq_true_2 (f ∈ f :: fields)) by (now left).
      cbn [andb]. destruct (bool_decide (metadata f)); cbn [negb].
      * now injection Hstep as <-.
      * destruct (column_score f (audit_results !! f)) as [n|]; [|discriminate].
        injection Hstep as <-. apply lookup_insert_eq.
    + assert (Hs : scores1 !! field = scores !! field).
      { destruct (bool_decide (metadata f)); [now injection Hstep as <-|].
        destruct (column_score f (audit_results !! f)) as [n|]; [|discriminate].
        injection Hstep as <-. now apply lookup_insert_ne. }
      rewrite Hs.
      destruct (bool_decide (field ∈ fields)) eqn:E.
      * apply bool_decide_eq_true in E.
        rewrite (bool_decide_eq_true_2 (field ∈ f :: fields)) by (now right).
        reflexivity.
      * apply bool_decide_eq_false in E.
        rewrite (bool_decide_eq_false_2 (field ∈ f :: fields)); [reflexivity|].
        intros Hin. apply elem_of_cons in Hin as [Hin|Hin]; [congruence|contradiction].
Qed.

Lemma field_loop_Some audit_results fields scores :
  (forall field, In field fields -> ~ metadata field ->
     is_Some (column_score field (audit_results !! field))) ->
  is_Some (for_each (field_step audit_results) fields scores).
Proof.
  revert scores. induction fields as [|f fields IH]; intros scores H; [now eexists|].
  cbn [for_each]. rewrite field_step_spec.
  destruct (bool_decide (metadata f)) eqn:E.
  - apply IH. intros g Hg. apply H. now right.
  - apply bool_decide_eq_false in E.
    destruct (H f (or_introl eq_refl) E) as [n ->]. cbn [option_map].
    apply IH. intros g Hg. apply H. now right.
Qed.

Lemma field_loop_scored audit_results fields scores scores' field :
  for_each (field_step audit_results) fields scores = Some scores' ->
  In field fields -> ~ metadata field ->
  is_Some (scores' !! field).
Proof.
  revert scores. induction fields as [|f fields IH]; intros scores H Hin Hm;
    [contradiction|].
  cbn [for_each] in H.
  destruct (field_step audit_results scores f) as [scores1|] eqn:Hstep; [|discriminate].
  destruct (in_dec String.string_dec field fields) as [Hin'|Hout];
    [exact (IH scores1 H Hin' Hm)|].
  destruct Hin as [->|Hin]; [|contradiction].
  assert (Hs : is_Some (scores1 !! field)).
  { rewrite field_step_spec in Hstep.
    rewrite (bool_decide_eq_false_2 _ Hm) in Hstep.
    destruct (column_score field (audit_results !! field)) as [n|]; [|discriminate].
    injection Hstep as <-. rewrite lookup_insert_eq. now eexists. }
  clear Hstep. revert scores1 H Hs. clear -Hout.
  induction fields as [|g fields IH]; intros scores1 H Hs.
  - now injection H as <-.
  - cbn [for_each] in H.
    destruct (field_step audit_results scores1 g) as [scores2|] eqn:Hstep;
      [|discriminate].
    apply (IH (fun Hin => Hout (or_intror Hin)) scores2 H).
    rewrite field_step_spec in Hstep.
    destruct (bool_decide (metadata g)); [now injection Hstep as <-|].
    destruct (column_score g (audit_results !! g)) as [n|]; [|discriminate].
    injection Hstep as <-. rewrite lookup_insert_ne; [exact Hs|].
    intros ->. apply Hout. now left.
Qed.

Lemma fieldnames_metrics field :
  In field numeric_fields <-> In field fieldnames /\ ~ metadata field.
Proof.
  assert (E : List.filter (fun f => negb (bool_decide (metadata f))) fieldnames
              = numeric_fields) by (vm_compute; reflexivity).
  rewrite <- E, List.filter_In, negb_true_iff, bool_decide_eq_false. reflexivity.
Qed.

Lemma fieldnames_NoDup : List.NoDup fieldnames.
Proof. apply NoDup_ListNoDup, (bool_decide_unpack _). vm_compute. reflexivity. Qed.

Lemma process_file_scores file_name code_content audit_results cycle fields r :
  process_file file_name code_content audit_results cycle fields = Some r ->
  for_each (field_step audit_results) fields ∅ = Some (row_scores r)
  /\ row_filename r = file_name.
Proof.
  unfold process_file.
  destruct (default (VStr "unknown") (audit_results !! "model_used")); try discriminate.
  destruct (count_code_lines code_content) as [code_lines doc_lines].
  destruct (for_each (field_step audit_results) fields ∅) as [scores|]; [|discriminate].
  intros H. injection H as <-. split; reflexivity.
Qed.

Lemma processed_row_complete file_name code_content audit_results cycle r field :
  process_file file_name code_content audit_results cycle fieldnames = Some r ->
  In field numeric_fields ->
  is_Some (scores (result_of r) !! field).
Proof.
  intros H Hf. apply process_file_scores in H as [H _].
  apply fieldnames_metrics in Hf as [Hin Hm].
  exact (field_loop_scored _ _ _ _ _ H Hin Hm).
Qed.



Lemma column_score_Some field v :
  is_Some (column_score field v)
  <-> forall x, v = Some (VFloat x) -> exists q, x = Fin q.
Proof.
  unfold column_score. split.
  - intros [n H] x ->. cbn [get_score_for_value] in H.
    destruct x as [q| |]; [now exists q|discriminate|discriminate].
  - intros H. destruct v as [[|s|x]|]; try (now eexists).
    destruct (H x eq_refl) as (q & ->). cbn [get_score_for_value PyInt.of_float].
    now eexists.
Qed.

(** X11.  [process_file] returns a row exactly when the model name that
    the auditor gave is text (or is missing) and no declared metric has an
    infinity or not-a-number for its value; every other mapping, with
    whatever keys and values, gives a row. *)
Theorem process_file_returns_a_row file_name code_content audit_results cycle :
  is_Some (process_file file_name code_content audit_results cycle fieldnames)
  <-> (exists s, default (VStr "unknown") (audit_results !! "model_used") = VStr s)
      /\ forall field x,
           In field numeric_fields ->
           audit_results !! field = Some (VFloat x) ->
           exists q, x = Fin q.
Proof.
  split.
  - intros [r H]. split.
    + unfold process_file in H.
      destruct (default (VStr "unknown") (audit_results !! "model_used"));
        try discriminate. now eexists.
    + intros field x Hf Hx. apply process_file_scores in H as [H _].
      apply fieldnames_metrics in Hf as [Hin Hm].
      destruct (ReportFacts.for_each_Some_inv _ _ _ _ _ H Hin) as (s1 & s2 & Hstep).
      rewrite field_step_spec, (bool_decide_eq_false_2 _ Hm) in Hstep.
      assert (Hc : is_Some (column_score field (audit_results !! field))).
      { destruct (column_score field (audit_results !! field)); [now eexists|discriminate]. }
      exact (proj1 (column_score_Some field _) Hc x Hx).
  - intros [[s Hs] Hfields]. unfold process_file. rewrite Hs.
    destruct (count_code_lines code_content) as [code_lines doc_lines].
    destruct (field_loop_Some audit_results fieldnames ∅) as [scores ->];
      [|now eexists].
    intros field Hin Hm. apply column_score_Some. intros x Hx.
    apply (Hfields field x); [|exact Hx]. apply fieldnames_metrics. now split.
Qed.

(** *** The row of a parsed response *)

Lemma of_float_floor q : (0 <= q)%Q -> PyInt.of_float (Fin q) = Some (Qfloor q).
Proof.
  intros H. unfold PyInt.of_float, Qfloor. destruct q as [n d].
  cbn [Qnum Qden]. f_equal. apply Z.quot_div_nonneg; [|lia].
  unfold Qle in H. cbn in H. lia.
Qed.


Lemma not_metadata_model_used field : ~ metadata field -> field <> "model_used".
Proof. intros H ->. apply H. unfold metadata. set_solver. Qed.

Lemma process_file_parsed score response file_name code_content model_number cycle :
  (forall field answer,
     In field numeric_fields ->
     is_Some (column_score field (Some (score field answer)))) ->
  exists r,
    process_file file_name code_content
      (with_model_used model_number (parse_lines score response)) cycle fieldnames
    = Some r
    /\ row_filename r = file_name
    /\ row_domain r = VStr (default "N/A" (last_answer "1.1." response))
    /\ (forall label field,
          In (label, field) sections -> field <> "domain" ->
          row_scores r !! field
          = column_score field (option_map (score field) (last_answer label response)))
    /\ (forall field, is_Some (row_scores r !! field) -> In field numeric_fields).
Proof.
  intros Hscore.
  set (audit_results := with_model_used model_number (parse_lines score response)).
  assert (Hlookup : forall field, ~ metadata field ->
            audit_results !! field = parse_lines score response !! field).
  { intros field Hm. unfold audit_results, with_model_used.
    apply lookup_insert_ne. intros E. now apply (not_metadata_model_used field Hm). }
  assert (Hmetric : forall label field,
            In (label, field) sections -> field <> "domain" ->
            audit_results !! field = option_map (score field) (last_answer label response)).
  { intros label field Hl Hd.
    assert (Hf : In field numeric_fields).
    { assert (Hin : In field (map snd sections)) by (apply in_map_iff; now exists (label, field)).
      rewrite sections_fields in Hin. destruct Hin as [<-|Hin]; [congruence|exact Hin]. }
    rewrite (Hlookup field (proj2 (proj1 (fieldnames_metrics field) Hf))).
    rewrite (parse_lines_lookup _ _ _ _ Hl).
    apply String.eqb_neq in Hd. rewrite Hd. reflexivity. }
  destruct (field_loop_Some audit_results fieldnames ∅) as [scores Hscores].
  { intros field Hin Hm.
    assert (Hf : In field numeric_fields) by (apply fieldnames_metrics; now split).
    destruct (field_section field) as (label & Hl & [->|[_ Hd]]).
    - rewrite sections_fields. now right.
    - now apply numeric_fields_not_domain in Hf.
    - apply String.eqb_neq in Hd. rewrite (Hmetric label field Hl Hd).
      destruct (last_answer label response) as [a|]; [|now eexists].
      now apply Hscore. }
  assert (Hdomain : audit_results !! "domain"
                    = option_map VStr (last_answer "1.1." response)).
  { unfold audit_results, with_model_used.
    rewrite lookup_insert_ne by discriminate.
    rewrite (parse_lines_lookup score response "1.1." "domain") by (now left).
    reflexivity. }
  unfold process_file.
  replace (audit_results !! "model_used")
    with (Some (VStr (if (model_number =? 1)%Z then "anthropic" else "openai")))
    by (symmetry; apply lookup_insert_eq).
  cbn [default]. destruct (count_code_lines code_content) as [code_lines doc_lines].
  rewrite Hscores. eexists. split; [reflexivity|].
  cbn [row_filename row_domain row_scores].
  split; [reflexivity|]. split; [|split].
  - rewrite Hdomain. now destruct (last_answer "1.1." response).
  - intros label field Hl Hd.
    rewrite (field_loop_lookup _ _ _ _ field Hscores fieldnames_NoDup).
    assert (Hf : In field numeric_fields).
    { assert (Hin : In field (map snd sections)) by (apply in_map_iff; now exists (label, field)).
      rewrite sections_fields in Hin. destruct Hin as [<-|Hin]; [congruence|exact Hin]. }
    apply fieldnames_metrics in Hf as [Hin Hm].
    rewrite (bool_decide_eq_true_2 (field ∈ fieldnames)) by (apply list_elem_of_In, Hin).
    rewrite (bool_decide_eq_false_2 _ Hm). cbn [andb negb].
    now rewrite (Hmetric label field Hl Hd).
  - intros field. rewrite (field_loop_lookup _ _ _ _ field Hscores fieldnames_NoDup).
    destruct (bool_decide (field ∈ fieldnames)) eqn:E1;
      [|cbn [andb]; rewrite lookup_empty; intros [? H]; discriminate].
    destruct (bool_decide (metadata field)) eqn:E2;
      [cbn [andb negb]; rewrite lookup_empty; intros [? H]; discriminate|].
    intros _. apply fieldnames_metrics.
    apply bool_decide_eq_true in E1. apply bool_decide_eq_false in E2.
    split; [apply list_elem_of_In, E1 | exact E2].
Qed.

Lemma parsed_responses_have_rows response file_name code_content model_number cycle :
  is_Some (process_file file_name code_content
             (with_model_used model_number
                (AIAuditorResponse._parse_audit_response response))
             cycle fieldnames)
  /\ is_Some (process_file file_name code_content
                (with_model_used model_number
                   (AIAuditorNumResponse._parse_audit_response response))
                cycle fieldnames).
Proof.
  split.
  - destruct (process_file_parsed AIAuditorResponse.score response file_name
                code_content model_number cycle) as (r & Hr & _); [|now exists r].
    intros field answer _. unfold AIAuditorResponse.score, column_score.
    cbn [get_score_for_value PyInt.of_float]. now eexists.
  - destruct (process_file_parsed AIAuditorNumResponse.score response file_name
                code_content model_number cycle) as (r & Hr & _); [|now exists r].
    intros field answer _. unfold AIAuditorNumResponse.score, column_score.
    destruct (AIAuditorNum._parse_numerical_value answer) as [x|] eqn:E;
      [|now eexists].
    destruct (parse_numerical_value_range answer x E) as (q & -> & Hq & _).
    cbn [of_option get_score_for_value]. rewrite (of_float_floor q Hq). now eexists.
Qed.


Lemma numeric_fields_tables field :
  In field numeric_fields ->
  exists mapping, ScoreMappings.table_get field ScoreMappings.SCORE_MAPPINGS = Some mapping.
Proof.
  assert (H : forallb (fun f => bool_decide
                                  (is_Some (ScoreMappings.table_get f
                                              ScoreMappings.SCORE_MAPPINGS)))
                      numeric_fields = true) by (vm_compute; reflexivity).
  rewrite forallb_forall in H. intros Hin.
  exact (bool_decide_eq_true_1 _ (H _ Hin)).
Qed.

Lemma get_score_no_match field mapping answer :
  ScoreMappings.table_get field ScoreMappings.SCORE_MAPPINGS = Some mapping ->
  (forall phrase score,
     In (phrase, score) mapping -> Py.startswith (Py.lower answer) phrase = false) ->
  ScoreMappings.get_score field answer = 0.
Proof.
  intros T H. unfold ScoreMappings.get_score. rewrite T.
  destruct (ScoreMappingsFacts.get_score_loop_spec mapping (Py.lower answer))
    as [(key & before & after & E & _ & K)|[_ Hz]]; [|exact Hz].
  rewrite (H key (ScoreMappings.get_score_loop mapping (Py.lower answer))) in K;
    [discriminate|].
  rewrite E at 2. apply in_or_app. right. now left.
Qed.

(** X13.  Every declared metric has a table of scores, and the row that
    [process_file] makes of a response of [ai_auditor.py] holds, for a
    metric whose last answer begins (in any case) with a phrase of the
    table, the score of that phrase, and 0 for a last answer that begins
    with none. *)
Theorem textual_answer_scores_its_phrase response label field answer
    file_name code_content model_number cycle :
  In (label, field) sections ->
  field <> "domain" ->
  last_answer label response = Some answer ->
  exists mapping r,
    ScoreMappings.table_get field ScoreMappings.SCORE_MAPPINGS = Some mapping
    /\ process_file file_name code_content
         (with_model_used model_number (AIAuditorResponse._parse_audit_response response))
         cycle fieldnames = Some r
    /\ (forall phrase score,
          In (phrase, score) mapping ->
          Py.startswith (Py.lower answer) phrase = true ->
          row_scores r !! field = Some score)
    /\ ((forall phrase score,
           In (phrase, score) mapping ->
           Py.startswith (Py.lower answer) phrase = false) ->
        row_scores r !! field = Some 0).
Proof.
  intros Hl Hd Ha.
  assert (Hf : In field numeric_fields).
  { assert (Hin : In field (map snd sections))
      by (apply in_map_iff; now exists (label, field)).
    rewrite sections_fields in Hin. destruct Hin as [<-|Hin]; [congruence|exact Hin]. }
  destruct (numeric_fields_tables field Hf) as (mapping & T).
  destruct (process_file_parsed AIAuditorResponse.score response file_name
              code_content model_number cycle) as (r & Hr & _ & _ & Hs & _).
  { intros f a _. unfold AIAuditorResponse.score, column_score.
    cbn [get_score_for_value PyInt.of_float]. now eexists. }
  assert (Hscore : row_scores r !! field = Some (ScoreMappings.get_score field answer)).
  { rewrite (Hs label field Hl Hd), Ha.
    unfold AIAuditorResponse.score, column_score, option_map.
    cbn [get_score_for_value PyInt.of_float inject_Z Qnum Qden].
    now rewrite Z.quot_1_r. }
  exists mapping, r. split; [exact T|]. split; [exact Hr|]. split.
  - intros phrase score Hin Hp. rewrite Hscore. f_equal.
    exact (ScoreTableFacts.get_score_unique field mapping phrase score answer T Hin Hp).
  - intros Hnone. rewrite Hscore. f_equal.
    exact (get_score_no_match field mapping answer T Hnone).
Qed.

Lemma textual_answer_scores_its_phrase_witness :
  exists mapping r,
    ScoreMappings.table_get "readability" ScoreMappings.SCORE_MAPPINGS = Some mapping
    /\ process_file "a.py" "x = 1"
         (with_model_used 1
            (AIAuditorResponse._parse_audit_response
               "2.1. Readability: Highly Readable, mostly"))
         3 fieldnames = Some r
    /\ (forall phrase score,
          In (phrase, score) mapping ->
          Py.startswith (Py.lower "Highly Readable, mostly") phrase = true ->
          row_scores r !! "readability" = Some score)
    /\ ((forall phrase score,
           In (phrase, score) mapping ->
           Py.startswith (Py.lower "Highly Readable, mostly") phrase = false) ->
        row_scores r !! "readability" = Some 0).
Proof.
  apply (textual_answer_scores_its_phrase
           "2.1. Readability: Highly Readable, mostly" "2.1." "readability"
           "Highly Readable, mostly" "a.py" "x = 1" 1 3).
  - right. left. reflexivity.
  - discriminate.
  - reflexivity.
Defined.

(** *** The attempts of [audit_content] *)

Lemma audit_content_cases parse model_number call :
  (exists attempt,
     first_success call attempt
     /\ audit_content parse model_number call
        = Some (with_model_used model_number (parse (snd (call attempt)))))
  \/ ((forall attempt, (attempt < MAX_RETRIES)%nat -> fst (call attempt) = false)
      /\ audit_content parse model_number call = None).
Proof.
  unfold first_success, audit_content, MAX_RETRIES. cbn [audit_attempts].
  destruct (call 0%nat) as [[] r0] eqn:E0.
  { left. exists 0%nat. rewrite E0. split; [|reflexivity].
    split; [lia|]. split; [reflexivity|]. intros earlier H. lia. }
  destruct (call 1%nat) as [[] r1] eqn:E1.
  { left. exists 1%nat. rewrite E1. split; [|reflexivity].
    split; [lia|]. split; [reflexivity|].
    intros [|earlier] H; [now rewrite E0|lia]. }
  destruct (call 2%nat) as [[] r2] eqn:E2.
  { left. exists 2%nat. rewrite E2. split; [|reflexivity].
    split; [lia|]. split; [reflexivity|].
    intros [|[|earlier]] H; [now rewrite E0|now rewrite E1|lia]. }
  right. split; [|reflexivity].
  intros [|[|[|attempt]]] H; [now rewrite E0|now rewrite E1|now rewrite E2|lia].
Qed.

(** X14.  A file has a row in a cycle exactly when one of the first three
    calls of the model succeeds, for either auditor; the row is then made
    of the response of the first call that succeeds, and no later call
    matters. *)
Theorem row_of_the_first_successful_call call model_number file_name code_content cycle :
  let textual := AIAuditorResponse._parse_audit_response in
  let numeric := AIAuditorNumResponse._parse_audit_response in
  (forall attempt,
     first_success call attempt ->
     audited_row textual model_number call file_name code_content cycle
     = process_file file_name code_content
         (with_model_used model_number (textual (snd (call attempt)))) cycle fieldnames
     /\ audited_row numeric model_number call file_name code_content cycle
        = process_file file_name code_content
            (with_model_used model_number (numeric (snd (call attempt)))) cycle fieldnames
     /\ is_Some (audited_row textual model_number call file_name code_content cycle)
     /\ is_Some (audited_row numeric model_number call file_name code_content cycle))
  /\ ((forall attempt, (attempt < MAX_RETRIES)%nat -> fst (call attempt) = false) ->
      audited_row textual model_number call file_name code_content cycle = None
      /\ audited_row numeric model_number call file_name code_content cycle = None).
Proof.
  cbn zeta.
  assert (Huniq : forall a b, first_success call a -> first_success call b -> a = b).
  { intros a b (_ & Ha & Ha') (_ & Hb & Hb').
    destruct (Nat.lt_trichotomy a b) as [H|[H|H]]; [|exact H|].
    - specialize (Hb' a H). congruence.
    - specialize (Ha' b H). congruence. }
  split.
  - intros attempt Hfirst. unfold audited_row.
    destruct (audit_content_cases AIAuditorResponse._parse_audit_response
                model_number call) as [(a & Ha & ->)|[Hnone _]];
      [|destruct Hfirst as (Hlt & Ht & _); rewrite (Hnone _ Hlt) in Ht; discriminate].
    destruct (audit_content_cases AIAuditorNumResponse._parse_audit_response
                model_number call) as [(b & Hb & ->)|[Hnone _]];
      [|destruct Hfirst as (Hlt & Ht & _); rewrite (Hnone _ Hlt) in Ht; discriminate].
    rewrite (Huniq a attempt Ha Hfirst), (Huniq b attempt Hb Hfirst).
    destruct (parsed_responses_have_rows (snd (call attempt)) file_name code_content
                model_number cycle) as [[r1 ->] [r2 ->]].
    repeat split; now eexists.
  - intros Hnone. unfold audited_row.
    destruct (audit_content_cases AIAuditorResponse._parse_audit_response
                model_number call) as [(a & (Hlt & Ht & _) & _)|[_ ->]];
      [rewrite (Hnone _ Hlt) in Ht; discriminate|].
    destruct (audit_content_cases AIAuditorNumResponse._parse_audit_response
                model_number call) as [(a & (Hlt & Ht & _) & _)|[_ ->]];
      [rewrite (Hnone _ Hlt) in Ht; discriminate|].
    now split.
Qed.

End ResponseFacts.

(** ** [is_audit_data_valid] on what [parse_audit_response] returns *)

Module ValidityFacts.
Import PyFloat Spec Props Auditor AuditorResponse AuditorFacts.

Lemma fold_insert_entry_other (f : string * string -> value) entries
    (d : gmap string value) key :
  ~ In key (map fst entries) ->
  fold_left (fun d e => <[fst e := f e]> d) entries d !! key = d !! key.
Proof.
  revert d. induction entries as [|e entries IH]; intros d Hout; [reflexivity|].
  cbn [fold_left]. rewrite IH by (intros H; apply Hout; right; exact H).
  apply lookup_insert_ne. intros E. apply Hout. left. exact E.
Qed.

Lemma fold_insert_entry (f : string * string -> value) entries
    (d : gmap string value) entry :
  List.NoDup (map fst entries) ->
  In entry entries ->
  fold_left (fun d e => <[fst e := f e]> d) entries d !! fst entry = Some (f entry).
Proof.
  revert d. induction entries as [|e entries IH]; intros d Hnd Hin; [contradiction|].
  cbn [map] in Hnd. inversion Hnd as [|? ? Hout Hnd']; subst.
  cbn [fold_left]. destruct Hin as [->|Hin]; [|now apply IH].
  rewrite fold_insert_entry_other by exact Hout. apply lookup_insert_eq.
Qed.

Lemma textual_entry text entry :
  ~ gated text ->
  In entry schema_mapping ->
  fst (AIAuditor.parse_audit_response text) !! fst entry = Some (stored text entry).
Proof.
  intros Hg Hin. rewrite (textual_parse_not_gated text Hg). cbn [fst].
  apply (fold_insert_entry (stored text)); [|exact Hin].
  apply NoDup_ListNoDup, schema_keys_NoDup.
Qed.

Lemma gate_result_valid explanation :
  is_audit_data_valid
    (<["is_script_explanation" := VStr explanation]>
       (<["is_script" := VStr "no"]> ∅))
  = Some true.
Proof.
  unfold is_audit_data_valid.
  rewrite bool_decide_eq_false_2 by apply insert_non_empty.
  rewrite lookup_insert_ne, lookup_insert_eq by discriminate.
  cbn [default]. change (Py.lower "no" =? "no")%string with true. cbn [forallb].
  rewrite lookup_insert_ne, lookup_insert_eq by discriminate.
  rewrite lookup_insert_eq.
  rewrite !bool_decide_eq_true_2 by (now eexists). reflexivity.
Qed.

(** X15.  A response that the gate of section 0 stops is valid: for both
    auditors [is_audit_data_valid] returns [True] on what
    [parse_audit_response] returns for it. *)
Theorem gated_result_is_valid response_text :
  gated response_text ->
  is_audit_data_valid (fst (AIAuditor.parse_audit_response response_text)) = Some true
  /\ is_audit_data_valid (fst (AIAuditorNum.parse_audit_response response_text))
     = Some true.
Proof.
  intros Hg. apply is_script_gate_gated in Hg. unfold lines_of in Hg.
  unfold AIAuditor.parse_audit_response, AIAuditorNum.parse_audit_response.
  rewrite Hg. unfold gate_result. cbn [fst].
  split; apply gate_result_valid.
Qed.

Lemma gated_result_is_valid_witness :
  is_audit_data_valid (fst (AIAuditor.parse_audit_response not_code_response)) = Some true
  /\ is_audit_data_valid (fst (AIAuditorNum.parse_audit_response not_code_response))
     = Some true.
Proof.
  apply (gated_result_is_valid not_code_response).
  exists "0. Is this analyzable code? (Yes / No): No", " No".
  repeat split; reflexivity.
Defined.

(** X16.  On what [ai_auditor.py] parses from a response that the gate does
    not stop, [is_audit_data_valid] raises when the response has no answer
    for section 0, because the parser stores [None] for it.  With an answer
    it returns whether the sanitized answer is "no" in any case or the
    sanitized domain is not empty. *)
Theorem textual_validity response_text :
  ~ gated response_text ->
  is_audit_data_valid (fst (AIAuditor.parse_audit_response response_text))
  = match sanitized_answer response_text ("is_script", "0.") with
    | None => None
    | Some answer =>
        Some (String.eqb (Py.lower answer) "no"
              || match sanitized_answer response_text ("domain", "1.1.") with
                 | Some domain => Py.truthy domain
                 | None => false
                 end)
    end.
Proof.
  intros Hg.
  pose proof (textual_entry response_text ("is_script", "0.") Hg
                (or_introl eq_refl)) as Hs.
  pose proof (textual_entry response_text ("is_script_explanation", "0.1.") Hg
                (or_intror (or_introl eq_refl))) as He.
  pose proof (textual_entry response_text ("domain", "1.1.") Hg
                (or_intror (or_intror (or_introl eq_refl)))) as Hd.
  cbn [fst] in Hs, He, Hd. revert Hs He Hd.
  generalize (fst (AIAuditor.parse_audit_response response_text)).
  intros d Hs He Hd. unfold is_audit_data_valid.
  rewrite bool_decide_eq_false_2 by (intros ->; rewrite lookup_empty in Hs; discriminate).
  rewrite Hs. unfold stored at 1.
  destruct (sanitized_answer response_text ("is_script", "0.")) as [answer|];
    [|reflexivity].
  cbn [default from_option id].
  destruct (Py.lower answer =? "no")%string.
  - cbn [forallb orb]. rewrite Hs, He.
    rewrite !bool_decide_eq_true_2 by (now eexists). reflexivity.
  - cbn [forallb orb]. rewrite Hd. unfold stored.
    destruct (sanitized_answer response_text ("domain", "1.1.")) as [domain|];
      cbn [truthy_value]; [apply f_equal, andb_true_r | reflexivity].
Qed.

Lemma textual_validity_witness :
  is_audit_data_valid (fst (AIAuditor.parse_audit_response "2.1. Readability: High"))
  = match sanitized_answer "2.1. Readability: High" ("is_script", "0.") with
    | None => None
    | Some answer =>
        Some (String.eqb (Py.lower answer) "no"
              || match sanitized_answer "2.1. Readability: High" ("domain", "1.1.") with
                 | Some domain => Py.truthy domain
                 | None => false
                 end)
    end.
Proof.
  apply (textual_validity "2.1. Readability: High").
  intros (line & answer & Hline & _). vm_compute in Hline. discriminate Hline.
Defined.

(** *** [ai_auditor_num.py] *)

Lemma numeric_step_stored lines (d : gmap string value) entry :
  entry_ok entry = true ->
  AIAuditorNum.schema_step lines d entry
  = if String.eqb (fst entry) "is_script" && bool_decide (is_Some (d !! "is_script"))
    then d
    else match numeric_stored lines entry with
         | Some v => <[fst entry := v]> d
         | None => d
         end.
Proof.
  destruct entry as [key label]. unfold entry_ok. cbn [fst snd].
  intros [[_ Hlabel]%andb_prop _]%andb_prop.
  unfold AIAuditorNum.schema_step, numeric_stored. cbn [fst snd].
  destruct (String.eqb key "is_script" && bool_decide (is_Some (d !! "is_script")));
    [reflexivity|].
  destruct (line_starting label lines) as [line|] eqn:Hline; [|reflexivity].
  rewrite (startswith_truthy line label (line_starting_startswith _ _ _ Hline) Hlabel).
  destruct (after_colon line); reflexivity.
Qed.

Lemma numeric_loop_other lines entries (d : gmap string value) key :
  forallb entry_ok entries = true ->
  ~ In key (map fst entries) ->
  fold_left (AIAuditorNum.schema_step lines) entries d !! key = d !! key.
Proof.
  revert d. induction entries as [|e entries IH]; intros d Hok Hout; [reflexivity|].
  cbn [forallb] in Hok. apply andb_prop in Hok as [Hok1 Hok].
  cbn [fold_left]. rewrite IH; [|exact Hok|intros H; apply Hout; right; exact H].
  rewrite (numeric_step_stored lines d e Hok1).
  destruct (_ && _); [reflexivity|].
  destruct (numeric_stored lines e); [|reflexivity].
  apply lookup_insert_ne. intros E. apply Hout. left. exact E.
Qed.

Lemma numeric_loop_entry lines entries (d : gmap string value) entry :
  forallb entry_ok entries = true ->
  List.NoDup (map fst entries) ->
  (is_Some (d !! "is_script") -> ~ In "is_script" (map fst entries)) ->
  In entry entries ->
  fold_left (AIAuditorNum.schema_step lines) entries d !! fst entry
  = match numeric_stored lines entry with
    | Some v => Some v
    | None => d !! fst entry
    end.
Proof.
  revert d. induction entries as [|e entries IH]; intros d Hok Hnd Hs Hin;
    [contradiction|].
  cbn [forallb] in Hok. apply andb_prop in Hok as [Hok1 Hok].
  cbn [map] in Hnd. inversion Hnd as [|? ? Hout Hnd']; subst.
  cbn [fold_left].
  assert (Hstep : AIAuditorNum.schema_step lines d e
                  = match numeric_stored lines e with
                    | Some v => <[fst e := v]> d
                    | None => d
                    end).
  { rewrite (numeric_step_stored lines d e Hok1).
    destruct (String.eqb_spec (fst e) "is_script") as [E|_]; [|reflexivity].
    rewrite bool_decide_eq_false_2; [reflexivity|].
    intros H. apply (Hs H). left. exact E. }
  destruct Hin as [->|Hin].
  - rewrite (numeric_loop_other _ _ _ _ Hok Hout), Hstep.
    destruct (numeric_stored lines entry); [apply lookup_insert_eq|reflexivity].
  - assert (Hne : fst e <> fst entry).
    { intros E. apply Hout. rewrite E. apply in_map. exact Hin. }
    rewrite IH; [|exact Hok|exact Hnd'| |exact Hin].
    + rewrite Hstep. destruct (numeric_stored lines entry); [reflexivity|].
      destruct (numeric_stored lines e); [|reflexivity].
      now apply lookup_insert_ne.
    + intros H Hin'. rewrite Hstep in H.
      destruct (numeric_stored lines e) as [v|].
      * destruct (decide (fst e = "is_script")) as [E|E].
        -- apply Hout. rewrite E. exact Hin'.
        -- rewrite lookup_insert_ne in H by exact E. apply (Hs H). right. exact Hin'.
      * apply (Hs H). right. exact Hin'.
Qed.

Lemma line_count_step_other lines phrase key (d : gmap string value) k :
  k <> key -> AIAuditorNum.line_count_step lines phrase key d !! k = d !! k.
Proof.
  intros Hne. unfold AIAuditorNum.line_count_step.
  destruct (Py.next_where _ lines) as [line|]; [|reflexivity].
  destruct (Py.truthy line); [|reflexivity].
  destruct (after_colon line); [|reflexivity].
  apply lookup_insert_ne. congruence.
Qed.

Lemma numeric_entry text entry :
  ~ gated text ->
  In entry schema_mapping ->
  fst (AIAuditorNum.parse_audit_response text) !! fst entry
  = numeric_stored (lines_of text) entry.
Proof.
  intros Hg Hin. unfold AIAuditorNum.parse_audit_response.
  apply is_script_gate_not_gated in Hg. unfold lines_of in *. rewrite Hg. cbn [fst].
  assert (Hk : fst entry <> "lines_of_code" /\ fst entry <> "lines_of_doc").
  { assert (H : forallb (fun e => negb (String.eqb (fst e) "lines_of_code")
                                  && negb (String.eqb (fst e) "lines_of_doc"))
                        schema_mapping = true) by (vm_compute; reflexivity).
    rewrite forallb_forall in H. specialize (H _ Hin).
    apply andb_prop in H as [H1 H2].
    apply negb_true_iff, String.eqb_neq in H1, H2. now split. }
  rewrite !line_count_step_other by tauto.
  rewrite (numeric_loop_entry _ schema_mapping ∅ entry);
    [|exact schema_entries_ok|apply NoDup_ListNoDup, schema_keys_NoDup| |exact Hin].
  - rewrite lookup_empty. now destruct (numeric_stored _ entry).
  - rewrite lookup_empty. intros [? H]. discriminate.
Qed.

(** X17.  On what [ai_auditor_num.py] parses, [is_audit_data_valid] never
    raises: the parser leaves out what the response does not answer.  A
    response that the gate does not stop is valid exactly when it answers
    section 1.1 with a domain that is not empty after sanitization. *)
Theorem numeric_validity response_text :
  is_Some (is_audit_data_valid (fst (AIAuditorNum.parse_audit_response response_text)))
  /\ (~ gated response_text ->
      is_audit_data_valid (fst (AIAuditorNum.parse_audit_response response_text))
      = Some (match raw_answer response_text "1.1." with
              | Some answer => Py.truthy (sanitize_domain answer)
              | None => false
              end)).
Proof.
  assert (Hnot : ~ gated response_text ->
            is_audit_data_valid (fst (AIAuditorNum.parse_audit_response response_text))
            = Some (match raw_answer response_text "1.1." with
                    | Some answer => Py.truthy (sanitize_domain answer)
                    | None => false
                    end)).
  { intros Hg.
    pose proof (numeric_entry response_text ("is_script", "0.") Hg
                  (or_introl eq_refl)) as Hs.
    pose proof (numeric_entry response_text ("domain", "1.1.") Hg
                  (or_intror (or_intror (or_introl eq_refl)))) as Hd.
    cbn [fst] in Hs, Hd. revert Hs Hd.
    generalize (fst (AIAuditorNum.parse_audit_response response_text)).
    intros d Hs Hd. unfold is_audit_data_valid.
    assert (Hdomain : match d !! "domain" with
                      | Some v => truthy_value v
                      | None => false
                      end
                      = match raw_answer response_text "1.1." with
                        | Some answer => Py.truthy (sanitize_domain answer)
                        | None => false
                        end).
    { rewrite Hd. unfold numeric_stored, raw_answer. cbn [fst snd].
      destruct (line_starting "1.1." (lines_of response_text)); [|reflexivity].
      destruct (after_colon s); reflexivity. }
    destruct (bool_decide (d = ∅)) eqn:Hempty.
    - apply bool_decide_eq_true in Hempty. subst d.
      rewrite lookup_empty in Hdomain. now rewrite <- Hdomain.
    - rewrite Hs. unfold numeric_stored. cbn [fst snd].
      assert (Hno : forall answer,
                after_colon_of "0." (lines_of response_text) = Some answer ->
                (Py.lower (Py.strip answer) =? "no")%string = false).
      { intros answer Ha. apply String.eqb_neq. intros Hno. apply Hg.
        unfold after_colon_of in Ha.
        destruct (line_starting "0." (lines_of response_text)) as [line|] eqn:Hl;
          [|discriminate].
        now exists line, answer. }
      unfold after_colon_of in Hno.
      destruct (line_starting "0." (lines_of response_text)) as [line|].
      + destruct (after_colon line) as [answer|].
        * cbn [default from_option id].
          change (String.eqb "is_script" "domain") with false.
          change (bool_decide ("is_script" ∈ ["is_script"; "is_script_explanation";
                                               "package_dependencies"])) with true.
          cbn [negb]. cbv iota. rewrite (Hno answer eq_refl). cbn [forallb].
          now rewrite Hdomain, andb_true_r.
        * cbn [default from_option id]. change (Py.lower "" =? "no")%string with false.
          cbn [forallb]. now rewrite Hdomain, andb_true_r.
      + cbn [default from_option id]. change (Py.lower "" =? "no")%string with false.
        cbn [forallb]. now rewrite Hdomain, andb_true_r. }
  split; [|exact Hnot].
  destruct (is_script_gate (lines_of response_text)) as [r|] eqn:Hgate.
  - unfold AIAuditorNum.parse_audit_response. unfold lines_of in Hgate. rewrite Hgate.
    destruct (is_script_gate_shape _ _ Hgate) as (explanation & ->). cbn [fst].
    rewrite gate_result_valid. now eexists.
  - rewrite Hnot; [now eexists|]. intros Hg.
    rewrite (is_script_gate_gated _ Hg) in Hgate. discriminate.
Qed.

(** *** The first answer *)

(** X18.  For a response that the gate does not stop, both
    [parse_audit_response] functions keep for an entry of the schema the
    answer of the first line that starts with the label of the entry.
    [ai_auditor.py] stores it sanitized, and [None] where there is none;
    [ai_auditor_num.py] stores the sanitized domain, the three textual
    entries as they are and every other entry as the number read from it
    (from 0 to 100, or [None]), and stores nothing where there is no
    answer. *)
Theorem public_parsers_keep_the_first_answer response_text key label :
  ~ gated response_text ->
  In (key, label) schema_mapping ->
  fst (AIAuditor.parse_audit_response response_text) !! key
  = Some (match raw_answer response_text label with
          | Some answer =>
              VStr (if String.eqb key "domain" then sanitize_domain answer
                    else sanitize_text answer)
          | None => VNone
          end)
  /\ fst (AIAuditorNum.parse_audit_response response_text) !! key
     = option_map
         (fun answer =>
            if String.eqb key "domain" then VStr (sanitize_domain answer)
            else if bool_decide (key ∈ ["is_script"; "is_script_explanation";
                                        "package_dependencies"])
            then VStr answer
            else of_option (AIAuditorNum._parse_numerical_value answer))
         (raw_answer response_text label)
  /\ forall answer x,
       raw_answer response_text label = Some answer ->
       AIAuditorNum._parse_numerical_value answer = Some x ->
       exists q, x = Fin q /\ (0 <= q <= 100)%Q.
Proof.
  intros Hg Hin.
  pose proof (textual_entry response_text (key, label) Hg Hin) as Ht.
  pose proof (numeric_entry response_text (key, label) Hg Hin) as Hn.
  cbn [fst] in Ht, Hn. split; [|split].
  - rewrite Ht.
    unfold stored, sanitized_answer. cbn [fst snd].
    destruct (raw_answer response_text label); cbn [option_map]; [|reflexivity].
    now destruct (String.eqb key "domain").
  - rewrite Hn.
    unfold numeric_stored, raw_answer. cbn [fst snd].
    destruct (line_starting label (lines_of response_text)) as [line|]; [|reflexivity].
    destruct (after_colon line) as [answer|]; [|reflexivity].
    cbn [option_map]. destruct (String.eqb key "domain"); [reflexivity|].
    now destruct (bool_decide _).
  - intros answer x _ Hx. exact (ResponseFacts.parse_numerical_value_range answer x Hx).
Qed.

Lemma public_parsers_keep_the_first_answer_witness :
  let response_text :=
    lines_text ["2.1. Readability: 40"; "2.1. Readability: 90"] in
  fst (AIAuditor.parse_audit_response response_text) !! "readability"
  = Some (match raw_answer response_text "2.1." with
          | Some answer =>
              VStr (if String.eqb "readability" "domain" then sanitize_domain answer
                    else sanitize_text answer)
          | None => VNone
          end)
  /\ fst (AIAuditorNum.parse_audit_response response_text) !! "readability"
     = option_map
         (fun answer =>
            if String.eqb "readability" "domain" then VStr (sanitize_domain answer)
            else if bool_decide ("readability" ∈ ["is_script"; "is_script_explanation";
                                                   "package_dependencies"])
            then VStr answer
            else of_option (AIAuditorNum._parse_numerical_value answer))
         (raw_answer response_text "2.1.")
  /\ forall answer x,
       raw_answer response_text "2.1." = Some answer ->
       AIAuditorNum._parse_numerical_value answer = Some x ->
       exists q, x = Fin q /\ (0 <= q <= 100)%Q.
Proof.
  apply (public_parsers_keep_the_first_answer
           (lines_text ["2.1. Readability: 40"; "2.1. Readability: 90"])
           "readability" "2.1.").
  - intros (line & answer & Hline & _). vm_compute in Hline. discriminate Hline.
  - do 3 right. left. reflexivity.
Defined.

End ValidityFacts.

(** ** [run_test.py]: line counts and run numbers *)

Module RunFacts.
Import PyFloat Spec Props Auditor RunTest.
Import PyFloatFacts AuditorFacts AIAuditorNumFacts.

(** *** [count_code_lines] *)

Lemma split_nonempty sep s : Py.split sep s <> [].
Proof.
  destruct s as [|c s]; [discriminate|]. cbn [Py.split].
  destruct (Ascii.eqb sep c); [discriminate|].
  destruct (Py.split sep s); discriminate.
Qed.

Lemma split_app sep a b :
  Py.split sep (a ++ String sep b) = (Py.split sep a ++ Py.split sep b)%list.
Proof.
  induction a as [|c a IH].
  - change (Py.split sep (String sep b) = (EmptyString :: Py.split sep b)).
    cbn [Py.split]. now rewrite Ascii.eqb_refl.
  - change (Py.split sep (String c (a ++ String sep b))
            = (Py.split sep (String c a) ++ Py.split sep b)%list).
    cbn [Py.split]. destruct (Ascii.eqb sep c); [now rewrite IH|].
    rewrite IH. pose proof (split_nonempty sep a) as Hne.
    destruct (Py.split sep a); [congruence|reflexivity].
Qed.

Lemma count_loop lines code_lines doc_lines :
  fold_left
    (fun '(code_lines, doc_lines) line =>
       let line := Py.strip line in
       if negb (Py.truthy line) then (code_lines, doc_lines)
       else if Py.startswith line "#" || Py.startswith line triple_quote
               || Py.startswith line "'"
       then (code_lines, doc_lines + 1)
       else (code_lines + 1, doc_lines))
    lines (code_lines, doc_lines)
  = (code_lines + foldr Z.add 0 (map (fun line => fst (line_counts line)) lines),
     doc_lines + foldr Z.add 0 (map (fun line => snd (line_counts line)) lines)).
Proof.
  revert code_lines doc_lines.
  induction lines as [|line lines IH]; intros code_lines doc_lines.
  - cbn [fold_left map foldr]. now rewrite !Z.add_0_r.
  - cbn [fold_left map foldr]. unfold line_counts at 1 3. cbn zeta.
    destruct (negb (Py.truthy (Py.strip line))).
    + rewrite IH. cbn [fst snd]. f_equal; lia.
    + destruct (Py.startswith (Py.strip line) "#"
                || Py.startswith (Py.strip line) triple_quote
                || Py.startswith (Py.strip line) "'");
        rewrite IH; cbn [fst snd]; f_equal; lia.
Qed.

Lemma count_code_lines_sum text :
  count_code_lines text
  = (foldr Z.add 0 (map (fun line => fst (line_counts line)) (Py.split newline text)),
     foldr Z.add 0 (map (fun line => snd (line_counts line)) (Py.split newline text))).
Proof. unfold count_code_lines. now rewrite count_loop. Qed.

Lemma line_counts_cases line :
  (0 <= fst (line_counts line) /\ 0 <= snd (line_counts line))
  /\ fst (line_counts line) + snd (line_counts line)
     = if Py.truthy (Py.strip line) then 1 else 0.
Proof.
  unfold line_counts. cbn zeta.
  destruct (Py.truthy (Py.strip line)); cbn [negb]; [|cbn; lia].
  destruct (_ || _); cbn; lia.
Qed.

Lemma foldr_add_app (f : string -> Z) l1 l2 :
  foldr Z.add 0 (map f (l1 ++ l2))
  = foldr Z.add 0 (map f l1) + foldr Z.add 0 (map f l2).
Proof. induction l1 as [|x l1 IH]; cbn [app map foldr]; lia. Qed.

(** X19.  [count_code_lines] counts every line that holds something other
    than white space once, as code or as documentation, and no other line;
    and the counts of a text followed by a line break and a second text are
    the sums of the counts of the two texts. *)
Theorem count_code_lines_counts_nonblank_lines a b :
  let counts := count_code_lines a in
  fst counts + snd counts = Z.of_nat (nonblank_lines a)
  /\ 0 <= fst counts
  /\ 0 <= snd counts
  /\ count_code_lines (two_texts a b)
     = (fst counts + fst (count_code_lines b), snd counts + snd (count_code_lines b)).
Proof.
  cbn zeta. rewrite !count_code_lines_sum. cbn [fst snd]. unfold nonblank_lines, two_texts.
  rewrite split_app, !foldr_add_app.
  generalize (Py.split newline a). intros lines.
  split; [|split; [|split; [|reflexivity]]].
  - induction lines as [|line lines IH]; [reflexivity|].
    cbn [map foldr List.filter].
    destruct (line_counts_cases line) as [_ H].
    destruct (Py.truthy (Py.strip line)); cbn [length]; lia.
  - induction lines as [|line lines IH]; cbn [map foldr]; [lia|].
    destruct (line_counts_cases line) as [[H _] _]. lia.
  - induction lines as [|line lines IH]; cbn [map foldr]; [lia|].
    destruct (line_counts_cases line) as [[_ H] _]. lia.
Qed.

(** *** Integers written and read *)

Lemma string_of_uint_digits d :
  all_digits (DecimalString.NilEmpty.string_of_uint d) = true.
Proof. induction d; simpl; auto. Qed.

Lemma digits_value_from_uint d acc :
  digits_value_from (Z.pos acc) (DecimalString.NilEmpty.string_of_uint d)
  = Z.pos (Pos.of_uint_acc d acc).
Proof.
  revert acc. induction d; intros acc; cbn [DecimalString.NilEmpty.string_of_uint
                                             digits_value_from Pos.of_uint_acc];
    [reflexivity| | | | | | | | | |];
    match goal with
    | |- digits_value_from ?x _ = Z.pos (Pos.of_uint_acc _ ?a) =>
        replace x with (Z.pos a) by (unfold digit_value; cbn; lia)
    end; apply IHd.
Qed.

Lemma digits_value_uint d :
  digits_value (DecimalString.NilEmpty.string_of_uint d) = Z.of_uint d.
Proof.
  unfold digits_value, Z.of_uint.
  induction d; cbn [DecimalString.NilEmpty.string_of_uint digits_value_from Pos.of_uint];
    [reflexivity|exact IHd| | | | | | | | |];
    match goal with
    | |- digits_value_from ?x _ = Z.of_N (N.pos (Pos.of_uint_acc _ ?a)) =>
        change x with (Z.pos a)
    end; apply digits_value_from_uint.
Qed.

Lemma to_string_nonneg n :
  0 <= n ->
  all_digits (PyInt.to_string n) = true
  /\ PyInt.to_string n <> EmptyString
  /\ digits_value (PyInt.to_string n) = n.
Proof.
  intros H. unfold PyInt.to_string. destruct n as [|p|p]; [now repeat split| |lia].
  cbn [Z.to_int DecimalString.NilZero.string_of_int].
  pose proof (DecimalPos.Unsigned.to_uint_nonnil p) as Hnil.
  pose proof (DecimalZ.of_to (Z.pos p)) as Hof. cbn [Z.to_int Z.of_int] in Hof.
  destruct (Pos.to_uint p) as [| d| d| d| d| d| d| d| d| d| d] eqn:E;
    [congruence| | | | | | | | | |];
    unfold DecimalString.NilZero.string_of_uint;
    (split; [apply string_of_uint_digits|]);
    (split; [discriminate|]);
    rewrite digits_value_uint; exact Hof.
Qed.

Lemma to_string_negative p :
  PyInt.to_string (Z.neg p) = String "-" (PyInt.to_string (Z.pos p)).
Proof. reflexivity. Qed.

Lemma digits_numeric ds : all_digits ds = true -> all_chars numeric_char ds = true.
Proof.
  apply all_chars_weaken. intros c Hc. unfold numeric_char. now rewrite Hc.
Qed.

Lemma digits_no_space ds :
  all_digits ds = true -> all_chars (fun c => negb (Py.isspace c)) ds = true.
Proof.
  apply all_chars_weaken. intros c Hc.
  now rewrite (numeric_char_not_space c) by (unfold numeric_char; now rewrite Hc).
Qed.

Lemma of_string_digits ds :
  all_digits ds = true -> ds <> EmptyString ->
  PyInt.of_string ds = Some (digits_value ds)
  /\ PyInt.of_string (String "-" ds) = Some (- digits_value ds).
Proof.
  intros Hd Hne. pose proof (digits_numeric ds Hd) as Hn.
  assert (Hspan : span_digits ds = (ds, EmptyString)).
  { rewrite <- (append_empty_r ds) at 1. now apply span_digits_app. }
  split; unfold PyInt.of_string.
  - rewrite (strip_numeric ds Hn), (split_sign_numeric ds Hn).
    rewrite (drop_underscores_numeric None ds) by (discriminate || assumption).
    rewrite Hspan. destruct ds; [congruence|reflexivity].
  - assert (Hstrip : Py.strip (String "-" ds) = String "-" ds).
    { unfold Py.strip, Py.rstrip. cbn [Py.lstrip].
      change (Py.isspace "-") with false. cbv iota.
      apply rstrip_with_none. cbn [all_chars].
      change (Py.isspace "-") with false. cbn [negb andb].
      now apply digits_no_space. }
    rewrite Hstrip. cbn [split_sign]. change (Ascii.eqb "-" "-") with true. cbv iota.
    rewrite (drop_underscores_numeric None ds) by (discriminate || assumption).
    rewrite Hspan. destruct ds; [congruence|reflexivity].
Qed.

Lemma zeros_digits k :
  all_digits (string_of_list_ascii (repeat "0"%char k)) = true
  /\ digits_value_from 0 (string_of_list_ascii (repeat "0"%char k)) = 0.
Proof. induction k as [|k [IH1 IH2]]; [now split|]. split; [exact IH1|exact IH2]. Qed.

Lemma zfill_digits width ds :
  all_digits ds = true -> ds <> EmptyString ->
  all_digits (PyInt.zfill width ds) = true
  /\ PyInt.zfill width ds <> EmptyString
  /\ digits_value (PyInt.zfill width ds) = digits_value ds.
Proof.
  intros Hd Hne. unfold PyInt.zfill.
  destruct (zeros_digits (width - String.length ds)) as [Hz Hv].
  split; [|split].
  - unfold all_digits in *. now rewrite all_chars_app, Hz, Hd.
  - intros E. apply append_is_empty in E as [_ E]. congruence.
  - unfold digits_value. now rewrite digits_value_from_app, Hv.
Qed.

Lemma of_string_to_string n : PyInt.of_string (PyInt.to_string n) = Some n.
Proof.
  destruct n as [|p|p]; [reflexivity| |].
  - destruct (to_string_nonneg (Z.pos p)) as (Hd & Hne & Hv); [lia|].
    rewrite (proj1 (of_string_digits _ Hd Hne)). now rewrite Hv.
  - rewrite to_string_negative.
    destruct (to_string_nonneg (Z.pos p)) as (Hd & Hne & Hv); [lia|].
    rewrite (proj2 (of_string_digits _ Hd Hne)). now rewrite Hv.
Qed.

Lemma format_04d_shape n :
  exists ds,
    all_digits ds = true /\ ds <> EmptyString
    /\ PyInt.format_04d n = (if n <? 0 then String "-" ds else ds)
    /\ digits_value ds = Z.abs n.
Proof.
  unfold PyInt.format_04d. destruct (Z.ltb_spec n 0) as [Hn|Hn].
  - destruct (to_string_nonneg (- n)) as (Hd & Hne & Hv); [lia|].
    destruct (zfill_digits 3 _ Hd Hne) as (Hd' & Hne' & Hv').
    exists (PyInt.zfill 3 (PyInt.to_string (- n))).
    repeat split; try assumption. rewrite Hv', Hv. lia.
  - destruct (to_string_nonneg n Hn) as (Hd & Hne & Hv).
    destruct (zfill_digits 4 _ Hd Hne) as (Hd' & Hne' & Hv').
    exists (PyInt.zfill 4 (PyInt.to_string n)).
    repeat split; try assumption. rewrite Hv', Hv. lia.
Qed.

Lemma of_string_format_04d n : PyInt.of_string (PyInt.format_04d n) = Some n.
Proof.
  destruct (format_04d_shape n) as (ds & Hd & Hne & -> & Hv).
  destruct (of_string_digits ds Hd Hne) as [Hpos Hneg].
  destruct (Z.ltb_spec n 0); [rewrite Hneg|rewrite Hpos]; f_equal; lia.
Qed.

Lemma split_no_sep sep s :
  all_chars (fun c => negb (Ascii.eqb sep c)) s = true -> Py.split sep s = [s].
Proof.
  induction s as [|c s IH]; [reflexivity|]. cbn [all_chars Py.split].
  intros [Hc Hs]%andb_prop. apply negb_true_iff in Hc. rewrite Hc, (IH Hs).
  reflexivity.
Qed.

Lemma format_04d_no_underscore n :
  all_chars (fun c => negb (Ascii.eqb "_" c)) (PyInt.format_04d n) = true.
Proof.
  destruct (format_04d_shape n) as (ds & Hd & _ & -> & _).
  assert (H : all_chars (fun c => negb (Ascii.eqb "_" c)) ds = true).
  { revert Hd. apply all_chars_weaken. intros c. by_char c. }
  destruct (n <? 0); [cbn [all_chars]; now rewrite H|exact H].
Qed.

Lemma run_number_of_name n : run_number_of (run_directory_name n) = Some n.
Proof.
  unfold run_number_of, run_directory_name.
  change ("runthrough_" ++ PyInt.format_04d n)%string
    with ("runthrough" ++ String "_" (PyInt.format_04d n))%string.
  rewrite split_app, (split_no_sep "_" (PyInt.format_04d n))
    by apply format_04d_no_underscore.
  change (Py.split "_" "runthrough") with ["runthrough"]. cbn [app].
  apply of_string_format_04d.
Qed.

(** *** [get_next_run_number] *)

Lemma existing_runs_app l1 l2 :
  existing_runs (l1 ++ l2) = (existing_runs l1 ++ existing_runs l2)%list.
Proof. unfold existing_runs. now rewrite List.filter_app, map_app. Qed.

Lemma existing_runs_with n before after :
  existing_runs (with_directory (run_directory_name n) before after)
  = (existing_runs before ++ run_directory_name n :: existing_runs after)%list.
Proof.
  unfold with_directory. rewrite existing_runs_app. f_equal.
  change ((run_directory_name n, true) :: after)
    with ([(run_directory_name n, true)] ++ after)%list.
  rewrite existing_runs_app. f_equal.
  unfold existing_runs. cbn [List.filter fst snd].
  replace (Py.startswith (run_directory_name n) "runthrough_") with true;
    [reflexivity|].
  symmetry. unfold Py.startswith, run_directory_name.
  generalize (PyInt.format_04d n). intros s.
  repeat (rewrite ResponseFacts.prefix_cons;
          match goal with
          | |- context [Ascii.ascii_dec ?a ?a] =>
              destruct (Ascii.ascii_dec a a); [|congruence]
          end).
  apply ResponseFacts.prefix_empty.
Qed.

Lemma max_of_spec x xs :
  In (PyNum.max_of x xs) (x :: xs) /\ forall y, In y (x :: xs) -> y <= PyNum.max_of x xs.
Proof.
  destruct (AuditScoringFacts.fold_max xs x) as (Hin & Hle & Hall).
  unfold PyNum.max_of. split.
  - destruct Hin as [->|Hin]; [now left|now right].
  - intros y [<-|Hy]; [exact Hle|now apply Hall].
Qed.

Lemma next_run_number_cases output_dir :
  (existing_runs output_dir = [] /\ get_next_run_number output_dir = Some 1)
  \/ (exists k ks,
        existing_runs output_dir <> []
        /\ mapM run_number_of (existing_runs output_dir) = Some (k :: ks)
        /\ get_next_run_number output_dir = Some (PyNum.max_of k ks + 1))
  \/ (mapM run_number_of (existing_runs output_dir) = None
      /\ get_next_run_number output_dir = None).
Proof.
  unfold get_next_run_number.
  destruct (existing_runs output_dir) as [|r rs] eqn:E; [now left|right].
  destruct (mapM run_number_of (r :: rs)) as [[|k ks]|] eqn:M.
  - apply length_mapM in M. discriminate.
  - left. now exists k, ks.
  - now right.
Qed.

Lemma Forall2_In_l {A B} (P : A -> B -> Prop) l k x :
  Forall2 P l k -> In x l -> exists y, In y k /\ P x y.
Proof.
  induction 1 as [|a b l k Hab _ IH]; intros Hin; [contradiction|].
  destruct Hin as [->|Hin]; [exists b; split; [now left|exact Hab]|].
  destruct (IH Hin) as (y & Hy & Hxy). exists y. split; [now right|exact Hxy].
Qed.

(** X20.  The number that [get_next_run_number] returns is above the
    number of every run directory that exists, so that the directory
    [create_run_directory] names with it is not among them; the number is
    read back from that name; and once the directory is there, wherever it
    stands in the listing, the next number is one more. *)
Theorem next_run_number_is_new output_dir n :
  get_next_run_number output_dir = Some n ->
  (forall name,
     In name (existing_runs output_dir) ->
     exists k, run_number_of name = Some k /\ k < n)
  /\ ~ In (run_directory_name n) (existing_runs output_dir)
  /\ run_number_of (run_directory_name n) = Some n
  /\ forall before after,
       output_dir = (before ++ after)%list ->
       get_next_run_number (with_directory (run_directory_name n) before after)
       = Some (n + 1).
Proof.
  intros H.
  assert (Hbelow : forall name,
            In name (existing_runs output_dir) ->
            exists k, run_number_of name = Some k /\ k < n).
  { destruct (next_run_number_cases output_dir)
      as [[E _]|[(k & ks & _ & M & G)|[_ G]]]; [|  |congruence].
    - rewrite E. intros name [].
    - rewrite G in H. injection H as <-. intros name Hin.
      apply mapM_Some in M.
      destruct (Forall2_In_l _ _ _ name M Hin) as (j & Hj & Hk).
      exists j. split; [exact Hk|].
      pose proof (proj2 (max_of_spec k ks) j Hj). lia. }
  split; [exact Hbelow|]. split; [|split; [apply run_number_of_name|]].
  - intros Hin. destruct (Hbelow _ Hin) as (k & Hk & Hlt).
    rewrite run_number_of_name in Hk. injection Hk as <-. lia.
  - intros before after ->.
    assert (Hnew : exists ks1 ks2,
              mapM run_number_of (existing_runs (before ++ after))
              = Some (ks1 ++ ks2)%list
              /\ mapM run_number_of
                   (existing_runs (with_directory (run_directory_name n) before after))
                 = Some (ks1 ++ n :: ks2)%list
              /\ forall k, In k (ks1 ++ ks2)%list -> k < n).
    { destruct (mapM run_number_of (existing_runs (before ++ after))) as [ks|] eqn:M.
      - pose proof M as M'. apply mapM_Some in M'.
        rewrite existing_runs_app in M'.
        apply Forall2_app_inv_l in M' as (ks1 & ks2 & F1 & F2 & ->).
        exists ks1, ks2. split; [reflexivity|]. split.
        + rewrite existing_runs_with. apply mapM_Some.
          apply Forall2_app; [exact F1|].
          constructor; [apply run_number_of_name|exact F2].
        + intros k Hk.
          destruct (next_run_number_cases (before ++ after))
            as [[E _]|[(k0 & ks0 & _ & M0 & G)|[M0 _]]]; [| |congruence].
          * rewrite E in M. cbn in M. injection M as M.
            rewrite <- M in Hk. contradiction.
          * rewrite M in M0. injection M0 as M0. rewrite G in H.
            injection H as <-. rewrite M0 in Hk.
            pose proof (proj2 (max_of_spec k0 ks0) k Hk). lia.
      - destruct (next_run_number_cases (before ++ after))
          as [[E _]|[(k0 & ks0 & _ & M0 & _)|[_ G]]]; [| |congruence].
        + rewrite E in M. discriminate.
        + congruence. }
    destruct Hnew as (ks1 & ks2 & _ & M & Hlt).
    destruct (next_run_number_cases (with_directory (run_directory_name n) before after))
      as [[E _]|[(x & xs & _ & M' & G)|[M' _]]]; [| |congruence].
    { rewrite existing_runs_with in E. now destruct (existing_runs before). }
    rewrite G. f_equal. f_equal.
    rewrite M in M'. injection M' as Ex.
    destruct (max_of_spec x xs) as [Hin Hmax]. rewrite <- Ex in Hin, Hmax.
    assert (Hn : n <= PyNum.max_of x xs).
    { apply Hmax. apply in_or_app. right. now left. }
    apply in_app_or in Hin as [Hin|[Hin|Hin]]; [|lia|].
    + specialize (Hlt _ (in_or_app _ _ _ (or_introl Hin))). lia.
    + specialize (Hlt _ (in_or_app _ _ _ (or_intror Hin))). lia.
Qed.

Lemma next_run_number_is_new_witness :
  (forall name,
     In name (existing_runs [("runthrough_0001", true); ("notes.txt", false)]) ->
     exists k, run_number_of name = Some k /\ k < 2)
  /\ ~ In (run_directory_name 2)
          (existing_runs [("runthrough_0001", true); ("notes.txt", false)])
  /\ run_number_of (run_directory_name 2) = Some 2
  /\ forall before after,
       [("runthrough_0001", true); ("notes.txt", false)] = (before ++ after)%list ->
       get_next_run_number (with_directory (run_directory_name 2) before after)
       = Some (2 + 1).
Proof.
  apply (next_run_number_is_new [("runthrough_0001", true); ("notes.txt", false)] 2).
  reflexivity.
Defined.

(** X21.  [get_next_run_number] raises exactly when the name of some run
    directory that exists has no number after its first underscore. *)
Theorem next_run_number_raises output_dir :
  get_next_run_number output_dir = None
  <-> exists name, In name (existing_runs output_dir) /\ run_number_of name = None.
Proof.
  split.
  - intros H.
    destruct (next_run_number_cases output_dir)
      as [[_ G]|[(k & ks & _ & _ & G)|[M _]]]; [congruence|congruence|].
    destruct (decide (Forall (is_Some ∘ run_number_of) (existing_runs output_dir)))
      as [F|F].
    + apply mapM_is_Some in F. rewrite M in F. destruct F as [? F]. discriminate.
    + apply not_Forall_Exists in F; [|intros x; apply _].
      apply Exists_exists in F as (name & Hin & Hname).
      exists name. split; [apply list_elem_of_In, Hin|].
      cbn in Hname. destruct (run_number_of name); [|reflexivity].
      exfalso. apply Hname. now eexists.
  - intros (name & Hin & Hname).
    destruct (next_run_number_cases output_dir)
      as [[E _]|[(k & ks & _ & M & _)|[_ G]]]; [| |exact G].
    + rewrite E in Hin. contradiction.
    + apply mapM_Some in M.
      destruct (Forall2_In_l _ _ _ name M Hin) as (j & _ & Hj). congruence.
Qed.

End RunFacts.

(** ** Numbers and sanitized texts *)

Module TextFacts.
Import PyFloat Spec Props Auditor RunTest.
Import PyFloatFacts AuditorFacts AIAuditorNumFacts.

Local Open Scope Q_scope.

(** *** A score written as an integer *)

Lemma keep_app f s t : Py.keep f (s ++ t) = (Py.keep f s ++ Py.keep f t)%string.
Proof.
  induction s as [|c s IH]; [reflexivity|].
  change (Py.keep f (String c (s ++ t)) = (Py.keep f (String c s) ++ Py.keep f t)%string).
  cbn [Py.keep]. destruct (f c); [|exact IH].
  change (String c (Py.keep f (s ++ t)) = String c (Py.keep f s ++ Py.keep f t)).
  now rewrite IH.
Qed.

Lemma keep_none f s :
  all_chars (fun c => negb (f c)) s = true -> Py.keep f s = EmptyString.
Proof.
  induction s as [|c s IH]; [reflexivity|]. cbn [all_chars Py.keep].
  intros [Hc Hs]%andb_prop. apply negb_true_iff in Hc. rewrite Hc. auto.
Qed.

Lemma keep_all f s : all_chars f s = true -> Py.keep f s = s.
Proof.
  induction s as [|c s IH]; [reflexivity|]. cbn [all_chars Py.keep].
  intros [Hc Hs]%andb_prop. rewrite Hc. now rewrite (IH Hs).
Qed.

Lemma clamp_Z n :
  (0 <= n)%Z -> clamp (inject_Z n) == inject_Z (Z.min n 100).
Proof.
  intros Hn. unfold clamp.
  destruct (Z.le_gt_cases n 100) as [H|H].
  - rewrite Z.min_l by exact H.
    rewrite (Q.min_r 100 (inject_Z n))
      by (change 100 with (inject_Z 100); now rewrite <- Zle_Qle).
    apply Q.max_r. change 0 with (inject_Z 0). now rewrite <- Zle_Qle.
  - rewrite Z.min_r by lia.
    rewrite (Q.min_l 100 (inject_Z n))
      by (change 100 with (inject_Z 100); rewrite <- Zle_Qle; lia).
    apply Q.max_r. discriminate.
Qed.

Lemma clamp_comp x y : x == y -> clamp x == clamp y.
Proof. intros E. unfold clamp. now rewrite E. Qed.

(** X22.  A score written as a whole number is read back by
    [ai_auditor_num.py]: for an answer that holds the decimal digits of a
    number that is not negative, and around them no digit and no point,
    [_parse_numerical_value] returns that number, or 100 when it is larger,
    and [get_score_for_value] makes of it the same integer. *)
Theorem whole_number_round_trip field before after n :
  (0 <= n)%Z ->
  all_chars (fun c => negb (numeric_char c)) before = true ->
  all_chars (fun c => negb (numeric_char c)) after = true ->
  let answer := (before ++ PyInt.to_string n ++ after)%string in
  (exists q,
     AIAuditorNum._parse_numerical_value answer = Some (Fin q)
     /\ q == inject_Z (Z.min n 100))
  /\ get_score_for_value field (of_option (AIAuditorNum._parse_numerical_value answer))
     = Some (Z.min n 100).
Proof.
  intros Hn Hb Ha answer.
  destruct (RunFacts.to_string_nonneg n Hn) as (Hd & Hne & Hv).
  assert (Hclean : Py.keep numeric_char answer = PyInt.to_string n).
  { unfold answer.
    rewrite !keep_app, (keep_none _ _ Hb), (keep_none _ _ Ha).
    rewrite (keep_all _ _ (RunFacts.digits_numeric _ Hd)).
    apply append_empty_r. }
  assert (Hlit : decimal_literal (PyInt.to_string n) (inject_Z n)).
  { exists (PyInt.to_string n), EmptyString.
    split; [exact Hd|]. split; [reflexivity|].
    split; [now rewrite append_empty_r|]. split; [now left|].
    unfold decimal_value. rewrite Hv.
    change (inject_Z (digits_value "") / inject_Z (10 ^ Z.of_nat (String.length "")))
      with (0 / 1).
    unfold Qdiv. ring. }
  destruct (parse_decimal_literal _ _ Hlit) as (q0 & Hq0 & Eq0).
  assert (Hparse : exists q,
            AIAuditorNum._parse_numerical_value answer = Some (Fin q)
            /\ q == inject_Z (Z.min n 100)).
  { rewrite parse_numerical_value_unfold, Hclean.
    destruct (PyInt.to_string n) as [|c s] eqn:E; [congruence|].
    rewrite Hq0. destruct (clamp_finite q0) as (q & -> & Eq).
    exists q. split; [reflexivity|].
    now rewrite Eq, (clamp_comp _ _ Eq0), (clamp_Z n Hn). }
  split; [exact Hparse|].
  destruct Hparse as (q & -> & Eq). cbn [of_option get_score_for_value].
  rewrite ResponseFacts.of_float_floor.
  - f_equal. rewrite (Qfloor_comp _ _ Eq). apply Qfloor_Z.
  - rewrite Eq. change 0 with (inject_Z 0). rewrite <- Zle_Qle. lia.
Qed.

Lemma whole_number_round_trip_witness :
  let answer := ("about " ++ PyInt.to_string 85 ++ "%")%string in
  (exists q,
     AIAuditorNum._parse_numerical_value answer = Some (Fin q)
     /\ q == inject_Z (Z.min 85 100))
  /\ get_score_for_value "efficiency"
       (of_option (AIAuditorNum._parse_numerical_value answer))
     = Some (Z.min 85 100).
Proof.
  apply (whole_number_round_trip "efficiency" "about " "%" 85).
  - lia.
  - reflexivity.
  - reflexivity.
Defined.

(** *** Sanitized texts *)

Lemma remove_char_all_chars P c s :
  all_chars P s = true -> all_chars P (Py.remove_char c s) = true.
Proof.
  induction s as [|d s IH]; [reflexivity|]. cbn [all_chars Py.remove_char].
  intros [Hd Hs]%andb_prop. destruct (Ascii.eqb c d); [auto|].
  cbn [all_chars]. now rewrite Hd, (IH Hs).
Qed.

Lemma remove_char_lacks c s :
  all_chars (fun d => negb (Ascii.eqb c d)) (Py.remove_char c s) = true.
Proof.
  induction s as [|d s IH]; [reflexivity|]. cbn [Py.remove_char].
  destruct (Ascii.eqb c d) eqn:E; [exact IH|]. cbn [all_chars]. now rewrite E, IH.
Qed.

Lemma remove_char_none c s :
  all_chars (fun d => negb (Ascii.eqb c d)) s = true -> Py.remove_char c s = s.
Proof.
  induction s as [|d s IH]; [reflexivity|]. cbn [all_chars Py.remove_char].
  intros [Hd Hs]%andb_prop. apply negb_true_iff in Hd. rewrite Hd. now rewrite (IH Hs).
Qed.

Lemma rstrip_with_all_chars P f s :
  all_chars P s = true -> all_chars P (Py.rstrip_with f s) = true.
Proof.
  induction s as [|c s IH]; [reflexivity|]. cbn [all_chars Py.rstrip_with].
  intros [Hc Hs]%andb_prop. specialize (IH Hs).
  destruct (Py.rstrip_with f s) as [|d r].
  - destruct (f c); [reflexivity|]. cbn [all_chars]. now rewrite Hc.
  - cbn [all_chars] in *. now rewrite Hc, IH.
Qed.

Lemma rstrip_with_idem f s :
  Py.rstrip_with f (Py.rstrip_with f s) = Py.rstrip_with f s.
Proof.
  induction s as [|c s IH]; [reflexivity|]. cbn [Py.rstrip_with].
  destruct (Py.rstrip_with f s) as [|d r] eqn:E.
  - destruct (f c) eqn:Ec; [reflexivity|]. cbn [Py.rstrip_with]. now rewrite Ec.
  - change (Py.rstrip_with f (String c (String d r)))
      with (match Py.rstrip_with f (String d r) with
            | EmptyString => if f c then EmptyString else String c EmptyString
            | r' => String c r'
            end).
    now rewrite IH.
Qed.

Lemma sanitize_text_idem text : sanitize_text (sanitize_text text) = sanitize_text text.
Proof.
  remember (sanitize_text text) as r eqn:R.
  unfold sanitize_text in R. cbn zeta in R.
  set (cleaned := Py.remove_char "]" (Py.remove_char "["
                    (Py.remove_char "'" (Py.remove_char double_quote text)))) in R.
  set (stripped := Py.rstrip_char "." cleaned) in R.
  destruct (bool_decide (Py.lower (Py.strip stripped)
                         ∈ ["na"; "n/a"; "not applicable"; "not available"])) eqn:E;
    subst r; [vm_compute; reflexivity|].
  assert (H1 : all_chars (fun d => negb (Ascii.eqb double_quote d)) stripped = true).
  { apply rstrip_with_all_chars. unfold cleaned.
    do 3 apply remove_char_all_chars. apply remove_char_lacks. }
  assert (H2 : all_chars (fun d => negb (Ascii.eqb "'" d)) stripped = true).
  { apply rstrip_with_all_chars. unfold cleaned.
    do 2 apply remove_char_all_chars. apply remove_char_lacks. }
  assert (H3 : all_chars (fun d => negb (Ascii.eqb "[" d)) stripped = true).
  { apply rstrip_with_all_chars. unfold cleaned.
    apply remove_char_all_chars. apply remove_char_lacks. }
  assert (H4 : all_chars (fun d => negb (Ascii.eqb "]" d)) stripped = true).
  { apply rstrip_with_all_chars. unfold cleaned. apply remove_char_lacks. }
  unfold sanitize_text.
  rewrite (remove_char_none _ _ H1), (remove_char_none _ _ H2),
    (remove_char_none _ _ H3), (remove_char_none _ _ H4).
  assert (Hs : Py.rstrip_char "." stripped = stripped)
    by (unfold stripped, Py.rstrip_char; apply rstrip_with_idem).
  rewrite Hs, E. reflexivity.
Qed.

Lemma append_assoc (a b c : string) : ((a ++ b) ++ c = a ++ (b ++ c))%string.
Proof.
  induction a as [|x a IH]; [reflexivity|].
  change (String x ((a ++ b) ++ c) = String x (a ++ (b ++ c))). now rewrite IH.
Qed.

Lemma split_ws_aux_words P cur s :
  all_chars P s = true ->
  (forall w, cur = Some w -> word P w) ->
  Forall (word P) (Py.split_ws_aux cur s).
Proof.
  revert cur. induction s as [|c s IH]; intros cur Hs Hcur.
  - cbn [Py.split_ws_aux]. destruct cur as [w|]; [|constructor].
    constructor; [now apply Hcur|constructor].
  - cbn [all_chars] in Hs. apply andb_prop in Hs as [Hc Hs].
    cbn [Py.split_ws_aux]. destruct (Py.isspace c) eqn:Ec.
    + destruct cur as [w|].
      * constructor; [now apply Hcur|]. apply IH; [exact Hs|discriminate].
      * apply IH; [exact Hs|discriminate].
    + apply IH; [exact Hs|]. intros w [= <-].
      destruct cur as [w|].
      * destruct (Hcur w eq_refl) as (Hne & Hw1 & Hw2). split; [|split].
        -- intros E. apply append_is_empty in E as [_ E]. discriminate.
        -- rewrite all_chars_app, Hw1. cbn [all_chars]. now rewrite Ec.
        -- rewrite all_chars_app, Hw2. cbn [all_chars]. now rewrite Hc.
      * split; [discriminate|]. cbn [all_chars]. now rewrite Ec, Hc.
Qed.

Lemma split_ws_aux_word cur w rest :
  w <> EmptyString ->
  all_chars (fun c => negb (Py.isspace c)) w = true ->
  Py.split_ws_aux cur (w ++ rest)
  = Py.split_ws_aux (Some (default EmptyString cur ++ w)%string) rest.
Proof.
  revert cur. induction w as [|c w IH]; intros cur Hne Hw; [congruence|].
  cbn [all_chars] in Hw. apply andb_prop in Hw as [Hc Hw].
  apply negb_true_iff in Hc.
  change (Py.split_ws_aux cur (String c (w ++ rest))
          = Py.split_ws_aux (Some (default EmptyString cur ++ String c w)%string) rest).
  cbn [Py.split_ws_aux]. rewrite Hc.
  assert (E : match cur with
              | Some w0 => (w0 ++ String c EmptyString)%string
              | None => String c EmptyString
              end = (default EmptyString cur ++ String c EmptyString)%string)
    by (now destruct cur).
  rewrite E. destruct w as [|d w].
  - reflexivity.
  - rewrite IH by (discriminate || exact Hw). cbn [default from_option id].
    now rewrite append_assoc.
Qed.

Lemma split_ws_two P w1 w2 :
  word P w1 -> word P w2 ->
  Py.split_ws (Py.join " " [w1; w2]) = [w1; w2].
Proof.
  intros (Hne1 & Hw1 & _) (Hne2 & Hw2 & _). unfold Py.split_ws, Py.join.
  change (String.concat " " [w1; w2]) with (w1 ++ String " " w2)%string.
  rewrite (split_ws_aux_word None w1 _ Hne1 Hw1). cbn [default from_option id].
  change (EmptyString ++ w1)%string with w1.
  cbn [Py.split_ws_aux]. change (Py.isspace " ") with true. cbv iota.
  rewrite <- (append_empty_r w2) at 1.
  rewrite (split_ws_aux_word None w2 _ Hne2 Hw2). reflexivity.
Qed.

Lemma domain_char_cleaned text :
  all_chars domain_char
    (Py.remove_char "," (Py.remove_char double_quote (Py.remove_char "'"
       (Py.remove_char ")" (Py.remove_char "(" text))))) = true.
Proof.
  set (cleaned := Py.remove_char "," _).
  assert (H1 : all_chars (fun d => negb (Ascii.eqb "(" d)) cleaned = true)
    by (unfold cleaned; do 4 apply remove_char_all_chars; apply remove_char_lacks).
  assert (H2 : all_chars (fun d => negb (Ascii.eqb ")" d)) cleaned = true)
    by (unfold cleaned; do 3 apply remove_char_all_chars; apply remove_char_lacks).
  assert (H3 : all_chars (fun d => negb (Ascii.eqb "'" d)) cleaned = true)
    by (unfold cleaned; do 2 apply remove_char_all_chars; apply remove_char_lacks).
  assert (H4 : all_chars (fun d => negb (Ascii.eqb double_quote d)) cleaned = true)
    by (unfold cleaned; apply remove_char_all_chars; apply remove_char_lacks).
  assert (H5 : all_chars (fun d => negb (Ascii.eqb "," d)) cleaned = true)
    by (unfold cleaned; apply remove_char_lacks).
  clearbody cleaned. induction cleaned as [|c s IH]; [reflexivity|].
  cbn [all_chars] in *.
  apply andb_prop in H1 as [A1 H1]. apply andb_prop in H2 as [A2 H2].
  apply andb_prop in H3 as [A3 H3]. apply andb_prop in H4 as [A4 H4].
  apply andb_prop in H5 as [A5 H5].
  unfold domain_char at 1. rewrite A1, A2, A3, A4, A5. cbn [andb]. now apply IH.
Qed.

Lemma domain_char_fixed s :
  all_chars domain_char s = true ->
  Py.remove_char "," (Py.remove_char double_quote (Py.remove_char "'"
    (Py.remove_char ")" (Py.remove_char "(" s)))) = s.
Proof.
  intros H.
  assert (Hc : forall c, domain_char c = true ->
             negb (Ascii.eqb "(" c) = true /\ negb (Ascii.eqb ")" c) = true
             /\ negb (Ascii.eqb "'" c) = true
             /\ negb (Ascii.eqb double_quote c) = true
             /\ negb (Ascii.eqb "," c) = true).
  { intros c. unfold domain_char.
    intros [[[[A1 A2]%andb_prop A3]%andb_prop A4]%andb_prop A5]%andb_prop. tauto. }
  rewrite (remove_char_none "(" s)
    by (revert H; apply all_chars_weaken; intros c Hd; apply (Hc c Hd)).
  rewrite (remove_char_none ")" s)
    by (revert H; apply all_chars_weaken; intros c Hd; apply (Hc c Hd)).
  rewrite (remove_char_none "'" s)
    by (revert H; apply all_chars_weaken; intros c Hd; apply (Hc c Hd)).
  rewrite (remove_char_none double_quote s)
    by (revert H; apply all_chars_weaken; intros c Hd; apply (Hc c Hd)).
  apply remove_char_none. revert H. apply all_chars_weaken. intros c Hd. apply (Hc c Hd).
Qed.

Lemma sanitize_domain_cases text :
  all_chars domain_char (sanitize_domain text) = true
  /\ (length (Py.split_ws (sanitize_domain text)) <= 2)%nat.
Proof.
  unfold sanitize_domain. cbn zeta.
  pose proof (domain_char_cleaned text) as Hc.
  set (cleaned := Py.remove_char "," _) in *.
  pose proof (split_ws_aux_words domain_char None cleaned Hc
                ltac:(discriminate)) as Hw.
  fold (Py.split_ws cleaned) in Hw.
  destruct (Nat.ltb_spec 2 (length (Py.split_ws cleaned))) as [Hlen|Hlen];
    [|split; [exact Hc|exact Hlen]].
  destruct (Py.split_ws cleaned) as [|w1 [|w2 ws]]; cbn [length] in Hlen; try lia.
  inversion Hw as [|? ? Hw1 Hw']; subst. inversion Hw' as [|? ? Hw2 _]; subst.
  change (take 2 (w1 :: w2 :: ws)) with [w1; w2].
  rewrite (split_ws_two domain_char w1 w2 Hw1 Hw2).
  split; [|cbn; lia].
  unfold Py.join. change (String.concat " " [w1; w2]) with (w1 ++ String " " w2)%string.
  destruct Hw1 as (_ & _ & H1). destruct Hw2 as (_ & _ & H2).
  rewrite all_chars_app, H1. cbn [all_chars andb]. now rewrite H2.
Qed.

(** X23.  Sanitizing twice is sanitizing once, for [sanitize_text] and for
    [sanitize_domain]; and a sanitized domain has at most two words and
    none of the characters that [sanitize_domain] removes. *)
Theorem sanitizers_are_idempotent text :
  sanitize_text (sanitize_text text) = sanitize_text text
  /\ sanitize_domain (sanitize_domain text) = sanitize_domain text
  /\ (length (Py.split_ws (sanitize_domain text)) <= 2)%nat
  /\ all_chars domain_char (sanitize_domain text) = true.
Proof.
  split; [apply sanitize_text_idem|].
  destruct (sanitize_domain_cases text) as [Hc Hlen].
  split; [|split; [exact Hlen|exact Hc]].
  revert Hc Hlen. generalize (sanitize_domain text). intros r Hc Hlen.
  unfold sanitize_domain. cbn zeta. rewrite (domain_char_fixed r Hc).
  apply Nat.ltb_ge in Hlen. now rewrite Hlen.
Qed.

(** *** [parse_time_to_fix] *)

Lemma search_number_literal text number :
  search_number text = Some number -> exists v, decimal_literal number v.
Proof.
  induction text as [|c s IH]; [discriminate|].
  cbn [search_number]. destruct (Py.isdigit c) eqn:Ec; [|exact IH]. clear IH.
  pose proof (span_digits_spec (String c s)) as (_ & Hint & _).
  assert (Hne : fst (span_digits (String c s)) <> EmptyString).
  { cbn [span_digits]. rewrite Ec. destruct (span_digits s). discriminate. }
  destruct (span_digits (String c s)) as [int_part rest]. cbn [fst] in Hint, Hne.
  assert (Hwhole : exists v, decimal_literal int_part v).
  { exists (decimal_value int_part EmptyString), int_part, EmptyString.
    split; [exact Hint|]. split; [reflexivity|].
    split; [now rewrite append_empty_r|]. split; [now left|reflexivity]. }
  destruct (after_point rest) as [r|]; [|now intros [= <-]].
  pose proof (span_digits_spec r) as (_ & Hfrac & _).
  destruct (span_digits r) as [[|d ds] rest']; [now intros [= <-]|].
  cbn [fst] in Hfrac. intros [= <-].
  exists (decimal_value int_part (String d ds)), int_part, (String d ds).
  split; [exact Hint|]. split; [exact Hfrac|]. split.
  - intros E. apply append_is_empty in E as [E _]. congruence.
  - split; [now right|reflexivity].
Qed.

Lemma search_number_None text :
  search_number text = None <-> all_chars (fun c => negb (Py.isdigit c)) text = true.
Proof.
  induction text as [|c s IH]; [now split|].
  cbn [search_number all_chars]. destruct (Py.isdigit c) eqn:Ec; cbn [negb andb].
  - split; [|discriminate].
    destruct (span_digits (String c s)) as [int_part rest].
    destruct (after_point rest) as [r|]; [|discriminate].
    destruct (span_digits r) as [[|d ds] rest']; discriminate.
  - exact IH.
Qed.

(** X24.  In [parse_time_to_fix], the number that the regular expression
    finds is always a decimal literal, so that the conversion in the
    handler of [ValueError] does not raise: it gives a number that is not
    negative.  The result is [None] exactly for the texts that stand for no
    answer and for the texts that are no number and hold no digit. *)
Theorem parse_time_to_fix_fallback text :
  (forall number,
     search_number text = Some number ->
     exists x, float number = Some x /\ x <> NaN /\ lt x (Fin 0) = false)
  /\ (AIAuditor.parse_time_to_fix text = VNone
      <-> Py.lower (Py.strip text)
            ∈ ["na"; "n/a"; "not applicable"; "not available"; "none"]
          \/ (float text = None
              /\ all_chars (fun c => negb (Py.isdigit c)) text = true)).
Proof.
  assert (Hnum : forall number,
            search_number text = Some number ->
            exists x, float number = Some x /\ x <> NaN /\ lt x (Fin 0) = false).
  { intros number H. destruct (search_number_literal _ _ H) as (v & Hv).
    rewrite (float_numeric _ (decimal_literal_numeric _ _ Hv)).
    destruct (parse_decimal_literal _ _ Hv) as (q & Hq & _).
    rewrite Hq. exists (Fin q). split; [reflexivity|]. split; [discriminate|].
    cbn [lt]. apply AIAuditorNumFacts.gt_false.
    exact (parse_decimal_nonneg _ _ Hq). }
  split; [exact Hnum|].
  unfold AIAuditor.parse_time_to_fix.
  destruct (bool_decide (Py.lower (Py.strip text)
                         ∈ ["na"; "n/a"; "not applicable"; "not available"; "none"]))
    eqn:E.
  - apply bool_decide_eq_true in E. split; [now left|reflexivity].
  - apply bool_decide_eq_false in E.
    destruct (float text) as [x|]; [split; [discriminate|]; intros [H|[H _]];
                                    [contradiction|discriminate]|].
    destruct (search_number text) as [number|] eqn:S.
    + destruct (Hnum number eq_refl) as (x & -> & _). cbn [of_option].
      split; [discriminate|]. intros [H|[_ H]]; [contradiction|].
      apply search_number_None in H. congruence.
    + split; [|reflexivity]. intros _. right. split; [reflexivity|].
      now apply search_number_None.
Qed.

End TextFacts.

(** ** Properties of the binary64 arithmetic *)

Module Binary64Facts.
Import PyFloat Binary64 Spec64.

Local Open Scope Q_scope.

(** *** Rounding *)



Lemma threshold_pos : (0 < overflow_threshold)%Z.
Proof. reflexivity. Qed.

Lemma round_below q :
  Qabs q < inject_Z overflow_threshold -> round q = Fin (nearest (Qred q)).
Proof.
  intros H. unfold round. cbn zeta.
  destruct (Qle_bool (inject_Z overflow_threshold) (Qabs (Qred q))) eqn:E;
    [|reflexivity].
  apply Qle_bool_iff in E. rewrite (Qred_correct q) in E.
  exfalso. exact (Qlt_not_le _ _ H E).
Qed.

Lemma round_above q :
  inject_Z overflow_threshold <= Qabs q -> round q = Inf (negb (Qle_bool 0 (Qred q))).
Proof.
  intros H. unfold round. cbn zeta.
  destruct (Qle_bool (inject_Z overflow_threshold) (Qabs (Qred q))) eqn:E;
    [reflexivity|].
  assert (E' : Qle_bool (inject_Z overflow_threshold) (Qabs (Qred q)) = true).
  { apply Qle_bool_iff. rewrite (Qred_correct q). exact H. }
  congruence.
Qed.

Lemma round_cases q :
  (Qabs q < inject_Z overflow_threshold /\ round q = Fin (nearest (Qred q)))
  \/ (inject_Z overflow_threshold <= Qabs q
      /\ round q = Inf (negb (Qle_bool 0 (Qred q)))).
Proof.
  destruct (Qlt_le_dec (Qabs q) (inject_Z overflow_threshold)) as [H|H].
  - left. split; [exact H | apply round_below, H].
  - right. split; [exact H | apply round_above, H].
Qed.

Lemma Qabs_inject_Z n : Qabs (inject_Z n) = inject_Z (Z.abs n).
Proof. reflexivity. Qed.

(** An integer converts unless it is too large. *)
Lemma of_int_Some n :
  is_Some (of_int n) <-> (Z.abs n < overflow_threshold)%Z.
Proof.
  unfold of_int.
  destruct (round_cases (inject_Z n)) as [[H ->]|[H ->]];
    rewrite Qabs_inject_Z in H.
  - rewrite <- Zlt_Qlt in H. split; [intros _; exact H | intros _; eauto].
  - rewrite <- Zle_Qle in H. split; [intros [x Hx]; discriminate | lia].
Qed.

Lemma of_int_float_of n :
  is_Some (of_int n) -> of_int n = Some (float_of n).
Proof.
  intros [x Hx]. unfold of_int, float_of in *.
  destruct (round (inject_Z n)); congruence.
Qed.

Lemma of_int_finite n :
  is_Some (of_int n) -> exists a, float_of n = Fin a.
Proof.
  intros H. apply of_int_Some in H. unfold float_of.
  rewrite round_below; [eauto|].
  rewrite Qabs_inject_Z, <- Zlt_Qlt. exact H.
Qed.

Lemma pow2_pos e : 0 < pow2 e.
Proof. apply Qpower_0_lt. reflexivity. Qed.

Lemma pow2_le a b : (a <= b)%Z -> pow2 a <= pow2 b.
Proof. intros H. apply Qpower_le_compat_l; [exact H | discriminate]. Qed.

Lemma round_half_even_floor x : (Qfloor x <= PyNum.round_half_even x)%Z.
Proof.
  unfold PyNum.round_half_even. cbn zeta.
  destruct (Qcompare (x - inject_Z (Qfloor x)) (1 # 2)); [|lia|lia].
  destruct (Z.even (Qfloor x)); lia.
Qed.

Lemma round_half_even_ge n x :
  inject_Z n <= x -> (n <= PyNum.round_half_even x)%Z.
Proof.
  intros H. apply Qfloor_resp_le in H. rewrite Qfloor_Z in H.
  pose proof (round_half_even_floor x). lia.
Qed.

Lemma nearest_nonneg q : 0 <= q -> 0 <= nearest q.
Proof.
  intros H. unfold nearest. cbn zeta. rewrite Qred_correct.
  apply Qmult_le_0_compat; [|apply Qlt_le_weak, pow2_pos].
  change 0 with (inject_Z 0). rewrite <- Zle_Qle.
  apply round_half_even_ge. change (inject_Z 0) with 0.
  apply Qle_shift_div_l; [apply pow2_pos|]. rewrite Qmult_0_l. exact H.
Qed.

(** The exponent found is not too large. *)
Lemma ilog2_le q : ~ q == 0 -> pow2 (ilog2 q) <= Qabs q.
Proof.
  intros Hq. unfold ilog2. cbn zeta.
  set (n := Z.abs (Qnum q)). set (d := Z.pos (Qden q)).
  destruct (Qle_bool (pow2 (Z.log2 n - Z.log2 d)) (Qabs q)) eqn:E;
    [apply Qle_bool_iff, E|].
  clear E.
  assert (Hn : (0 < n)%Z).
  { subst n. destruct q as [[|p|p] dq]; [|reflexivity|reflexivity].
    exfalso. apply Hq. reflexivity. }
  assert (Hd : (0 < d)%Z) by reflexivity.
  destruct (Z.log2_spec n Hn) as [Ha _].
  destruct (Z.log2_spec d Hd) as [_ Hb].
  pose proof (Z.log2_nonneg n) as Hna. pose proof (Z.log2_nonneg d) as Hnb.
  replace (Z.log2 n - Z.log2 d - 1)%Z with (Z.log2 n - Z.succ (Z.log2 d))%Z by lia.
  unfold pow2. rewrite Qpower_minus by discriminate.
  rewrite <- (Zpower_Qpower 2 (Z.log2 n)) by exact Hna.
  rewrite <- (Zpower_Qpower 2 (Z.succ (Z.log2 d))) by lia.
  revert Ha Hb.
  generalize (2 ^ Z.log2 n)%Z, (2 ^ Z.succ (Z.log2 d))%Z. intros A B Ha Hb.
  apply Qle_shift_div_r.
  - change 0 with (inject_Z 0). rewrite <- Zlt_Qlt. lia.
  - destruct q as [qn qd]. unfold Qabs, Qle, Qmult, inject_Z. cbn [Qnum Qden].
    subst n d. cbn [Qnum Qden] in *. nia.
Qed.

(** A number from [2^-1074] on is not rounded to 0. *)
Lemma nearest_pos q : pow2 (-1074) <= q -> 0 < nearest q.
Proof.
  intros H.
  assert (Hq : 0 < q) by exact (Qlt_le_trans _ _ _ (pow2_pos _) H).
  assert (Hk : pow2 (quantum q) <= q).
  { unfold quantum.
    destruct (Z.max_spec (ilog2 q) (-1022)) as [[Hlt ->]|[Hle ->]].
    - exact H.
    - apply (Qle_trans _ (pow2 (ilog2 q))); [apply pow2_le; lia|].
      apply (Qle_trans _ (Qabs q)).
      + apply ilog2_le. intros E. rewrite E in Hq. exact (Qlt_irrefl _ Hq).
      + rewrite Qabs_pos by (apply Qlt_le_weak, Hq). apply Qle_refl. }
  unfold nearest. cbn zeta. rewrite Qred_correct.
  apply Qmult_lt_0_compat; [|apply pow2_pos].
  change 0 with (inject_Z 0). rewrite <- Zlt_Qlt.
  assert (1 <= PyNum.round_half_even (q / pow2 (quantum q)))%Z; [|lia].
  apply round_half_even_ge. change (inject_Z 1) with 1.
  apply Qle_shift_div_l; [apply pow2_pos|]. rewrite Qmult_1_l. exact Hk.
Qed.

Lemma round_nonneg q : 0 <= q -> nonneg (round q).
Proof.
  intros H.
  destruct (round_cases q) as [[_ ->]|[_ ->]]; simpl.
  - apply nearest_nonneg. rewrite Qred_correct. exact H.
  - assert (E : Qle_bool 0 (Qred q) = true)
      by (apply Qle_bool_iff; rewrite Qred_correct; exact H).
    rewrite E. reflexivity.
Qed.

Lemma round_positive q :
  1 <= q -> Qabs q < inject_Z overflow_threshold -> positive (round q).
Proof.
  intros H Hb. rewrite (round_below q Hb). simpl.
  apply nearest_pos. rewrite Qred_correct.
  apply (Qle_trans _ 1); [|exact H].
  change 1 with (pow2 0). apply pow2_le. lia.
Qed.



(** *** The order *)





Lemma gt_zero_positive a : gt (Fin a) (Fin 0) = true -> positive (Fin a).
Proof. unfold gt. simpl. apply AIAuditorNumFacts.gt_true. Qed.

Lemma positive_nonneg x : positive x -> nonneg x.
Proof. destruct x as [a|[]|]; simpl; try contradiction. apply Qlt_le_weak. Qed.

Lemma positive_gt_zero x : positive x -> gt x (Fin 0) = true.
Proof.
  unfold gt. destruct x as [a|[]|]; simpl; try congruence; try contradiction.
  apply AIAuditorNumFacts.gt_true.
Qed.

(** *** The operations on numbers that are not negative *)

Lemma add_nonneg x y : nonneg x -> nonneg y -> nonneg (add x y).
Proof.
  destruct x as [a|[]|], y as [b|[]|]; simpl; try congruence; try contradiction;
    try reflexivity.
  intros Ha Hb. apply round_nonneg.
  apply (Qle_trans _ (0 + 0)); [discriminate | apply Qplus_le_compat; assumption].
Qed.

Lemma fold_add_nonneg l x :
  nonneg x -> Forall nonneg l -> nonneg (fold_left add l x).
Proof.
  intros Hx Hl. revert x Hx.
  induction Hl as [|y l Hy Hl IH]; intros x Hx; [exact Hx|].
  cbn [fold_left]. apply IH, add_nonneg; assumption.
Qed.

Lemma sum_nonneg l : Forall nonneg l -> nonneg (sum l).
Proof. apply fold_add_nonneg. simpl. apply Qle_refl. Qed.

Lemma mul_nonneg x b : nonneg x -> 0 < b -> nonneg (mul x (Fin b)).
Proof.
  intros Hx Hb. destruct x as [a|[]|]; simpl in *; try congruence; try contradiction.
  - apply round_nonneg. apply Qmult_le_0_compat; [exact Hx | apply Qlt_le_weak, Hb].
  - assert (E : Qeq_bool b 0 = false).
    { destruct (Qeq_bool b 0) eqn:E; [|reflexivity].
      apply Qeq_bool_eq in E. rewrite E in Hb. discriminate Hb. }
    rewrite E. unfold negative.
    assert (E' : Qle_bool 0 b = true) by (apply Qle_bool_iff, Qlt_le_weak, Hb).
    rewrite E'. reflexivity.
Qed.

(** A division by a number above 0 raises no exception. *)
Lemma div_positive x y :
  positive y -> exists r, div x y = Some r /\ (nonneg x -> nonneg r).
Proof.
  intros Hy. destruct y as [b|[]|]; simpl in Hy; try contradiction.
  unfold div.
  assert (E : Qeq_bool b 0 = false).
  { destruct (Qeq_bool b 0) eqn:E; [|reflexivity].
    apply Qeq_bool_eq in E. rewrite E in Hy. discriminate Hy. }
  rewrite E. eexists. split; [reflexivity|].
  destruct x as [a|[]|]; simpl; try congruence; try contradiction.
  - intros Ha. apply round_nonneg.
    apply Qle_shift_div_l; [exact Hy|]. rewrite Qmult_0_l. exact Ha.
  - intros _. unfold negative.
    assert (E' : Qle_bool 0 b = true) by (apply Qle_bool_iff, Qlt_le_weak, Hy).
    rewrite E'. reflexivity.
Qed.

Lemma quotient_positive x y :
  positive y -> div x y = Some (quotient x y).
Proof.
  intros Hy. destruct (div_positive x y Hy) as (r & Hr & _).
  unfold quotient. rewrite Hr. reflexivity.
Qed.

Lemma quotient_nonneg x y : nonneg x -> positive y -> nonneg (quotient x y).
Proof.
  intros Hx Hy. destruct (div_positive x y Hy) as (r & Hr & Hn).
  unfold quotient. rewrite Hr. exact (Hn Hx).
Qed.

(** The conversion of a count. *)
Lemma float_of_positive n :
  (1 <= n)%Z -> is_Some (of_int n) -> positive (float_of n).
Proof.
  intros H Hs. apply round_positive.
  - change 1 with (inject_Z 1). rewrite <- Zle_Qle. exact H.
  - rewrite Qabs_inject_Z, <- Zlt_Qlt. apply of_int_Some, Hs.
Qed.

Lemma div_int_count x n :
  (1 <= n)%Z -> is_Some (of_int n) ->
  div_int x n = Some (quotient x (float_of n)).
Proof.
  intros Hn Hs. unfold div_int. rewrite (of_int_float_of n Hs).
  apply quotient_positive, float_of_positive; assumption.
Qed.

Lemma of_int_smaller n m :
  (Z.abs n <= Z.abs m)%Z -> is_Some (of_int m) -> is_Some (of_int n).
Proof. rewrite !of_int_Some. lia. Qed.

Lemma round2_keeps_nonneg x : nonneg x -> nonneg (round2 x).
Proof.
  destruct x as [a|[]|]; simpl; try congruence; try contradiction; auto.
  intros Ha. apply round_nonneg, ReportFacts.round2_nonneg, Ha.
Qed.

Lemma abs_not_negative x : x <> NaN -> nonneg (abs x).
Proof.
  destruct x as [a|[]|]; simpl; try congruence; try reflexivity.
  intros _. apply Qabs_nonneg.
Qed.

Lemma round_not_NaN q : round q <> NaN.
Proof. destruct (round_cases q) as [[_ ->]|[_ ->]]; discriminate. Qed.

Lemma sub_not_NaN a b : sub (Fin a) (Fin b) <> NaN.
Proof. apply round_not_NaN. Qed.









End Binary64Facts.

(** ** Properties of [calculate_deviations] in binary64 arithmetic *)

Module Scoring64Facts.
Import PyFloat Spec AuditScoring64 Spec64 Binary64Facts.

(** *** The values of a metric *)

Lemma sum_int_bound values b :
  (0 <= b)%Z ->
  Forall (fun v => (Z.abs v <= b)%Z) values ->
  (Z.abs (PyNum.sum_int values) <= Binary64.len values * b)%Z.
Proof.
  intros Hb H. unfold Binary64.len. rewrite AuditScoringFacts.sum_int_foldr.
  induction H as [|v values Hv Hvs IH]; [simpl; lia|].
  cbn [foldr length]. rewrite Nat2Z.inj_succ. lia.
Qed.

Lemma converts_bound v :
  is_Some (Binary64.of_int v) -> (Z.abs v <= Binary64.overflow_threshold - 1)%Z.
Proof. rewrite of_int_Some. lia. Qed.

(** The mean of integers that convert is a finite double: the double
    nearest to their arithmetic mean. *)
Lemma mean_of_double values :
  values <> [] ->
  Forall (fun v => is_Some (Binary64.of_int v)) values ->
  mean_of values = Some (mean_double values)
  /\ exists a, mean_double values = Fin a.
Proof.
  intros Hne Hconv.
  assert (Hlen : (0 < Binary64.len values)%Z).
  { unfold Binary64.len. destruct values; [congruence|]. simpl length. lia. }
  assert (Hsum : (Z.abs (PyNum.sum_int values)
                  <= Binary64.len values * (Binary64.overflow_threshold - 1))%Z).
  { apply sum_int_bound; [pose proof threshold_pos; lia|].
    eapply Forall_impl; [exact Hconv|]. intros v. apply converts_bound. }
  assert (Hq : (Qabs (Spec.mean_value_of values)
                < inject_Z Binary64.overflow_threshold)%Q).
  { unfold Spec.mean_value_of, PyNum.len. fold (Binary64.len values).
    apply (Qle_lt_trans _ (inject_Z (Binary64.overflow_threshold - 1)));
      [|rewrite <- Zlt_Qlt; lia].
    apply Qabs_Qle_condition.
    assert (Hpos : (0 < inject_Z (Binary64.len values))%Q)
      by (change 0%Q with (inject_Z 0); rewrite <- Zlt_Qlt; exact Hlen).
    split.
    - apply Qle_shift_div_l; [exact Hpos|].
      rewrite <- inject_Z_opp, <- inject_Z_mult, <- Zle_Qle. lia.
    - apply Qle_shift_div_r; [exact Hpos|].
      rewrite <- inject_Z_mult, <- Zle_Qle. lia. }
  unfold mean_of, Binary64.int_true_divide, mean_double.
  destruct (Z.eqb_spec (Binary64.len values) 0) as [E|_]; [lia|].
  change (inject_Z (PyNum.sum_int values) / inject_Z (Binary64.len values))%Q
    with (Spec.mean_value_of values).
  rewrite (round_below _ Hq). split; [reflexivity|eauto].
Qed.

(** *** The deviation of a metric *)

Lemma percent_distance_percent m v :
  positive m -> is_Some (Binary64.of_int v) ->
  percent_distance m v = Some (percent m v) /\ nonneg (percent m v).
Proof.
  intros Hm Hv. unfold percent_distance, percent.
  rewrite (of_int_float_of v Hv).
  rewrite (quotient_positive _ m Hm). split; [reflexivity|].
  apply mul_nonneg; [|reflexivity].
  apply quotient_nonneg; [|exact Hm].
  apply abs_not_negative.
  destruct (of_int_finite v Hv) as [a ->].
  destruct m as [b| |]; [|contradiction|contradiction].
  apply sub_not_NaN.
Qed.

Lemma deviations_from_mean_percent m values :
  positive m ->
  Forall (fun v => is_Some (Binary64.of_int v)) values ->
  deviations_from_mean m values = Some (map (percent m) values)
  /\ Forall nonneg (map (percent m) values).
Proof.
  intros Hm H. unfold deviations_from_mean.
  induction H as [|v values Hv Hvs [IH1 IH2]]; [split; [reflexivity|constructor]|].
  destruct (percent_distance_percent m v Hm Hv) as [E Hn].
  cbn [mapM map]. rewrite E, IH1. split; [reflexivity|].
  constructor; assumption.
Qed.

(** No operation of the deviation raises, and the deviation is not
    negative. *)
Lemma avg_deviation_of_double values :
  values <> [] ->
  is_Some (Binary64.of_int (Binary64.len values)) ->
  Forall (fun v => is_Some (Binary64.of_int v)) values ->
  avg_deviation_of (mean_double values) values = Some (deviation_double values)
  /\ nonneg (deviation_double values).
Proof.
  intros Hne Hlen Hconv.
  destruct (mean_of_double values Hne Hconv) as [_ [a Ha]].
  unfold avg_deviation_of, deviation_double. cbn zeta. rewrite Ha.
  destruct (Binary64.gt (Fin a) (Fin 0)) eqn:E;
    [|split; [reflexivity | simpl; apply Qle_refl]].
  pose proof (gt_zero_positive a E) as Hm.
  destruct (deviations_from_mean_percent (Fin a) values Hm Hconv) as [Hd Hn].
  rewrite Hd.
  assert (Hl : Binary64.len (map (percent (Fin a)) values) = Binary64.len values)
    by (unfold Binary64.len; rewrite length_map; reflexivity).
  assert (H1 : (1 <= Binary64.len values)%Z).
  { unfold Binary64.len. destruct values; [congruence|]. simpl length. lia. }
  unfold float_mean. rewrite Hl.
  rewrite (div_int_count _ _ H1 Hlen). split; [reflexivity|].
  apply quotient_nonneg; [apply sum_nonneg, Hn|].
  apply float_of_positive; assumption.
Qed.


(** *** The loops on sound rows *)

Lemma sound_values rows field :
  sound_rows rows -> In field numeric_fields ->
  field_values field rows = Some (values_of field rows)
  /\ values_of field rows <> []
  /\ is_Some (Binary64.of_int (Binary64.len (values_of field rows)))
  /\ Forall (fun v => is_Some (Binary64.of_int v)) (values_of field rows).
Proof.
  intros (Hne & Hlen & Hrows) Hfield. split; [|split; [|split]].
  - apply AuditScoringFacts.field_values_complete. intros row Hrow.
    destruct (Hrows row field Hrow Hfield) as (v & Hv & _). eauto.
  - apply AuditScoringFacts.values_of_nonempty, Hne.
  - unfold Binary64.len, values_of in *. rewrite length_map. exact Hlen.
  - unfold values_of. apply Forall_forall. intros v Hv.
    apply list_elem_of_In, in_map_iff in Hv. destruct Hv as (row & <- & Hrow).
    destruct (Hrows row field Hrow Hfield) as (w & -> & Hw). exact Hw.
Qed.

Lemma close_file_closed fs : close_file fs = Some (closed fs).
Proof.
  unfold close_file, closed. rewrite div_int_count; [reflexivity| |].
  - vm_compute. discriminate.
  - apply of_int_Some. reflexivity.
Qed.

Lemma metric_step_sound rows fs (om : gmap string overall_metric) field m :
  sound_rows rows -> In field numeric_fields ->
  om !! field = Some m ->
  metric_step rows (fs, om) field
  = Some (record_field rows fs field,
          <[field := bump (deviation_double (values_of field rows)) m]> om).
Proof.
  intros Hrows Hfield Hm.
  destruct (sound_values rows field Hrows Hfield) as (Hv & Hne & Hlen & Hconv).
  unfold metric_step, record_field. rewrite Hv.
  destruct (values_of field rows) as [|v vs]; [congruence|].
  destruct (mean_of_double (v :: vs) Hne Hconv) as [-> _].
  destruct (avg_deviation_of_double (v :: vs) Hne Hlen Hconv) as [-> _].
  unfold count_metric. cbn [fst snd]. rewrite Hm. reflexivity.
Qed.

Lemma metric_loop_sound rows fields fs (om : gmap string overall_metric) :
  sound_rows rows ->
  (forall field, In field fields -> In field numeric_fields) ->
  List.NoDup fields ->
  (forall field, In field fields -> is_Some (om !! field)) ->
  exists om',
    for_each (metric_step rows) fields (fs, om)
    = Some (fold_left (record_field rows) fields fs, om')
    /\ forall g,
         om' !! g
         = if bool_decide (g ∈ fields)
           then option_map (bump (deviation_double (values_of g rows))) (om !! g)
           else om !! g.
Proof.
  intros Hrows. revert fs om.
  induction fields as [|field fields IH]; intros fs om Hsub Hnd Hom.
  - exists om. split; reflexivity.
  - destruct (Hom field (or_introl eq_refl)) as [m Hm].
    inversion Hnd as [|? ? Hout Hnd']; subst.
    pose proof (metric_step_sound rows fs om field m Hrows
                  (Hsub field (or_introl eq_refl)) Hm) as Hstep.
    destruct (IH (record_field rows fs field)
                 (<[field := bump (deviation_double (values_of field rows)) m]> om))
      as (om' & Hloop & Hlookup).
    + intros f Hf. apply Hsub. right. exact Hf.
    + exact Hnd'.
    + intros f Hf. destruct (decide (field = f)) as [->|Hne].
      * rewrite lookup_insert_eq. eauto.
      * rewrite lookup_insert_ne by exact Hne. apply Hom. right. exact Hf.
    + exists om'. cbn [for_each fold_left]. rewrite Hstep.
      split; [exact Hloop|].
      intros g. rewrite Hlookup.
      destruct (decide (g = field)) as [->|Hne].
      * rewrite (bool_decide_eq_false_2 (field ∈ fields))
          by (rewrite list_elem_of_In; exact Hout).
        rewrite bool_decide_eq_true_2 by (left; reflexivity).
        rewrite lookup_insert_eq, Hm. reflexivity.
      * rewrite lookup_insert_ne by congruence.
        destruct (bool_decide (g ∈ fields)) eqn:E.
        -- apply bool_decide_eq_true in E.
           rewrite bool_decide_eq_true_2 by (right; exact E). reflexivity.
        -- apply bool_decide_eq_false in E.
           rewrite bool_decide_eq_false_2; [reflexivity|].
           intros Hin. apply elem_of_cons in Hin as [Hin|Hin];
             [congruence|contradiction].
Qed.


Lemma counted_nil field m : counted field [] m = m.
Proof.
  destruct m as [t c a]. unfold counted, Binary64.len.
  cbn [map fold_left length om_total_deviation om_count om_avg_deviation].
  f_equal. lia.
Qed.

Lemma counted_cons field entry groups m :
  counted field (entry :: groups) m
  = counted field groups (bump (deviation_double (values_of field (snd entry))) m).
Proof.
  unfold counted, bump, Binary64.len.
  cbn [map fold_left length om_total_deviation om_count om_avg_deviation].
  f_equal. lia.
Qed.

Lemma file_loop_sound groups d0 :
  (forall name rows, In (name, rows) groups -> sound_rows rows) ->
  (forall field, In field numeric_fields ->
     is_Some (ov_metrics (overall d0) !! field)) ->
  exists d, for_each file_step groups d0 = Some d /\ files_done groups d0 d.
Proof.
  revert d0. induction groups as [|[name rows] groups IH]; intros d0 Hgroups Hom.
  - exists d0. split; [reflexivity|]. repeat split.
    intros field _. destruct (ov_metrics (overall d0) !! field) as [m|];
      [|reflexivity].
    cbn [option_map]. rewrite counted_nil. reflexivity.
  - pose proof (Hgroups name rows (or_introl eq_refl)) as Hrows.
    destruct (metric_loop_sound rows numeric_fields new_file_stats
                (ov_metrics (overall d0)) Hrows (fun f Hf => Hf)
                ReportFacts.numeric_fields_NoDup Hom)
      as (om & Hloop & Hlookup).
    cbn [for_each]. unfold file_step at 1. rewrite Hloop, close_file_closed.
    fold (file_stats_of rows).
    match goal with
    | |- exists d, for_each file_step groups ?d1 = Some d /\ _ =>
        destruct (IH d1) as (d & Hd & Hp & Ht & Ha & Hm)
    end.
    + intros n rs Hin. apply (Hgroups n rs). right. exact Hin.
    + intros f Hf. cbn [overall ov_metrics]. rewrite Hlookup.
      rewrite bool_decide_eq_true_2 by (apply list_elem_of_In; exact Hf).
      destruct (Hom f Hf) as [m ->]. eauto.
    + exists d. split; [exact Hd|].
      cbn [per_file overall ov_metrics ov_total_deviation ov_avg_total_deviation]
        in Hp, Ht, Ha, Hm.
      split; [exact Hp|]. split; [exact Ht|]. split; [exact Ha|].
      intros field Hfield. rewrite (Hm field Hfield), Hlookup.
      rewrite bool_decide_eq_true_2 by (apply list_elem_of_In; exact Hfield).
      destruct (ov_metrics (overall d0) !! field) as [m|]; [|reflexivity].
      cbn [option_map]. rewrite counted_cons. reflexivity.
Qed.

Lemma average_loop_sound (om : gmap string overall_metric) fields :
  List.NoDup fields ->
  (forall field, In field fields ->
     exists m, om !! field = Some m
               /\ ((0 < om_count m)%Z -> is_Some (Binary64.of_int (om_count m)))) ->
  exists om',
    for_each average_metric fields om = Some om'
    /\ forall g, om' !! g
                 = if bool_decide (g ∈ fields) then option_map averaged (om !! g)
                   else om !! g.
Proof.
  revert om. induction fields as [|field fields IH]; intros om Hnd Hom.
  - exists om. split; reflexivity.
  - destruct (Hom field (or_introl eq_refl)) as (m & Hm & Hcount).
    inversion Hnd as [|? ? Hout Hnd']; subst.
    assert (Hstep : average_metric om field = Some (<[field := averaged m]> om)).
    { unfold average_metric, averaged. rewrite Hm.
      destruct (0 <? om_count m)%Z eqn:E.
      - apply Z.ltb_lt in E.
        rewrite div_int_count; [reflexivity|lia|exact (Hcount E)].
      - rewrite insert_id by exact Hm. reflexivity. }
    destruct (IH (<[field := averaged m]> om) Hnd') as (om' & Hloop & Hlookup).
    + intros f Hf. destruct (decide (field = f)) as [->|Hne]; [contradiction|].
      rewrite lookup_insert_ne by exact Hne. apply Hom. right. exact Hf.
    + exists om'. cbn [for_each]. rewrite Hstep. split; [exact Hloop|].
      intros g. rewrite Hlookup.
      destruct (decide (g = field)) as [->|Hne].
      * rewrite (bool_decide_eq_false_2 (field ∈ fields))
          by (rewrite list_elem_of_In; exact Hout).
        rewrite bool_decide_eq_true_2 by (left; reflexivity).
        rewrite lookup_insert_eq, Hm. reflexivity.
      * rewrite lookup_insert_ne by congruence.
        destruct (bool_decide (g ∈ fields)) eqn:E.
        -- apply bool_decide_eq_true in E.
           rewrite bool_decide_eq_true_2 by (right; exact E). reflexivity.
        -- apply bool_decide_eq_false in E.
           rewrite bool_decide_eq_false_2; [reflexivity|].
           intros Hin. apply elem_of_cons in Hin as [Hin|Hin];
             [congruence|contradiction].
Qed.

(** *** The groups of a collection *)

Lemma float_sized_check_sound results :
  float_sized_check results = true -> float_sized results.
Proof.
  unfold float_sized_check, float_sized. intros H.
  apply andb_prop in H as [Hlen Hrows]. split.
  - exact (bool_decide_eq_true_1 _ Hlen).
  - rewrite forallb_forall in Hrows. intros row field v Hrow Hv.
    specialize (Hrows _ Hrow). rewrite forallb_forall in Hrows.
    apply (bool_decide_eq_true_1 _ (Hrows (field, v)
             (proj1 (list_elem_of_In _ _) (proj2 (elem_of_map_to_list _ _ _) Hv)))).
Qed.

Lemma group_append_length (groups : list (string * list Row)) row :
  (length (group_append groups row) <= S (length groups))%nat.
Proof.
  induction groups as [|[f rs] groups IH]; simpl; [lia|].
  destruct (String.eqb f (filename row)); simpl; lia.
Qed.

Lemma groups_length results :
  (length (group_by_filename results) <= length results)%nat.
Proof.
  induction results as [|row results IH] using rev_ind; [simpl; lia|].
  rewrite AuditScoringFacts.group_by_filename_snoc, length_app.
  pose proof (group_append_length (group_by_filename results) row).
  simpl length. lia.
Qed.

Lemma rows_of_length name results :
  (length (rows_of name results) <= length results)%nat.
Proof. unfold rows_of. apply List.filter_length_le. Qed.

Lemma groups_sound results name rows :
  complete results -> float_sized results ->
  In (name, rows) (group_by_filename results) -> sound_rows rows.
Proof.
  intros Hcomplete [Hlen Hsized] Hin.
  destruct (AuditScoringFacts.group_rows _ _ _ Hin) as [-> Hne].
  split; [exact Hne|]. split.
  - apply (of_int_smaller _ (Binary64.len results)); [|exact Hlen].
    pose proof (rows_of_length name results). unfold Binary64.len. lia.
  - intros row field Hrow Hfield.
    apply List.filter_In in Hrow as [Hrow _].
    destruct (Hcomplete row field Hrow Hfield) as [v Hv].
    exists v. split; [exact Hv | exact (Hsized row field v Hrow Hv)].
Qed.




(** *** The report of sound rows *)

Lemma new_report_lookup g :
  In g numeric_fields ->
  ov_metrics (overall new_deviations) !! g = Some zero_metric.
Proof.
  unfold new_deviations. cbn [overall ov_metrics].
  generalize (∅ : gmap string overall_metric).
  induction numeric_fields as [|f fields IH] using rev_ind; intros m Hg;
    [contradiction|].
  rewrite fold_left_app. cbn [fold_left].
  destruct (String.eqb_spec f g) as [->|Hne].
  - apply lookup_insert_eq.
  - rewrite lookup_insert_ne by exact Hne. apply IH.
    apply in_app_or in Hg as [Hg|[Hg|[]]]; [exact Hg|congruence].
Qed.

(** On complete rows of a size that converts [calculate_deviations]
    returns a report; the statistics of each file are those of its rows,
    and the overall numbers are computed from the files in the order of
    their first rows. *)
Lemma report_of_sound_rows results :
  complete results -> float_sized results ->
  let groups := group_by_filename results in
  exists d,
    calculate_deviations results = Some d
    /\ per_file d
       = fold_left (fun m entry => <[fst entry := file_stats_of (snd entry)]> m)
                   groups ∅
    /\ (groups <> [] ->
        ov_avg_total_deviation (overall d)
        = Binary64.round2
            (float_mean
               (map (fun entry => fs_avg_total_deviation (file_stats_of (snd entry)))
                    groups)))
    /\ (forall g,
          In g numeric_fields ->
          ov_metrics (overall d) !! g
          = Some (match groups with
                  | [] => zero_metric
                  | _ => averaged (counted g groups zero_metric)
                  end)).
Proof.
  intros Hcomplete Hsized groups.
  destruct (file_loop_sound groups new_deviations)
    as (d & Hd & Hp & Ht & Ha & Hm).
  - intros name rows Hin. exact (groups_sound results name rows Hcomplete Hsized Hin).
  - intros f Hf. rewrite (new_report_lookup f Hf). eauto.
  - assert (Hom : forall g, In g numeric_fields ->
                    ov_metrics (overall d) !! g
                    = Some (counted g groups zero_metric)).
    { intros g Hg. rewrite (Hm g Hg), (new_report_lookup g Hg). reflexivity. }
    unfold calculate_deviations. fold groups. rewrite Hd.
    destruct groups as [|entry groups'] eqn:Eg.
    + exists d. split; [reflexivity|]. split; [exact Hp|].
      split; [congruence|].
      intros g Hg. rewrite (Hom g Hg), counted_nil. reflexivity.
    + assert (Hlen : (1 <= Binary64.len (entry :: groups'))%Z
                     /\ is_Some (Binary64.of_int (Binary64.len (entry :: groups')))).
      { split; [unfold Binary64.len; simpl length; lia|].
        destruct Hsized as [Hl _].
        apply (of_int_smaller _ (Binary64.len results)); [|exact Hl].
        pose proof (groups_length results) as Hg. fold groups in Hg.
        rewrite Eg in Hg. unfold Binary64.len. lia. }
      destruct Hlen as [H1 Hconv].
      destruct (average_loop_sound (ov_metrics (overall d)) numeric_fields
                  ReportFacts.numeric_fields_NoDup)
        as (om & Hloop & Hlookup).
      * intros f Hf. eexists. split; [exact (Hom f Hf)|].
        intros _. unfold counted. cbn [om_count zero_metric]. exact Hconv.
      * rewrite (div_int_count _ _ H1 Hconv), Hloop.
        eexists. split; [reflexivity|].
        cbn [per_file overall ov_avg_total_deviation ov_metrics].
        split; [exact Hp|]. split.
        -- intros _. rewrite Ht. cbn [new_deviations overall ov_total_deviation].
           unfold float_mean, Binary64.sum, Binary64.len. rewrite length_map.
           reflexivity.
        -- intros g Hg. rewrite Hlookup.
           rewrite bool_decide_eq_true_2 by (apply list_elem_of_In; exact Hg).
           rewrite (Hom g Hg). reflexivity.
Qed.

(** A report is of complete rows: a row that lacks a metric raises. *)
Lemma report_needs_complete_rows results d :
  calculate_deviations results = Some d -> complete results.
Proof.
  unfold calculate_deviations. intros H row field Hrow Hfield.
  destruct (for_each file_step (group_by_filename results) new_deviations)
    as [d0|] eqn:E; [clear H|discriminate].
  destruct (ReportFacts.row_in_group results row Hrow) as [Hgroup Hin].
  destruct (ReportFacts.for_each_Some_inv _ _ _ _ _ E Hgroup) as (d1 & d2 & Hstep).
  unfold file_step in Hstep.
  destruct (for_each (metric_step (rows_of (filename row) results)) numeric_fields
              (new_file_stats, ov_metrics (overall d1))) as [st|] eqn:Eloop;
    [clear Hstep|discriminate].
  destruct (ReportFacts.for_each_Some_inv _ _ _ _ _ Eloop Hfield)
    as (st1 & st2 & Hmetric).
  unfold metric_step in Hmetric.
  destruct (field_values field (rows_of (filename row) results)) as [values|] eqn:Ev;
    [|discriminate].
  exact (ReportFacts.field_values_Some _ _ _ _ Ev Hin).
Qed.

Lemma report_lookup results d name :
  float_sized results ->
  calculate_deviations results = Some d ->
  per_file d !! name
  = match rows_of name results with
    | [] => None
    | rows => Some (file_stats_of rows)
    end.
Proof.
  intros Hsized H.
  destruct (report_of_sound_rows results (report_needs_complete_rows _ _ H) Hsized)
    as (d' & Hd' & Hp & _).
  cbn zeta in Hp. assert (d' = d) by congruence. subst d'. rewrite Hp.
  destruct (AuditScoringFacts.group_by_filename_spec results) as [Hnd Hget].
  specialize (Hget name).
  destruct (rows_of name results) as [|r rs] eqn:Er.
  - apply AuditScoringFacts.table_get_None in Hget.
    rewrite AuditScoringFacts.fold_insert_lookup_other by exact Hget.
    apply lookup_empty.
  - apply ScoreMappingsFacts.table_get_In in Hget.
    exact (AuditScoringFacts.fold_insert_lookup file_stats_of _ _ _ _ Hnd Hget).
Qed.


(** *** The statistics of one file *)

Section OneFile.
Variable rows : list Row.
Hypothesis rows_sound : sound_rows rows.

Let dev (field : string) : pyfloat := deviation_double (values_of field rows).










End OneFile.

(** *** The report *)





Example three_cycles_most_inconsistent :
  most_inconsistent_of three_cycles "x.py" = Some (Some "readability").
Proof. vm_compute. reflexivity. Qed.

(** Two metrics with the values 0, 100, 33 and 0, 33, 100 have the same
    deviation over the rationals; the binary64 sums differ in their last
    digit, and the second metric is reported. *)
Example rounding_decides_between_equal_deviations :
  most_inconsistent_of permuted_cycles "x.py" = Some (Some "code_smells")
  /\ Binary64.gt (deviation_in permuted_cycles "x.py" "code_smells")
                 (deviation_in permuted_cycles "x.py" "technical_debt") = true
  /\ Qeq (Spec.deviation_value_of [0; 33; 100]) (Spec.deviation_value_of [0; 100; 33]).
Proof. repeat split; vm_compute; reflexivity. Qed.


(** *** Averages *)



(** The averages of two files, 0 and 11.11, have the overall average 5.55:
    the double 11.11 is below the decimal number. *)
Example two_files_average :
  option_map (fun d => (file_average d "a.py", file_average d "b.py",
                        ov_avg_total_deviation (overall d)))
             (calculate_deviations two_files)
  = Some (Fin 0, Binary64.round (1111 # 100), Binary64.round (555 # 100)).
Proof. vm_compute. reflexivity. Qed.

End Scoring64Facts.

(** ** More on the binary64 report: errors and roll-up *)

Module Report64Facts.
Import PyFloat Spec AuditScoring64 Spec64 Binary64Facts Scoring64Facts.

(** X3.  When the number of rows and the scores convert to [float],
    [calculate_deviations] returns a report exactly when every row has
    every declared metric column; a row that lacks one makes it raise.  The
    report then has an entry for a file name exactly when some row has that
    file name.  The report of no rows is the initial one: no entry, and 0
    for every overall number.  A score from 2^1024 on makes it raise,
    though the row is complete. *)
Theorem report_exists_iff_rows_complete results :
  float_sized results ->
  (is_Some (calculate_deviations results) <-> complete results)
  /\ (forall d name,
        calculate_deviations results = Some d ->
        (is_Some (per_file d !! name)
         <-> exists row, In row results /\ filename row = name))
  /\ calculate_deviations [] = Some new_deviations
  /\ complete_check [huge_row] = true
  /\ calculate_deviations [huge_row] = None.
Proof.
  intros Hsized.
  split; [|split; [|split; [reflexivity|split; vm_compute; reflexivity]]].
  - split.
    + intros [d H]. exact (report_needs_complete_rows _ _ H).
    + intros H. destruct (report_of_sound_rows results H Hsized) as (d & Hd & _).
      exists d. exact Hd.
  - intros d name H. rewrite (report_lookup _ _ _ Hsized H). split.
    + destruct (rows_of name results) as [|row rows] eqn:E; intros [fs Hfs];
        [discriminate|].
      exists row.
      assert (Hin : In row (rows_of name results)) by (rewrite E; now left).
      apply List.filter_In in Hin as [Hin Hname].
      apply String.eqb_eq in Hname. auto.
    + intros (row & Hrow & Hname).
      assert (Hin : In row (rows_of name results)).
      { apply List.filter_In. split; [exact Hrow|]. now apply String.eqb_eq. }
      destruct (rows_of name results); [contradiction|]. eexists. reflexivity.
Qed.

Lemma report_exists_iff_rows_complete_witness :
  (is_Some (calculate_deviations two_files) <-> complete two_files)
  /\ (forall d name,
        calculate_deviations two_files = Some d ->
        (is_Some (per_file d !! name)
         <-> exists row, In row two_files /\ filename row = name))
  /\ calculate_deviations [] = Some new_deviations
  /\ complete_check [huge_row] = true
  /\ calculate_deviations [huge_row] = None.
Proof.
  apply (report_exists_iff_rows_complete two_files).
  apply float_sized_check_sound. vm_compute. reflexivity.
Defined.



End Report64Facts.

(** ** The keys of the parsed mappings and of the rows *)

Module SchemaFacts.
Import PyFloat Spec Props Auditor AuditorResponse RunTest AuditScoring.
Import AuditorFacts ValidityFacts ResponseFacts.

Lemma gate_keys lines r :
  is_script_gate lines = Some r ->
  dom (fst r) = ({["is_script"; "is_script_explanation"]} : gset string).
Proof.
  intros E. destruct (is_script_gate_shape _ _ E) as [e ->].
  cbn [fst]. rewrite !dom_insert_L, dom_empty_L. set_solver.
Qed.

Lemma numeric_stored_answered text entry :
  is_Some (numeric_stored (lines_of text) entry)
  <-> is_Some (raw_answer text (snd entry)).
Proof.
  unfold numeric_stored, raw_answer.
  destruct (line_starting (snd entry) (lines_of text)) as [line|];
    [|split; intros [x H]; discriminate].
  destruct (after_colon line) as [answer|]; cbn [option_map];
    split; intros [x H]; try discriminate; eauto.
Qed.

(** C6, as amended.  The mapping that [parse_audit_response] of
    [ai_auditor.py] returns has no key outside the schema, and unless the
    gate stops the response it has every key of the schema: the parser
    itself stores the default [None] for an entry that the response does
    not answer.  The mapping of [ai_auditor_num.py] has no key outside the
    schema other than [lines_of_code] and [lines_of_doc], and unless the
    gate stops the response it has a key of the schema exactly when the
    response answers the entry: no default is applied to it.  A response
    that the gate stops gives the two keys of the gate in both.  The
    default of a metric, 0, is applied by [process_file] to what
    [_parse_audit_response] returned: for either auditor and every
    response there is a row, and it has every declared metric. *)
Theorem parsed_keys_and_schema response_text :
  dom (fst (AIAuditor.parse_audit_response response_text)) ⊆ schema_keys
  /\ dom (fst (AIAuditorNum.parse_audit_response response_text))
     ⊆ schema_keys ∪ {["lines_of_code"; "lines_of_doc"]}
  /\ (~ gated response_text ->
      dom (fst (AIAuditor.parse_audit_response response_text)) = schema_keys
      /\ forall entry,
           In entry schema_mapping ->
           (is_Some (fst (AIAuditorNum.parse_audit_response response_text)
                     !! fst entry)
            <-> is_Some (raw_answer response_text (snd entry))))
  /\ (gated response_text ->
      dom (fst (AIAuditor.parse_audit_response response_text))
      = {["is_script"; "is_script_explanation"]}
      /\ dom (fst (AIAuditorNum.parse_audit_response response_text))
         = {["is_script"; "is_script_explanation"]})
  /\ (forall file_name code_content model_number cycle,
        exists textual numeric,
          process_file file_name code_content
            (with_model_used model_number
               (AIAuditorResponse._parse_audit_response response_text))
            cycle fieldnames = Some textual
          /\ process_file file_name code_content
               (with_model_used model_number
                  (AIAuditorNumResponse._parse_audit_response response_text))
               cycle fieldnames = Some numeric
          /\ forall field,
               In field numeric_fields ->
               is_Some (row_scores textual !! field)
               /\ is_Some (row_scores numeric !! field)).
Proof.
  split; [apply textual_keys|]. split; [apply numeric_keys|].
  split; [|split].
  - intros Hng. split; [apply textual_keys_complete, Hng|].
    intros entry Hin. rewrite (numeric_entry _ _ Hng Hin).
    apply numeric_stored_answered.
  - intros Hg. apply is_script_gate_gated in Hg. unfold lines_of in Hg.
    unfold AIAuditor.parse_audit_response, AIAuditorNum.parse_audit_response.
    rewrite Hg. split; exact (gate_keys _ _ Hg).
  - intros file_name code_content model_number cycle.
    destruct (parsed_responses_have_rows response_text file_name code_content
                model_number cycle) as [[textual Ht] [numeric Hn]].
    exists textual, numeric. split; [exact Ht|]. split; [exact Hn|].
    intros field Hfield. split.
    + exact (processed_row_complete _ _ _ _ _ _ Ht Hfield).
    + exact (processed_row_complete _ _ _ _ _ _ Hn Hfield).
Qed.

(** Of a response that answers nothing, [ai_auditor.py] returns the 35
    keys of the schema and [ai_auditor_num.py] returns none. *)
Example keys_of_an_empty_response :
  dom (fst (AIAuditor.parse_audit_response "")) = schema_keys
  /\ fst (AIAuditorNum.parse_audit_response "") = ∅.
Proof.
  split; [|vm_compute; reflexivity].
  apply textual_keys_complete. intros (line & answer & H & _).
  vm_compute in H. discriminate.
Qed.

End SchemaFacts.
